(** * University web site: data-access layer and API routes

    A shallow embedding of [lib/db.ts], [lib/news.ts], [lib/faculty.ts],
    [lib/navigation.ts] and of the API routes under [pages/api/news] and
    [pages/api/faculty], together with the relational store they talk to
    (tables as in [db/init-db.sql]).

    Conventions
    - a JavaScript string is the [string] of its UTF-8 bytes; white space
      is that of ECMAScript, the characters of two and three bytes
      included;
    - a JavaScript number that the code uses as an integer is a [Z];
      the result of [parseInt] is a [number], [NaN] or an integer.
      JavaScript computes exactly with the integers up to 2^53 - 1 only:
      the statements on pages and offsets keep within them ([Spec.safe]);
    - the ids of the tables are of type INTEGER, and the store refuses to
      compare the column with a number outside its 32 bits; this refusal
      is not part of the store below: the statements in which the id
      need not be that of a row take it within 32 bits ([Spec.int32]);
    - [undefined] for an optional TypeScript field is [None]; a nullable
      column read back from the store is [None] when it holds NULL;
    - asynchronous code is sequential here: every [await] is a bind of the
      store monad [M]; [console.error] is not modelled. *)

From Stdlib Require Import ZArith List String Ascii Bool Lia QArith.
From Stdlib Require Import DecimalString DecimalNat DecimalFacts Sorted Permutation.
From stdpp Require Import gmap.
Import ListNotations.

Local Open Scope string_scope.
Local Open Scope Z_scope.
Local Open Scope list_scope.

(* ===================================================================== *)
(** ** JavaScript strings and numbers *)
(* ===================================================================== *)

Module Js.

(** White space skipped by [String.prototype.trim] and by [parseInt]:
    the characters of one byte, TAB, LF, VT, FF, CR and SPACE. *)
Definition isWhiteSpace (c : ascii) : bool :=
  let n := nat_of_ascii c in
  ((9 <=? n)%nat && (n <=? 13)%nat) || (n =? 32)%nat.

(** The white space of two bytes: U+00A0. *)
Definition isWhiteSpace2 (c1 c2 : ascii) : bool :=
  ((nat_of_ascii c1 =? 194) && (nat_of_ascii c2 =? 160))%nat.

(** The white space of three bytes: U+1680, U+2000 to U+200A, the line
    terminators U+2028 and U+2029, U+202F, U+205F, U+3000 and U+FEFF. *)
Definition isWhiteSpace3 (c1 c2 c3 : ascii) : bool :=
  let a := nat_of_ascii c1 in
  let b := nat_of_ascii c2 in
  let c := nat_of_ascii c3 in
  (((a =? 225) && (b =? 154) && (c =? 128))
   || ((a =? 226) && (b =? 128)
       && (((128 <=? c) && (c <=? 138)) || (c =? 168) || (c =? 169) || (c =? 175)))
   || ((a =? 226) && (b =? 129) && (c =? 159))
   || ((a =? 227) && (b =? 128) && (c =? 128))
   || ((a =? 239) && (b =? 187) && (c =? 191)))%nat.

Fixpoint trimStart (s : string) : string :=
  match s with
  | EmptyString => EmptyString
  | String c1 s1 =>
      if isWhiteSpace c1 then trimStart s1
      else
        match s1 with
        | EmptyString => s
        | String c2 s2 =>
            if isWhiteSpace2 c1 c2 then trimStart s2
            else
              match s2 with
              | EmptyString => s
              | String c3 s3 =>
                  if isWhiteSpace3 c1 c2 c3 then trimStart s3 else s
              end
        end
  end.

(** Bytes are dropped from the end as long as what is left from them on
    is white space only. *)
Fixpoint trimEnd (s : string) : string :=
  match s with
  | EmptyString => EmptyString
  | String c s' =>
      match trimStart s with
      | EmptyString => EmptyString
      | _ => String c (trimEnd s')
      end
  end.

(** [s.trim()] *)
Definition trim (s : string) : string := trimEnd (trimStart s).

(** [s === ''] *)
Definition isEmpty (s : string) : bool :=
  match s with EmptyString => true | _ => false end.

(** Truthiness of an optional string: [undefined] and [''] are falsy. *)
Definition truthy (x : option string) : option string :=
  match x with
  | Some s => if isEmpty s then None else Some s
  | None => None
  end.

(** [hay.includes(needle)] *)
Fixpoint includes (needle hay : string) : bool :=
  String.prefix needle hay ||
  match hay with
  | EmptyString => false
  | String _ hay' => includes needle hay'
  end.

(** [s.toLowerCase()] on the ASCII letters. *)
Definition lowerChar (c : ascii) : ascii :=
  let n := nat_of_ascii c in
  if ((65 <=? n)%nat && (n <=? 90)%nat)%bool then ascii_of_nat (n + 32) else c.

Fixpoint toLowerCase (s : string) : string :=
  match s with
  | EmptyString => EmptyString
  | String c s' => String (lowerChar c) (toLowerCase s')
  end.

(** Numbers as the routes see them: [NaN] or an integer value. *)
Inductive number := NaN | Num (z : Z).

Definition isNaN (x : number) : bool :=
  match x with NaN => true | Num _ => false end.

(** [x < k]: every comparison with [NaN] is false. *)
Definition lt (x : number) (k : Z) : bool :=
  match x with NaN => false | Num z => z <? k end.

Definition isDigit (c : ascii) : bool :=
  let n := nat_of_ascii c in ((48 <=? n)%nat && (n <=? 57)%nat)%bool.

Definition digitValue (c : ascii) : Z := Z.of_nat (nat_of_ascii c) - 48.

(** The longest prefix of decimal digits of [s], read in base ten from
    the accumulator [acc]; [seen] records whether a digit was read. *)
Fixpoint digits (s : string) (acc : Z) (seen : bool) : option Z :=
  match s with
  | String c s' =>
      if isDigit c then digits s' (10 * acc + digitValue c) true
      else if seen then Some acc else None
  | EmptyString => if seen then Some acc else None
  end.

(** [parseInt(s, 10)]: leading white space is skipped, then an optional
    sign, then the longest run of decimal digits; what follows the
    digits is ignored, and no digit at all gives [NaN]. *)
Definition parseInt (s : string) : number :=
  match trimStart s with
  | String "-" r => match digits r 0 false with Some n => Num (- n) | None => NaN end
  | String "+" r => match digits r 0 false with Some n => Num n | None => NaN end
  | r => match digits r 0 false with Some n => Num n | None => NaN end
  end.

End Js.

(* ===================================================================== *)
(** ** Records of [types.ts] *)
(* ===================================================================== *)

Module NewsItem.
Record t := mk {
  id : Z;
  title : string;
  slug : string;
  summary : option string;
  content : string;
  thumbnailUrl : option string;
  author : option string;
  category : option string;
  publishedAt : Z;
  updatedAt : Z;
  isPublished : bool;
  viewCount : Z;
  tags : option (list string) }.
End NewsItem.

Module FacultyMember.
Record t := mk {
  id : Z;
  name : string;
  nameEn : option string;
  title : string;
  category : string;
  photoUrl : option string;
  email : option string;
  phone : option string;
  office : option string;
  researchInterests : option (list string);
  education : option string;
  biography : option string;
  publications : option string;
  projects : option string;
  awards : option string;
  sortOrder : Z;
  isVisible : bool;
  createdAt : Z;
  updatedAt : Z }.
End FacultyMember.

(** A row of the [navigation] table; the [children] of the TypeScript
    interface live in the object graph built by [getNavigationStructure]. *)
Module NavItem.
Record t := mk {
  id : Z;
  label : string;
  url : string;
  parentId : option Z;
  sortOrder : Z;
  isVisible : bool;
  icon : option string;
  description : option string }.
End NavItem.

(** [Omit<NewsItem, 'id' | 'viewCount' | 'publishedAt' | 'updatedAt'>] *)
Module NewsInput.
Record t := mk {
  title : string;
  slug : string;
  summary : option string;
  content : string;
  thumbnailUrl : option string;
  author : option string;
  category : option string;
  isPublished : bool;
  tags : option (list string) }.
End NewsInput.

(** [Partial<Omit<NewsItem, ...>>]: [None] is [undefined].  The PUT route
    lets a JSON [null] through for [tags], hence [Some None] there. *)
Module NewsPatch.
Record t := mk {
  title : option string;
  slug : option string;
  summary : option string;
  content : option string;
  thumbnailUrl : option string;
  author : option string;
  category : option string;
  isPublished : option bool;
  tags : option (option (list string)) }.

(** The object literal [{}]. *)
Definition empty : t :=
  mk None None None None None None None None None.
End NewsPatch.

(** [Omit<FacultyMember, 'id' | 'createdAt' | 'updatedAt'>]; for the
    optional fields [createFaculty] treats [null] and [undefined] alike,
    both are [None]. *)
Module FacultyInput.
Record t := mk {
  name : string;
  nameEn : option string;
  title : string;
  category : string;
  photoUrl : option string;
  email : option string;
  phone : option string;
  office : option string;
  researchInterests : option (list string);
  education : option string;
  biography : option string;
  publications : option string;
  projects : option string;
  awards : option string;
  sortOrder : Z;
  isVisible : bool }.
End FacultyInput.

(** [Partial<Omit<FacultyMember, ...>>]; [Some None] for
    [researchInterests] is a JSON [null] let through by the PUT route. *)
Module FacultyPatch.
Record t := mk {
  name : option string;
  nameEn : option string;
  title : option string;
  category : option string;
  photoUrl : option string;
  email : option string;
  phone : option string;
  office : option string;
  researchInterests : option (option (list string));
  education : option string;
  biography : option string;
  publications : option string;
  projects : option string;
  awards : option string;
  sortOrder : option Z;
  isVisible : option bool }.

Definition empty : t :=
  mk None None None None None None None None None None None None None None
     None None.
End FacultyPatch.

(* ===================================================================== *)
(** ** The relational store behind [sql] *)
(* ===================================================================== *)

Module Store.

(** A positional parameter as the driver sends it. *)
Inductive sqlval :=
| VNull
| VText (s : string)
| VInt (z : Z)
| VBool (b : bool)
| VTextArray (l : list string).

(** [x || null] for an optional string: the empty string is falsy. *)
Definition orNull (x : option string) : sqlval :=
  match x with
  | Some s => if Js.isEmpty s then VNull else VText s
  | None => VNull
  end.

(** [x || null] for an optional array: every array is truthy. *)
Definition arrayOrNull (x : option (list string)) : sqlval :=
  match x with Some l => VTextArray l | None => VNull end.

Record CountRow := { count : string }.
Record IdRow := { returned_id : Z }.

(** Conjuncts of the WHERE clauses the repositories build; [p] is the
    number of the positional parameter [$p]. *)
Inductive news_cond :=
| NewsIsPublished                 (* is_published = true *)
| NewsCategoryEq (p : nat)        (* category = $p *)
| NewsIdEq (p : nat)              (* id = $p *)
| NewsSlugEq (p : nat).           (* slug = $p *)

Inductive news_col :=
| NTitle | NSlug | NSummary | NContent | NThumbnailUrl | NAuthor
| NCategory | NIsPublished | NTags.

Inductive faculty_cond :=
| FacultyIsVisible                (* is_visible = true *)
| FacultyCategoryEq (p : nat)     (* category = $p *)
| FacultySearch (p : nat)         (* name ILIKE $p OR name_en ILIKE $p OR
                                     title ILIKE $p OR
                                     $p = ANY(research_interests) *)
| FacultyIdEq (p : nat).          (* id = $p *)

Inductive faculty_col :=
| FName | FNameEn | FTitle | FCategory | FPhotoUrl | FEmail | FPhone
| FOffice | FResearchInterests | FEducation | FBiography | FPublications
| FProjects | FAwards | FSortOrder | FIsVisible.

(** The statement texts of the repositories, indexed by the type of the
    rows they return (the [T] of [query<T>]). *)
Inductive stmt : Type -> Type :=
| SelectNews (where_ : list news_cond) (window : option (nat * nat))
    : stmt NewsItem.t
    (* SELECT ... FROM news WHERE ...
       [ORDER BY published_at DESC LIMIT $l OFFSET $o] *)
| CountNews (where_ : list news_cond) : stmt CountRow
    (* SELECT COUNT( * ) as count FROM news WHERE ... *)
| InsertNews : stmt NewsItem.t
    (* INSERT INTO news (...) VALUES ($1, ..., $9) RETURNING ... *)
| UpdateNews (sets : list (news_col * nat)) (idp : nat) : stmt NewsItem.t
    (* UPDATE news SET c = $p, ..., updated_at = CURRENT_TIMESTAMP
       WHERE id = $idp RETURNING ... *)
| DeleteNews : stmt IdRow
    (* DELETE FROM news WHERE id = $1 RETURNING id *)
| SelectFaculty (where_ : list faculty_cond) (ordered : bool)
    : stmt FacultyMember.t
    (* SELECT ... FROM faculty WHERE ...
       [ORDER BY sort_order ASC, name ASC] *)
| InsertFaculty : stmt FacultyMember.t
| UpdateFaculty (sets : list (faculty_col * nat)) (idp : nat)
    : stmt FacultyMember.t
| DeleteFaculty : stmt IdRow
| SelectNavigation : stmt NavItem.t.
    (* SELECT ... FROM navigation WHERE is_visible = true
       ORDER BY sort_order ASC *)

Inductive call :=
| Call : forall {T : Type} (queryText : stmt T) (params : list sqlval), call.

(** What a JavaScript [throw] carries: an [Error] object with its
    message, or some other value. *)
Inductive exn :=
| JsError (message : string)
| NonError.

(** The state of the store.  [failure] stands for an unavailable or
    failing store: when set, every statement is rejected with that
    message.  [now] is what CURRENT_TIMESTAMP evaluates to.  [log] lists
    the statements sent so far, oldest first. *)
Record Db := mkDb {
  news : list NewsItem.t;
  news_id_seq : Z;
  faculty : list FacultyMember.t;
  faculty_id_seq : Z;
  navigation : list NavItem.t;
  now : Z;
  failure : option string;
  log : list call }.

Definition with_news (rows : list NewsItem.t) (d : Db) : Db :=
  mkDb rows (news_id_seq d) (faculty d) (faculty_id_seq d) (navigation d)
       (now d) (failure d) (log d).
Definition with_news_id_seq (n : Z) (d : Db) : Db :=
  mkDb (news d) n (faculty d) (faculty_id_seq d) (navigation d)
       (now d) (failure d) (log d).
Definition with_faculty (rows : list FacultyMember.t) (d : Db) : Db :=
  mkDb (news d) (news_id_seq d) rows (faculty_id_seq d) (navigation d)
       (now d) (failure d) (log d).
Definition with_faculty_id_seq (n : Z) (d : Db) : Db :=
  mkDb (news d) (news_id_seq d) (faculty d) n (navigation d)
       (now d) (failure d) (log d).
Definition with_log (l : list call) (d : Db) : Db :=
  mkDb (news d) (news_id_seq d) (faculty d) (faculty_id_seq d)
       (navigation d) (now d) (failure d) l.

(** [$p] among the parameters. *)
Definition arg (params : list sqlval) (p : nat) : option sqlval :=
  match p with O => None | S k => nth_error params k end.

(** Stable insertion sort, for ORDER BY; rows that compare equal keep
    their table order. *)
Fixpoint insert_by {A} (le : A -> A -> bool) (x : A) (l : list A) : list A :=
  match l with
  | [] => [x]
  | y :: l' => if le x y then x :: l else y :: insert_by le x l'
  end.

Fixpoint sort_by {A} (le : A -> A -> bool) (l : list A) : list A :=
  match l with
  | [] => []
  | x :: l' => insert_by le x (sort_by le l')
  end.

(** SQL [a = b] on a nullable text column: NULL is never equal. *)
Definition text_eq (col : option string) (s : string) : bool :=
  match col with Some c => String.eqb c s | None => false end.

(** [text LIKE pattern]: [%] matches any run of characters, [_] any one
    character, a backslash takes the next character literally. *)
Fixpoint like (pattern text : string) : bool :=
  match pattern with
  | EmptyString => Js.isEmpty text
  | String "%" pattern' =>
      (fix any (t : string) : bool :=
         like pattern' t ||
         match t with EmptyString => false | String _ t' => any t' end) text
  | String "_" pattern' =>
      match text with
      | EmptyString => false
      | String _ text' => like pattern' text'
      end
  | String "\" (String c pattern') =>
      match text with
      | EmptyString => false
      | String c' text' => Ascii.eqb c c' && like pattern' text'
      end
  | String c pattern' =>
      match text with
      | EmptyString => false
      | String c' text' => Ascii.eqb c c' && like pattern' text'
      end
  end.

(** [text ILIKE pattern]: LIKE after folding both sides to lower case. *)
Definition ilike (text pattern : string) : bool :=
  like (Js.toLowerCase pattern) (Js.toLowerCase text).

Definition ilike_opt (text : option string) (pattern : string) : bool :=
  match text with Some t => ilike t pattern | None => false end.

(** [$p = ANY(array)]: equality with one element; false on NULL. *)
Definition any_eq (x : string) (arr : option (list string)) : bool :=
  match arr with
  | Some l => existsb (String.eqb x) l
  | None => false
  end.

(** One condition of a WHERE clause on [news], [None] when its parameter
    is missing or of the wrong type.  The id is compared as an integer;
    the numbers outside the 32 bits of the column are left to the
    statements, see the conventions. *)
Definition news_cond_holds (params : list sqlval) (c : news_cond)
  : option (NewsItem.t -> bool) :=
  match c with
  | NewsIsPublished => Some NewsItem.isPublished
  | NewsCategoryEq p =>
      match arg params p with
      | Some (VText s) => Some (fun r => text_eq (NewsItem.category r) s)
      | _ => None
      end
  | NewsIdEq p =>
      match arg params p with
      | Some (VInt i) => Some (fun r => NewsItem.id r =? i)
      | _ => None
      end
  | NewsSlugEq p =>
      match arg params p with
      | Some (VText s) => Some (fun r => String.eqb (NewsItem.slug r) s)
      | _ => None
      end
  end.

(** The conjunction of a WHERE clause, [None] when a parameter is
    missing or of the wrong type. *)
Fixpoint news_where (params : list sqlval) (cs : list news_cond)
  : option (NewsItem.t -> bool) :=
  match cs with
  | [] => Some (fun _ => true)
  | c :: cs' =>
      match news_cond_holds params c, news_where params cs' with
      | Some f, Some g => Some (fun r => f r && g r)
      | _, _ => None
      end
  end.

Definition faculty_cond_holds (params : list sqlval) (c : faculty_cond)
  : option (FacultyMember.t -> bool) :=
  match c with
  | FacultyIsVisible => Some FacultyMember.isVisible
  | FacultyCategoryEq p =>
      match arg params p with
      | Some (VText s) =>
          Some (fun r => String.eqb (FacultyMember.category r) s)
      | _ => None
      end
  | FacultySearch p =>
      match arg params p with
      | Some (VText s) =>
          Some (fun r =>
                  ilike (FacultyMember.name r) s
                  || ilike_opt (FacultyMember.nameEn r) s
                  || ilike (FacultyMember.title r) s
                  || any_eq s (FacultyMember.researchInterests r))
      | _ => None
      end
  | FacultyIdEq p =>
      match arg params p with
      | Some (VInt i) => Some (fun r => FacultyMember.id r =? i)
      | _ => None
      end
  end.

Fixpoint faculty_where (params : list sqlval) (cs : list faculty_cond)
  : option (FacultyMember.t -> bool) :=
  match cs with
  | [] => Some (fun _ => true)
  | c :: cs' =>
      match faculty_cond_holds params c, faculty_where params cs' with
      | Some f, Some g => Some (fun r => f r && g r)
      | _, _ => None
      end
  end.

(** *** Executing a statement *)

Definition bind_error : string :=
  "could not bind the parameters of the statement".
Definition too_long (n : nat) : string :=
  ("value too long for type character varying("
   ++ NilEmpty.string_of_uint (Nat.to_uint n) ++ ")")%string.
Definition negative_limit : string := "LIMIT must not be negative".
Definition negative_offset : string := "OFFSET must not be negative".
Definition quoted (name : string) : string :=
  String "034"%char (name ++ String "034"%char EmptyString)%string.
Definition out_of_range (type : string) (z : Z) : string :=
  ("value " ++ quoted (NilZero.string_of_int (Z.to_int z))
   ++ " is out of range for type " ++ type)%string.

(** INTEGER and BIGINT *)
Definition int4 (z : Z) : bool :=
  (-2147483648 <=? z) && (z <=? 2147483647).
Definition int8 (z : Z) : bool :=
  (-9223372036854775808 <=? z) && (z <=? 9223372036854775807).
Definition unique_violation (constraint : string) : string :=
  ("duplicate key value violates unique constraint " ++ quoted constraint)%string.
Definition news_pkey : string := unique_violation "news_pkey".
Definition news_slug_key : string := unique_violation "news_slug_key".
Definition faculty_pkey : string := unique_violation "faculty_pkey".

(** A byte that continues a character of several bytes. *)
Definition isContinuation (c : ascii) : bool :=
  let n := nat_of_ascii c in ((128 <=? n) && (n <=? 191))%nat.

(** The number of characters of a text. *)
Fixpoint chars (s : string) : nat :=
  match s with
  | EmptyString => O
  | String c s' => if isContinuation c then chars s' else S (chars s')
  end.

(** The first [n] characters of a text, and what follows them. *)
Fixpoint takeChars (n : nat) (s : string) : string :=
  match s with
  | EmptyString => EmptyString
  | String c s' =>
      if isContinuation c then String c (takeChars n s')
      else match n with
           | O => EmptyString
           | S k => String c (takeChars k s')
           end
  end.

Fixpoint dropChars (n : nat) (s : string) : string :=
  match s with
  | EmptyString => EmptyString
  | String c s' =>
      if isContinuation c then dropChars n s'
      else match n with
           | O => s
           | S k => dropChars k s'
           end
  end.

Fixpoint onlySpaces (s : string) : bool :=
  match s with
  | EmptyString => true
  | String c s' => Ascii.eqb c " " && onlySpaces s'
  end.

(** VARCHAR(n): a text of at most [n] characters. *)
Definition fits (n : nat) (s : string) : bool :=
  (chars s <=? n)%nat.

(** What a column VARCHAR(n) stores of a text assigned to it: the text
    when it fits, its first [n] characters when all that is cut off is
    spaces, and nothing, the assignment being refused, otherwise. *)
Definition varchar (n : nat) (s : string) : option string :=
  if fits n s then Some s
  else if onlySpaces (dropChars n s) then Some (takeChars n s)
  else None.
Definition varchar_opt (n : nat) (s : option string) : option (option string) :=
  match s with
  | Some x => option_map Some (varchar n x)
  | None => Some None
  end.

Definition text_or_null (v : sqlval) : option (option string) :=
  match v with
  | VNull => Some None
  | VText s => Some (Some s)
  | _ => None
  end.

Definition array_or_null (v : sqlval) : option (option (list string)) :=
  match v with
  | VNull => Some None
  | VTextArray l => Some (Some l)
  | _ => None
  end.

(** The decimal text of a COUNT, as the driver returns a bigint. *)
Definition count_text (n : nat) : string :=
  NilEmpty.string_of_uint (Nat.to_uint n).

(** ORDER BY published_at DESC *)
Definition published_desc (a b : NewsItem.t) : bool :=
  NewsItem.publishedAt b <=? NewsItem.publishedAt a.

(** ORDER BY sort_order ASC, name ASC *)
Definition faculty_order (a b : FacultyMember.t) : bool :=
  (FacultyMember.sortOrder a <? FacultyMember.sortOrder b)
  || ((FacultyMember.sortOrder a =? FacultyMember.sortOrder b)
      && String.leb (FacultyMember.name a) (FacultyMember.name b)).

(** ORDER BY sort_order ASC *)
Definition nav_order (a b : NavItem.t) : bool :=
  NavItem.sortOrder a <=? NavItem.sortOrder b.

Definition select_news (where_ : list news_cond) (window : option (nat * nat))
  (params : list sqlval) (d : Db) : string + list NewsItem.t :=
  match news_where params where_ with
  | None => inl bind_error
  | Some f =>
      let rows := List.filter f (news d) in
      match window with
      | None => inr rows
      | Some (l, o) =>
          match arg params l, arg params o with
          | Some (VInt lim), Some (VInt off) =>
              (* LIMIT and OFFSET are of type bigint; OFFSET is looked
                 at first when the statement runs *)
              if negb (int8 lim) then inl (out_of_range "bigint" lim)
              else if negb (int8 off) then inl (out_of_range "bigint" off)
              else if off <? 0 then inl negative_offset
              else if lim <? 0 then inl negative_limit
              else inr (firstn (Z.to_nat lim)
                          (skipn (Z.to_nat off) (sort_by published_desc rows)))
          | _, _ => inl bind_error
          end
      end
  end.

Definition count_news (where_ : list news_cond) (params : list sqlval)
  (d : Db) : string + list CountRow :=
  match news_where params where_ with
  | None => inl bind_error
  | Some f => inr [ {| count := count_text (length (List.filter f (news d))) |} ]
  end.


(** INSERT INTO news: [id] from the sequence, [published_at] and
    [updated_at] from CURRENT_TIMESTAMP, [view_count] 0; [id] and [slug]
    are unique.  A text too long for its column is refused before the
    statement runs, the sequence being left as it was; a uniqueness
    violation is met while it runs, after the sequence has given the id. *)
Definition insert_news (params : list sqlval) (d : Db)
  : (string + list NewsItem.t) * Db :=
  match params with
  | [VText title; VText slug; summary; VText content; thumbnail; author;
     category; VBool published; tags] =>
      match text_or_null summary, text_or_null thumbnail,
            text_or_null author, text_or_null category,
            array_or_null tags with
      | Some su, Some th, Some au, Some ca, Some tg =>
          match varchar 255 title, varchar 255 slug, varchar_opt 500 th,
                varchar_opt 100 au, varchar_opt 50 ca with
          | Some title, Some slug, Some th, Some au, Some ca =>
              let id := news_id_seq d + 1 in
              let d1 := with_news_id_seq id d in
              let row := NewsItem.mk id title slug su content th au ca
                           (now d) (now d) published 0 tg in
              if existsb (fun r => NewsItem.id r =? id) (news d)
              then (inl news_pkey, d1)
              else if existsb (fun r => String.eqb (NewsItem.slug r) slug)
                        (news d)
              then (inl news_slug_key, d1)
              else (inr [row], with_news (news d ++ [row]) d1)
          | None, _, _, _, _ => (inl (too_long 255), d)
          | _, None, _, _, _ => (inl (too_long 255), d)
          | _, _, None, _, _ => (inl (too_long 500), d)
          | _, _, _, None, _ => (inl (too_long 100), d)
          | _, _, _, _, None => (inl (too_long 50), d)
          end
      | _, _, _, _, _ => (inl bind_error, d)
      end
  | _ => (inl bind_error, d)
  end.

(** [SET c = v] on one row; [None] when [v] has the wrong type or is NULL
    for a NOT NULL column. *)
Definition set_news_col (c : news_col) (v : sqlval) (r : NewsItem.t)
  : option NewsItem.t :=
  let '(NewsItem.mk id title slug summary content thumbnailUrl author
          category publishedAt updatedAt isPublished viewCount tags) := r in
  match c, v with
  | NTitle, VText s =>
      Some (NewsItem.mk id s slug summary content thumbnailUrl author
              category publishedAt updatedAt isPublished viewCount tags)
  | NSlug, VText s =>
      Some (NewsItem.mk id title s summary content thumbnailUrl author
              category publishedAt updatedAt isPublished viewCount tags)
  | NContent, VText s =>
      Some (NewsItem.mk id title slug summary s thumbnailUrl author
              category publishedAt updatedAt isPublished viewCount tags)
  | NSummary, _ =>
      match text_or_null v with
      | Some x =>
          Some (NewsItem.mk id title slug x content thumbnailUrl author
                  category publishedAt updatedAt isPublished viewCount tags)
      | None => None
      end
  | NThumbnailUrl, _ =>
      match text_or_null v with
      | Some x =>
          Some (NewsItem.mk id title slug summary content x author
                  category publishedAt updatedAt isPublished viewCount tags)
      | None => None
      end
  | NAuthor, _ =>
      match text_or_null v with
      | Some x =>
          Some (NewsItem.mk id title slug summary content thumbnailUrl x
                  category publishedAt updatedAt isPublished viewCount tags)
      | None => None
      end
  | NCategory, _ =>
      match text_or_null v with
      | Some x =>
          Some (NewsItem.mk id title slug summary content thumbnailUrl author
                  x publishedAt updatedAt isPublished viewCount tags)
      | None => None
      end
  | NIsPublished, VBool b =>
      Some (NewsItem.mk id title slug summary content thumbnailUrl author
              category publishedAt updatedAt b viewCount tags)
  | NTags, _ =>
      match array_or_null v with
      | Some x =>
          Some (NewsItem.mk id title slug summary content thumbnailUrl author
                  category publishedAt updatedAt isPublished viewCount x)
      | None => None
      end
  | _, _ => None
  end.

Definition touch_news (t : Z) (r : NewsItem.t) : NewsItem.t :=
  let '(NewsItem.mk id title slug summary content thumbnailUrl author
          category publishedAt _ isPublished viewCount tags) := r in
  NewsItem.mk id title slug summary content thumbnailUrl author
    category publishedAt t isPublished viewCount tags.

(** The width of the column, when it has one. *)
Definition news_width (c : news_col) : option nat :=
  match c with
  | NTitle | NSlug => Some 255%nat
  | NThumbnailUrl => Some 500%nat
  | NAuthor => Some 100%nat
  | NCategory => Some 50%nat
  | NSummary | NContent | NIsPublished | NTags => None
  end.

(** The value that an assignment to a column of the given width writes,
    or the message of its refusal. *)
Definition coerce_text (width : option nat) (v : sqlval) : string + sqlval :=
  match width, v with
  | Some n, VText s =>
      match varchar n s with
      | Some s' => inr (VText s')
      | None => inl (too_long n)
      end
  | _, _ => inr v
  end.

(** The SET list with the values to write, as they are fixed before the
    statement looks at a row. *)
Fixpoint plan_sets {col : Type} (coerce : col -> sqlval -> string + sqlval)
  (sets : list (col * nat)) (params : list sqlval)
  : string + list (col * sqlval) :=
  match sets with
  | [] => inr []
  | (c, p) :: sets' =>
      match arg params p with
      | None => inl bind_error
      | Some v =>
          match coerce c v with
          | inl e => inl e
          | inr v' =>
              match plan_sets coerce sets' params with
              | inl e => inl e
              | inr planned => inr ((c, v') :: planned)
              end
          end
      end
  end.

(** The whole SET list on one row, [updated_at] last. *)
Fixpoint apply_news_sets (planned : list (news_col * sqlval))
  (t : Z) (r : NewsItem.t) : option NewsItem.t :=
  match planned with
  | [] => Some (touch_news t r)
  | (c, v) :: planned' =>
      match set_news_col c v r with
      | Some r' => apply_news_sets planned' t r'
      | None => None
      end
  end.

(** Apply [f] to every row, failing when [f] fails on one of them. *)
Fixpoint traverse {A B} (f : A -> option B) (l : list A) : option (list B) :=
  match l with
  | [] => Some []
  | x :: l' =>
      match f x, traverse f l' with
      | Some y, Some ys => Some (y :: ys)
      | _, _ => None
      end
  end.

(** UPDATE news ... WHERE id = $idp RETURNING ... *)
Definition update_news (sets : list (news_col * nat)) (idp : nat)
  (params : list sqlval) (d : Db) : (string + list NewsItem.t) * Db :=
  match arg params idp with
  | Some (VInt i) =>
      match plan_sets (fun c => coerce_text (news_width c)) sets params with
      | inl e => (inl e, d)
      | inr planned =>
          let hit := fun r => NewsItem.id r =? i in
          match traverse (apply_news_sets planned (now d))
                         (List.filter hit (news d)) with
          | None => (inl bind_error, d)
          | Some updated =>
              if existsb
                   (fun r' =>
                      existsb (fun q => negb (hit q)
                                 && String.eqb (NewsItem.slug q) (NewsItem.slug r'))
                              (news d))
                   updated
              then (inl news_slug_key, d)
              else
                let table :=
                  map (fun r =>
                         if hit r
                         then match apply_news_sets planned (now d) r with
                              | Some r' => r'
                              | None => r
                              end
                         else r)
                      (news d) in
                (inr updated, with_news table d)
          end
      end
  | _ => (inl bind_error, d)
  end.

(** DELETE FROM news WHERE id = $1 RETURNING id *)
Definition delete_news (params : list sqlval) (d : Db)
  : (string + list IdRow) * Db :=
  match params with
  | [VInt i] =>
      let hit := fun r => NewsItem.id r =? i in
      (inr (map (fun r => {| returned_id := NewsItem.id r |})
              (List.filter hit (news d))),
       with_news (List.filter (fun r => negb (hit r)) (news d)) d)
  | _ => (inl bind_error, d)
  end.


Definition select_faculty (where_ : list faculty_cond) (ordered : bool)
  (params : list sqlval) (d : Db) : string + list FacultyMember.t :=
  match faculty_where params where_ with
  | None => inl bind_error
  | Some f =>
      let rows := List.filter f (faculty d) in
      inr (if ordered then sort_by faculty_order rows else rows)
  end.

(** INSERT INTO faculty: [id] from the sequence, [created_at] and
    [updated_at] from CURRENT_TIMESTAMP; only [id] is unique.  A
    [sort_order] that is no INTEGER and a text too long for its column
    are refused before the statement runs. *)
Definition insert_faculty (params : list sqlval) (d : Db)
  : (string + list FacultyMember.t) * Db :=
  match params with
  | [VText name; nameEn; VText title; VText category; photoUrl; email; phone;
     office; interests; education; biography; publications; projects; awards;
     VInt sortOrder; VBool isVisible] =>
      match text_or_null nameEn, text_or_null photoUrl, text_or_null email,
            text_or_null phone, text_or_null office, array_or_null interests,
            text_or_null education, text_or_null biography,
            text_or_null publications, text_or_null projects,
            text_or_null awards with
      | Some ne, Some ph, Some em, Some tel, Some off, Some ri, Some ed,
        Some bio, Some pub, Some prj, Some aw =>
          if negb (int4 sortOrder)
          then (inl (out_of_range "integer" sortOrder), d)
          else
          match varchar 100 name, varchar_opt 100 ne, varchar 50 title,
                varchar 50 category, varchar_opt 500 ph, varchar_opt 100 em,
                varchar_opt 50 tel, varchar_opt 100 off with
          | Some name, Some ne, Some title, Some category, Some ph, Some em,
            Some tel, Some off =>
              let id := faculty_id_seq d + 1 in
              let d1 := with_faculty_id_seq id d in
              let row := FacultyMember.mk id name ne title category ph em tel
                           off ri ed bio pub prj aw sortOrder isVisible
                           (now d) (now d) in
              if existsb (fun r => FacultyMember.id r =? id) (faculty d)
              then (inl faculty_pkey, d1)
              else (inr [row], with_faculty (faculty d ++ [row]) d1)
          | None, _, _, _, _, _, _, _ => (inl (too_long 100), d)
          | _, None, _, _, _, _, _, _ => (inl (too_long 100), d)
          | _, _, None, _, _, _, _, _ => (inl (too_long 50), d)
          | _, _, _, None, _, _, _, _ => (inl (too_long 50), d)
          | _, _, _, _, None, _, _, _ => (inl (too_long 500), d)
          | _, _, _, _, _, None, _, _ => (inl (too_long 100), d)
          | _, _, _, _, _, _, None, _ => (inl (too_long 50), d)
          | _, _, _, _, _, _, _, None => (inl (too_long 100), d)
          end
      | _, _, _, _, _, _, _, _, _, _, _ => (inl bind_error, d)
      end
  | _ => (inl bind_error, d)
  end.

Definition set_faculty_col (c : faculty_col) (v : sqlval) (r : FacultyMember.t)
  : option FacultyMember.t :=
  let '(FacultyMember.mk id name nameEn title category photoUrl email phone
          office interests education biography publications projects awards
          sortOrder isVisible createdAt updatedAt) := r in
  let text (k : string -> FacultyMember.t) :=
    match v with VText s => Some (k s) | _ => None end in
  let nullable (k : option string -> FacultyMember.t) :=
    match text_or_null v with Some x => Some (k x) | None => None end in
  match c with
  | FName => text (fun x =>
      FacultyMember.mk id x nameEn title category photoUrl email phone
        office interests education biography publications projects awards
        sortOrder isVisible createdAt updatedAt)
  | FNameEn => nullable (fun x =>
      FacultyMember.mk id name x title category photoUrl email phone
        office interests education biography publications projects awards
        sortOrder isVisible createdAt updatedAt)
  | FTitle => text (fun x =>
      FacultyMember.mk id name nameEn x category photoUrl email phone
        office interests education biography publications projects awards
        sortOrder isVisible createdAt updatedAt)
  | FCategory => text (fun x =>
      FacultyMember.mk id name nameEn title x photoUrl email phone
        office interests education biography publications projects awards
        sortOrder isVisible createdAt updatedAt)
  | FPhotoUrl => nullable (fun x =>
      FacultyMember.mk id name nameEn title category x email phone
        office interests education biography publications projects awards
        sortOrder isVisible createdAt updatedAt)
  | FEmail => nullable (fun x =>
      FacultyMember.mk id name nameEn title category photoUrl x phone
        office interests education biography publications projects awards
        sortOrder isVisible createdAt updatedAt)
  | FPhone => nullable (fun x =>
      FacultyMember.mk id name nameEn title category photoUrl email x
        office interests education biography publications projects awards
        sortOrder isVisible createdAt updatedAt)
  | FOffice => nullable (fun x =>
      FacultyMember.mk id name nameEn title category photoUrl email phone
        x interests education biography publications projects awards
        sortOrder isVisible createdAt updatedAt)
  | FResearchInterests =>
      match array_or_null v with
      | Some x => Some (
          FacultyMember.mk id name nameEn title category photoUrl email phone
            office x education biography publications projects awards
            sortOrder isVisible createdAt updatedAt)
      | None => None
      end
  | FEducation => nullable (fun x =>
      FacultyMember.mk id name nameEn title category photoUrl email phone
        office interests x biography publications projects awards
        sortOrder isVisible createdAt updatedAt)
  | FBiography => nullable (fun x =>
      FacultyMember.mk id name nameEn title category photoUrl email phone
        office interests education x publications projects awards
        sortOrder isVisible createdAt updatedAt)
  | FPublications => nullable (fun x =>
      FacultyMember.mk id name nameEn title category photoUrl email phone
        office interests education biography x projects awards
        sortOrder isVisible createdAt updatedAt)
  | FProjects => nullable (fun x =>
      FacultyMember.mk id name nameEn title category photoUrl email phone
        office interests education biography publications x awards
        sortOrder isVisible createdAt updatedAt)
  | FAwards => nullable (fun x =>
      FacultyMember.mk id name nameEn title category photoUrl email phone
        office interests education biography publications projects x
        sortOrder isVisible createdAt updatedAt)
  | FSortOrder =>
      match v with
      | VInt z => Some (
          FacultyMember.mk id name nameEn title category photoUrl email phone
            office interests education biography publications projects awards
            z isVisible createdAt updatedAt)
      | _ => None
      end
  | FIsVisible =>
      match v with
      | VBool b => Some (
          FacultyMember.mk id name nameEn title category photoUrl email phone
            office interests education biography publications projects awards
            sortOrder b createdAt updatedAt)
      | _ => None
      end
  end.

Definition touch_faculty (t : Z) (r : FacultyMember.t) : FacultyMember.t :=
  let '(FacultyMember.mk id name nameEn title category photoUrl email phone
          office interests education biography publications projects awards
          sortOrder isVisible createdAt _) := r in
  FacultyMember.mk id name nameEn title category photoUrl email phone
    office interests education biography publications projects awards
    sortOrder isVisible createdAt t.

Definition faculty_width (c : faculty_col) : option nat :=
  match c with
  | FName | FNameEn | FEmail | FOffice => Some 100%nat
  | FTitle | FCategory | FPhone => Some 50%nat
  | FPhotoUrl => Some 500%nat
  | _ => None
  end.

(** The refusal of the first number given for [sort_order] that is no
    INTEGER: the store reads the parameters before it plans the
    statement. *)
Fixpoint sort_order_error (sets : list (faculty_col * nat))
  (params : list sqlval) : option string :=
  match sets with
  | [] => None
  | (c, p) :: sets' =>
      match c, arg params p with
      | FSortOrder, Some (VInt z) =>
          if int4 z then sort_order_error sets' params
          else Some (out_of_range "integer" z)
      | _, _ => sort_order_error sets' params
      end
  end.

Fixpoint apply_faculty_sets (planned : list (faculty_col * sqlval))
  (t : Z) (r : FacultyMember.t) : option FacultyMember.t :=
  match planned with
  | [] => Some (touch_faculty t r)
  | (c, v) :: planned' =>
      match set_faculty_col c v r with
      | Some r' => apply_faculty_sets planned' t r'
      | None => None
      end
  end.

(** UPDATE faculty ... WHERE id = $idp RETURNING ... *)
Definition update_faculty (sets : list (faculty_col * nat)) (idp : nat)
  (params : list sqlval) (d : Db) : (string + list FacultyMember.t) * Db :=
  match arg params idp with
  | Some (VInt i) =>
      match sort_order_error sets params with
      | Some e => (inl e, d)
      | None =>
          match plan_sets (fun c => coerce_text (faculty_width c)) sets params with
          | inl e => (inl e, d)
          | inr planned =>
              let hit := fun r => FacultyMember.id r =? i in
              match traverse (apply_faculty_sets planned (now d))
                             (List.filter hit (faculty d)) with
              | None => (inl bind_error, d)
              | Some updated =>
                  let table :=
                    map (fun r =>
                           if hit r
                           then match apply_faculty_sets planned (now d) r with
                                | Some r' => r'
                                | None => r
                                end
                           else r)
                        (faculty d) in
                  (inr updated, with_faculty table d)
              end
          end
      end
  | _ => (inl bind_error, d)
  end.

(** DELETE FROM faculty WHERE id = $1 RETURNING id *)
Definition delete_faculty (params : list sqlval) (d : Db)
  : (string + list IdRow) * Db :=
  match params with
  | [VInt i] =>
      let hit := fun r => FacultyMember.id r =? i in
      (inr (map (fun r => {| returned_id := FacultyMember.id r |})
              (List.filter hit (faculty d))),
       with_faculty (List.filter (fun r => negb (hit r)) (faculty d)) d)
  | _ => (inl bind_error, d)
  end.

Definition select_navigation (d : Db) : list NavItem.t :=
  sort_by nav_order (List.filter NavItem.isVisible (navigation d)).

(** One statement against the tables: the rows it returns or the message
    of the error it raises, and the tables afterwards. *)
Definition exec {T : Type} (queryText : stmt T) (params : list sqlval) (d : Db)
  : (string + list T) * Db :=
  match queryText in stmt T return (string + list T) * Db with
  | SelectNews where_ window => (select_news where_ window params d, d)
  | CountNews where_ => (count_news where_ params d, d)
  | InsertNews => insert_news params d
  | UpdateNews sets idp => update_news sets idp params d
  | DeleteNews => delete_news params d
  | SelectFaculty where_ ordered => (select_faculty where_ ordered params d, d)
  | InsertFaculty => insert_faculty params d
  | UpdateFaculty sets idp => update_faculty sets idp params d
  | DeleteFaculty => delete_faculty params d
  | SelectNavigation => (inr (select_navigation d), d)
  end.

(** *** The monad of code that talks to the store *)

Inductive outcome (A : Type) :=
| Returned (a : A)
| Threw (e : exn).
Arguments Returned {A} a.
Arguments Threw {A} e.

Definition M (A : Type) : Type := Db -> outcome A * Db.

Definition ret {A} (a : A) : M A := fun d => (Returned a, d).

Definition throw {A} (e : exn) : M A := fun d => (Threw e, d).

Definition bind {A B} (m : M A) (k : A -> M B) : M B :=
  fun d =>
    match m d with
    | (Returned a, d') => k a d'
    | (Threw e, d') => (Threw e, d')
    end.

(** [try { m } catch (error) { h error }] *)
Definition try_catch {A} (m : M A) (h : exn -> M A) : M A :=
  fun d =>
    match m d with
    | (Returned a, d') => (Returned a, d')
    | (Threw e, d') => h e d'
    end.

(** The driver: [sql(queryText, params)]. *)
Definition sql {T : Type} (queryText : stmt T) (params : list sqlval)
  : M (list T) :=
  fun d =>
    let d0 := with_log (log d ++ [Call queryText params]) d in
    match failure d0 with
    | Some msg => (Threw (JsError msg), d0)
    | None =>
        match exec queryText params d0 with
        | (inl msg, d') => (Threw (JsError msg), d')
        | (inr rows, d') => (Returned rows, d')
        end
    end.

End Store.

Notation "x <- c1 ;; c2" := (Store.bind c1 (fun x => c2))
  (at level 100, c1 at next level, right associativity).

(* ===================================================================== *)
(** ** [lib/db.ts] *)
(* ===================================================================== *)

Module db.
Import Store.

(** [error instanceof Error ? error.message : 'Unknown error'] *)
Definition messageOf (error : exn) : string :=
  match error with
  | JsError message => message
  | NonError => "Unknown error"
  end.

Definition query {T : Type} (queryText : stmt T) (params : list sqlval)
  : M (list T) :=
  try_catch
    (sql queryText params)
    (fun error =>
       throw (JsError ("Database operation failed: " ++ messageOf error)%string)).

(** [results[0] || null]: a row is an object, hence truthy. *)
Definition queryOne {T : Type} (queryText : stmt T) (params : list sqlval)
  : M (option T) :=
  try_catch
    (results <- query queryText params ;;
     ret (head results))
    (fun error => throw error).

End db.

(* ===================================================================== *)
(** ** [lib/news.ts] *)
(* ===================================================================== *)

Module news.
Import Store db.

Record NewsList := { items : list NewsItem.t; total : Js.number }.

(** [fields.push(`c = $${paramIndex++}`); params.push(v)] when the field
    is not [undefined]. *)
Definition pushField {col : Type} (st : list (col * nat) * list sqlval * nat)
  (c : col) (v : option sqlval) : list (col * nat) * list sqlval * nat :=
  match v with
  | Some x =>
      let '(fields, params, paramIndex) := st in
      (fields ++ [(c, paramIndex)], params ++ [x], S paramIndex)
  | None => st
  end.

Definition getNewsList (page pageSize : Z) (category : option string)
  : M NewsList :=
  let offset := (page - 1) * pageSize in
  let where_ := [NewsIsPublished] in
  let params : list sqlval := [] in
  let '(where_, params) :=
    match Js.truthy category with
    | Some c => (where_ ++ [NewsCategoryEq (length params + 1)],
                 params ++ [VText c])
    | None => (where_, params)
    end in
  let queryText :=
    SelectNews where_ (Some (length params + 1, length params + 2))%nat in
  let params := params ++ [VInt pageSize; VInt offset] in
  items <- query queryText params ;;
  (* Get total count *)
  let countWhere := [NewsIsPublished] in
  let countParams : list sqlval := [] in
  let '(countWhere, countParams) :=
    match Js.truthy category with
    | Some c => (countWhere ++ [NewsCategoryEq 1], countParams ++ [VText c])
    | None => (countWhere, countParams)
    end in
  countResult <- queryOne (CountNews countWhere) countParams ;;
  let total :=
    match countResult with
    | Some r => Js.parseInt (count r)
    | None => Js.Num 0
    end in
  ret {| items := items; total := total |}.

Definition getNewsById (id : Z) : M (option NewsItem.t) :=
  queryOne (SelectNews [NewsIdEq 1] None) [VInt id].

Definition getNewsBySlug (slug : string) : M (option NewsItem.t) :=
  queryOne (SelectNews [NewsSlugEq 1] None) [VText slug].

Definition createNews (news : NewsInput.t) : M NewsItem.t :=
  let params := [
    VText (NewsInput.title news);
    VText (NewsInput.slug news);
    orNull (NewsInput.summary news);
    VText (NewsInput.content news);
    orNull (NewsInput.thumbnailUrl news);
    orNull (NewsInput.author news);
    orNull (NewsInput.category news);
    VBool (NewsInput.isPublished news);
    arrayOrNull (NewsInput.tags news)
  ] in
  result <- queryOne InsertNews params ;;
  match result with
  | None => throw (JsError "Failed to create news article")
  | Some r => ret r
  end.

Definition updateNews (id : Z) (news : NewsPatch.t) : M (option NewsItem.t) :=
  let st : list (news_col * nat) * list sqlval * nat := ([], [], 1%nat) in
  let st := pushField st NTitle (option_map VText (NewsPatch.title news)) in
  let st := pushField st NSlug (option_map VText (NewsPatch.slug news)) in
  let st := pushField st NSummary (option_map VText (NewsPatch.summary news)) in
  let st := pushField st NContent (option_map VText (NewsPatch.content news)) in
  let st := pushField st NThumbnailUrl
              (option_map VText (NewsPatch.thumbnailUrl news)) in
  let st := pushField st NAuthor (option_map VText (NewsPatch.author news)) in
  let st := pushField st NCategory
              (option_map VText (NewsPatch.category news)) in
  let st := pushField st NIsPublished
              (option_map VBool (NewsPatch.isPublished news)) in
  let st := pushField st NTags (option_map arrayOrNull (NewsPatch.tags news)) in
  let '(fields, params, paramIndex) := st in
  if (length fields =? 0)%nat then getNewsById id
  else
    (* fields.push(`updated_at = CURRENT_TIMESTAMP`) is part of UpdateNews *)
    let params := params ++ [VInt id] in
    queryOne (UpdateNews fields paramIndex) params.

Definition deleteNews (id : Z) : M bool :=
  result <- queryOne DeleteNews [VInt id] ;;
  ret (match result with Some _ => true | None => false end).

End news.

(* ===================================================================== *)
(** ** [lib/faculty.ts] *)
(* ===================================================================== *)

Module faculty.
Import Store db.

Definition getFacultyList (category searchQuery : option string)
  : M (list FacultyMember.t) :=
  let where_ := [FacultyIsVisible] in
  let params : list sqlval := [] in
  let paramIndex := 1%nat in
  let '(where_, params, paramIndex) :=
    match Js.truthy category with
    | Some c => (where_ ++ [FacultyCategoryEq paramIndex],
                 params ++ [VText c], S paramIndex)
    | None => (where_, params, paramIndex)
    end in
  let '(where_, params, paramIndex) :=
    match Js.truthy searchQuery with
    | Some q => (where_ ++ [FacultySearch paramIndex],
                 params ++ [VText ("%" ++ q ++ "%")%string], S paramIndex)
    | None => (where_, params, paramIndex)
    end in
  query (SelectFaculty where_ true) params.

Definition getFacultyById (id : Z) : M (option FacultyMember.t) :=
  queryOne (SelectFaculty [FacultyIdEq 1] false) [VInt id].

Definition searchFaculty (searchQuery : string) : M (list FacultyMember.t) :=
  getFacultyList None (Some searchQuery).

Definition createFaculty (faculty : FacultyInput.t) : M FacultyMember.t :=
  let params := [
    VText (FacultyInput.name faculty);
    orNull (FacultyInput.nameEn faculty);
    VText (FacultyInput.title faculty);
    VText (FacultyInput.category faculty);
    orNull (FacultyInput.photoUrl faculty);
    orNull (FacultyInput.email faculty);
    orNull (FacultyInput.phone faculty);
    orNull (FacultyInput.office faculty);
    arrayOrNull (FacultyInput.researchInterests faculty);
    orNull (FacultyInput.education faculty);
    orNull (FacultyInput.biography faculty);
    orNull (FacultyInput.publications faculty);
    orNull (FacultyInput.projects faculty);
    orNull (FacultyInput.awards faculty);
    VInt (FacultyInput.sortOrder faculty);
    VBool (FacultyInput.isVisible faculty)
  ] in
  result <- queryOne InsertFaculty params ;;
  match result with
  | None => throw (JsError "Failed to create faculty member")
  | Some r => ret r
  end.

Definition updateFaculty (id : Z) (faculty : FacultyPatch.t)
  : M (option FacultyMember.t) :=
  let st : list (faculty_col * nat) * list sqlval * nat := ([], [], 1%nat) in
  let push := @news.pushField faculty_col in
  let st := push st FName (option_map VText (FacultyPatch.name faculty)) in
  let st := push st FNameEn (option_map VText (FacultyPatch.nameEn faculty)) in
  let st := push st FTitle (option_map VText (FacultyPatch.title faculty)) in
  let st := push st FCategory
              (option_map VText (FacultyPatch.category faculty)) in
  let st := push st FPhotoUrl
              (option_map VText (FacultyPatch.photoUrl faculty)) in
  let st := push st FEmail (option_map VText (FacultyPatch.email faculty)) in
  let st := push st FPhone (option_map VText (FacultyPatch.phone faculty)) in
  let st := push st FOffice (option_map VText (FacultyPatch.office faculty)) in
  let st := push st FResearchInterests
              (option_map arrayOrNull (FacultyPatch.researchInterests faculty)) in
  let st := push st FEducation
              (option_map VText (FacultyPatch.education faculty)) in
  let st := push st FBiography
              (option_map VText (FacultyPatch.biography faculty)) in
  let st := push st FPublications
              (option_map VText (FacultyPatch.publications faculty)) in
  let st := push st FProjects
              (option_map VText (FacultyPatch.projects faculty)) in
  let st := push st FAwards (option_map VText (FacultyPatch.awards faculty)) in
  let st := push st FSortOrder
              (option_map VInt (FacultyPatch.sortOrder faculty)) in
  let st := push st FIsVisible
              (option_map VBool (FacultyPatch.isVisible faculty)) in
  let '(fields, params, paramIndex) := st in
  if (length fields =? 0)%nat then getFacultyById id
  else
    let params := params ++ [VInt id] in
    queryOne (UpdateFaculty fields paramIndex) params.

Definition deleteFaculty (id : Z) : M bool :=
  result <- queryOne DeleteFaculty [VInt id] ;;
  ret (match result with Some _ => true | None => false end).

End faculty.

(* ===================================================================== *)
(** ** [lib/navigation.ts] *)
(* ===================================================================== *)

Module navigation.
Import Store db.

(** An item of the hierarchy: the copy [{ ...row }] and its [children]
    array, which holds references to other items.  An item built by
    [getNavigationStructure] is referred to by the key under which
    [navMap] holds it. *)
Record Item := { item : NavItem.t; children : option (list Z) }.

(** The returned array [roots] of references, and the objects they and
    the [children] arrays refer to. *)
Record Hierarchy := { objects : gmap Z Item; roots : list Z }.

(** [if (row.parentId)]: NULL and 0 are falsy. *)
Definition truthyId (x : option Z) : option Z :=
  match x with
  | Some z => if z =? 0 then None else Some z
  | None => None
  end.

(** First pass: [navMap.set(row.id, { ...row, children: [] })]. *)
Definition createItems (rows : list NavItem.t) : gmap Z Item :=
  fold_left
    (fun navMap row =>
       <[NavItem.id row := {| item := row; children := Some [] |}]> navMap)
    rows ∅.

(** One step of the second pass. *)
Definition attach (st : gmap Z Item * list Z) (row : NavItem.t)
  : gmap Z Item * list Z :=
  let '(navMap, rootItems) := st in
  let ref := NavItem.id row in      (* const item = navMap.get(row.id)! *)
  match truthyId (NavItem.parentId row) with
  | Some parentId =>
      match navMap !! parentId with
      | Some parent =>
          let kids := match children parent with Some l => l | None => [] end in
          (<[parentId := {| item := item parent;
                            children := Some (kids ++ [ref]) |}]> navMap,
           rootItems)
      | None => (navMap, rootItems)
      end
  | None => (navMap, rootItems ++ [ref])
  end.

Definition buildHierarchy (rows : list NavItem.t) : Hierarchy :=
  let '(navMap, rootItems) := fold_left attach rows (createItems rows, []) in
  {| objects := navMap; roots := rootItems |}.

Definition defaultItem (id : Z) (label url : string) (sortOrder : Z) : NavItem.t :=
  NavItem.mk id label url None sortOrder true None None.

Definition getDefaultNavigation : Hierarchy :=
  let rows := [
    defaultItem 1 "首页" "/" 1;
    defaultItem 2 "中心概况" "/about" 2;
    defaultItem 3 "实验教学" "/teaching" 3;
    defaultItem 4 "师资队伍" "/faculty" 4;
    defaultItem 5 "新闻动态" "/news" 5;
    defaultItem 6 "联系我们" "/contact" 6
  ] in
  {| objects :=
       list_to_map
         (map (fun r => (NavItem.id r, {| item := r; children := None |})) rows);
     roots := map NavItem.id rows |}.

Definition getNavigationStructure : M Hierarchy :=
  try_catch
    (rows <- query SelectNavigation [] ;;
     ret (buildHierarchy rows))
    (fun error => ret getDefaultNavigation).

(** The ids met by a walk over the hierarchy, each item before its
    children ([flattenHierarchy] of the navigation tests); [fuel] bounds
    the depth of the walk. *)
Fixpoint flattenHierarchy (fuel : nat) (objs : gmap Z Item) (refs : list Z)
  : list Z :=
  match fuel with
  | O => []
  | S fuel' =>
      flat_map
        (fun ref =>
           match objs !! ref with
           | Some it =>
               NavItem.id (item it)
               :: flattenHierarchy fuel' objs
                    (match children it with Some l => l | None => [] end)
           | None => []
           end)
        refs
  end.

End navigation.

(* ===================================================================== *)
(** ** Requests and responses of the API routes *)
(* ===================================================================== *)

Module Http.
Import Store.

(** A parsed JSON document. *)
#[local] Unset Elimination Schemes.
Inductive json :=
| JNull
| JBool (b : bool)
| JNum (q : Q)
| JStr (s : string)
| JArr (l : list json)
| JObj (fields : list (string * json)).
#[local] Set Elimination Schemes.

Fixpoint assoc (k : string) (fields : list (string * json)) : option json :=
  match fields with
  | [] => None
  | (k', v) :: fields' => if String.eqb k k' then Some v else assoc k fields'
  end.

(** [body.k] on a body that is not [null]; [None] is [undefined]. *)
Definition get (body : json) (k : string) : option json :=
  match body with
  | JObj fields => assoc k fields
  | _ => None
  end.

(** [body.k] where [body] may be [null]: reading a property of [null]
    throws a TypeError. *)
Definition member (body : json) (k : string) : M (option json) :=
  match body with
  | JNull =>
      throw (JsError ("Cannot read properties of null (reading '" ++ k ++ "')")%string)
  | _ => ret (get body k)
  end.

Definition truthy (v : option json) : bool :=
  match v with
  | None | Some JNull => false
  | Some (JBool b) => b
  | Some (JNum q) => negb (Qnum q =? 0)
  | Some (JStr s) => negb (Js.isEmpty s)
  | Some (JArr _) | Some (JObj _) => true
  end.

Definition isUndefined (v : option json) : bool :=
  match v with None => true | Some _ => false end.

Definition isNull (v : option json) : bool :=
  match v with Some JNull => true | _ => false end.

(** [typeof v === 'string'] *)
Definition isString (v : option json) : bool :=
  match v with Some (JStr _) => true | _ => false end.

(** [typeof v === 'boolean'] *)
Definition isBoolean (v : option json) : bool :=
  match v with Some (JBool _) => true | _ => false end.

(** [typeof v === 'number' && Number.isInteger(v)] *)
Definition isInteger (v : option json) : bool :=
  match v with
  | Some (JNum q) => (Qden (Qred q) =? 1)%positive
  | _ => false
  end.

(** [Array.isArray(v) && v.every((t) => typeof t === 'string')] *)
Definition isStringArray (v : option json) : bool :=
  match v with
  | Some (JArr l) => forallb (fun t => isString (Some t)) l
  | _ => false
  end.

(** The string a value is, once [isString] has been checked. *)
Definition str (v : option json) : string :=
  match v with Some (JStr s) => s | _ => EmptyString end.

(** [v?.trim()] *)
Definition optTrim (v : option json) : option string :=
  match v with Some (JStr s) => Some (Js.trim s) | _ => None end.

Definition strings (l : list json) : list string :=
  map (fun t => str (Some t)) l.

(** [!v || typeof v !== 'string' || v.trim() === ''] *)
Definition notRequiredString (v : option json) : bool :=
  negb (truthy v) || negb (isString v) || Js.isEmpty (Js.trim (str v)).

(** [typeof v !== 'string' || v.trim() === ''] *)
Definition notNonEmptyString (v : option json) : bool :=
  negb (isString v) || Js.isEmpty (Js.trim (str v)).

(** [/^[a-z0-9-_]+$/.test(s)] *)
Definition slugChar (c : ascii) : bool :=
  let n := nat_of_ascii c in
  ((97 <=? n)%nat && (n <=? 122)%nat)
  || ((48 <=? n)%nat && (n <=? 57)%nat)
  || (n =? 45)%nat || (n =? 95)%nat.

Definition slugPattern (s : string) : bool :=
  negb (Js.isEmpty s) && forallb slugChar (list_ascii_of_string s).

Inductive parsed :=
| Parsed (body : json)
| Malformed (message : string).

(** What a route reads of its context: [params.id] and the request body. *)
Record Request := { id : option string; payload : parsed }.

(** [await request.json()] *)
Definition json_of (request : Request) : M json :=
  match payload request with
  | Parsed body => ret body
  | Malformed message => throw (JsError message)
  end.

Inductive ResponseBody :=
| ErrorBody (error : string)
| MessageBody (message : string)
| NewsBody (news : NewsItem.t)
| FacultyBody (faculty : FacultyMember.t).

(** [new Response(JSON.stringify(body), { status, headers })]; the
    headers are the same on every response. *)
Record Response := { status : Z; body : ResponseBody }.

Definition badRequest (error : string) : M Response :=
  ret {| status := 400; body := ErrorBody error |}.

(** [error.message?.includes(needle)] *)
Definition messageIncludes (error : exn) (needle : string) : bool :=
  match error with
  | JsError message => Js.includes needle message
  | NonError => false
  end.

(** [parseInt(params.id || '', 10)] *)
Definition parseId (request : Request) : Js.number :=
  Js.parseInt (match Js.truthy (id request) with Some s => s | None => EmptyString end).

End Http.

(* ===================================================================== *)
(** ** [pages/api/news/index.ts] and [pages/api/news/[id].ts] *)
(* ===================================================================== *)

Module NewsApi.
Import Store Http.

(** The [catch] of the routes that write: a uniqueness violation is told
    from any other failure by the text of the message. *)
Definition conflictOrInternal (error : exn) : M Response :=
  if messageIncludes error "duplicate" || messageIncludes error "unique"
  then ret {| status := 409;
              body := ErrorBody "A news article with this slug already exists" |}
  else ret {| status := 500; body := ErrorBody "Internal server error" |}.

Definition internalError (error : exn) : M Response :=
  ret {| status := 500; body := ErrorBody "Internal server error" |}.

(** [v !== undefined && typeof v !== 'string'] *)
Definition definedNotString (v : option json) : bool :=
  negb (isUndefined v) && negb (isString v).

(** [v !== undefined && v !== null && typeof v !== 'string'] *)
Definition presentNotString (v : option json) : bool :=
  negb (isUndefined v) && negb (isNull v) && negb (isString v).

Definition newsData (body : json) : NewsInput.t :=
  {| NewsInput.title := Js.trim (str (get body "title"));
     NewsInput.slug := Js.trim (str (get body "slug"));
     NewsInput.summary := optTrim (get body "summary");
     NewsInput.content := Js.trim (str (get body "content"));
     NewsInput.thumbnailUrl := optTrim (get body "thumbnailUrl");
     NewsInput.author := optTrim (get body "author");
     NewsInput.category := optTrim (get body "category");
     NewsInput.isPublished :=
       match get body "isPublished" with
       | Some (JBool b) => b
       | _ => true                       (* body.isPublished ?? true *)
       end;
     NewsInput.tags :=
       match get body "tags" with
       | Some (JArr l) => Some (strings l)
       | _ => None
       end |}.

(** POST /api/news: the [try] block. *)
Definition POST_try (request : Request) : M Response :=
    (body <- json_of request ;;
     title <- member body "title" ;;
     if notRequiredString title
     then badRequest "Title is required and must be a non-empty string"
     else if notRequiredString (get body "slug")
     then badRequest "Slug is required and must be a non-empty string"
     else if notRequiredString (get body "content")
     then badRequest "Content is required and must be a non-empty string"
     else if negb (slugPattern (str (get body "slug")))
     then badRequest "Slug must contain only lowercase letters, numbers, hyphens, and underscores"
     else if definedNotString (get body "summary")
     then badRequest "Summary must be a string"
     else if definedNotString (get body "thumbnailUrl")
     then badRequest "ThumbnailUrl must be a string"
     else if definedNotString (get body "author")
     then badRequest "Author must be a string"
     else if definedNotString (get body "category")
     then badRequest "Category must be a string"
     else if negb (isUndefined (get body "isPublished"))
             && negb (isBoolean (get body "isPublished"))
     then badRequest "IsPublished must be a boolean"
     else if negb (isUndefined (get body "tags"))
             && negb (isStringArray (get body "tags"))
     then badRequest "Tags must be an array of strings"
     else
       createdNews <- news.createNews (newsData body) ;;
       ret {| status := 201; body := NewsBody createdNews |}).

(** POST /api/news *)
Definition POST (request : Request) : M Response :=
  try_catch (POST_try request) conflictOrInternal.

Definition invalidId (x : Js.number) : bool := Js.isNaN x || Js.lt x 1.

(** The integer a valid id is. *)
Definition idOf (x : Js.number) : Z :=
  match x with Js.Num z => z | Js.NaN => 0 end.

(** GET /api/news/[id] *)
Definition GET (request : Request) : M Response :=
  try_catch
    (let id := parseId request in
     if invalidId id then badRequest "Invalid news ID"
     else
       found <- news.getNewsById (idOf id) ;;
       match found with
       | None => ret {| status := 404; body := ErrorBody "News article not found" |}
       | Some n => ret {| status := 200; body := NewsBody n |}
       end)
    internalError.

Definition updateData (body : json) : NewsPatch.t :=
  let field (k : string) (f : option json -> option string) :=
    if isUndefined (get body k) then None else f (get body k) in
  {| NewsPatch.title := field "title" (fun v => Some (Js.trim (str v)));
     NewsPatch.slug := field "slug" (fun v => Some (Js.trim (str v)));
     NewsPatch.summary := field "summary" optTrim;
     NewsPatch.content := field "content" (fun v => Some (Js.trim (str v)));
     NewsPatch.thumbnailUrl := field "thumbnailUrl" optTrim;
     NewsPatch.author := field "author" optTrim;
     NewsPatch.category := field "category" optTrim;
     NewsPatch.isPublished :=
       match get body "isPublished" with
       | Some (JBool b) => Some b
       | _ => None
       end;
     NewsPatch.tags :=
       match get body "tags" with
       | Some (JArr l) => Some (Some (strings l))
       | Some _ => Some None               (* null *)
       | None => None
       end |}.

(** PUT /api/news/[id]: the [try] block. *)
Definition PUT_try (request : Request) : M Response :=
    (let id := parseId request in
     if invalidId id then badRequest "Invalid news ID"
     else
       body <- json_of request ;;
       title <- member body "title" ;;
       if negb (isUndefined title) && notNonEmptyString title
       then badRequest "Title must be a non-empty string"
       else if negb (isUndefined (get body "slug"))
               && notNonEmptyString (get body "slug")
       then badRequest "Slug must be a non-empty string"
       else if negb (isUndefined (get body "slug"))
               && negb (slugPattern (str (get body "slug")))
       then badRequest "Slug must contain only lowercase letters, numbers, hyphens, and underscores"
       else if negb (isUndefined (get body "content"))
               && notNonEmptyString (get body "content")
       then badRequest "Content must be a non-empty string"
       else if presentNotString (get body "summary")
       then badRequest "Summary must be a string"
       else if presentNotString (get body "thumbnailUrl")
       then badRequest "ThumbnailUrl must be a string"
       else if presentNotString (get body "author")
       then badRequest "Author must be a string"
       else if presentNotString (get body "category")
       then badRequest "Category must be a string"
       else if negb (isUndefined (get body "isPublished"))
               && negb (isBoolean (get body "isPublished"))
       then badRequest "IsPublished must be a boolean"
       else if negb (isUndefined (get body "tags"))
               && negb (isNull (get body "tags"))
               && negb (isStringArray (get body "tags"))
       then badRequest "Tags must be an array of strings"
       else if negb (isUndefined (get body "id"))
               || negb (isUndefined (get body "viewCount"))
               || negb (isUndefined (get body "publishedAt"))
               || negb (isUndefined (get body "updatedAt"))
       then badRequest "Cannot update system fields (id, viewCount, publishedAt, updatedAt)"
       else
         updatedNews <- news.updateNews (idOf id) (updateData body) ;;
         match updatedNews with
         | None => ret {| status := 404; body := ErrorBody "News article not found" |}
         | Some n => ret {| status := 200; body := NewsBody n |}
         end).

(** PUT /api/news/[id] *)
Definition PUT (request : Request) : M Response :=
  try_catch (PUT_try request) conflictOrInternal.

(** DELETE /api/news/[id] *)
Definition DELETE (request : Request) : M Response :=
  try_catch
    (let id := parseId request in
     if invalidId id then badRequest "Invalid news ID"
     else
       deleted <- news.deleteNews (idOf id) ;;
       if negb deleted
       then ret {| status := 404; body := ErrorBody "News article not found" |}
       else ret {| status := 200;
                   body := MessageBody "News article deleted successfully" |})
    internalError.

End NewsApi.

(* ===================================================================== *)
(** ** [pages/api/faculty/index.ts] and [pages/api/faculty/[id].ts] *)
(* ===================================================================== *)

Module FacultyApi.
Import Store Http.

Definition internalError (error : exn) : M Response :=
  ret {| status := 500; body := ErrorBody "Internal server error" |}.

(** [v !== undefined && v !== null && typeof v !== 'string'] *)
Definition presentNotString (v : option json) : bool :=
  negb (isUndefined v) && negb (isNull v) && negb (isString v).

(** [v !== undefined && v !== null && !(array of strings)] *)
Definition presentNotStringArray (v : option json) : bool :=
  negb (isUndefined v) && negb (isNull v) && negb (isStringArray v).

(** The integer a JSON number is, once [isInteger] has been checked. *)
Definition int (v : option json) : Z :=
  match v with Some (JNum q) => Qnum (Qred q) | _ => 0 end.

(** The checks of the optional fields, shared by POST and PUT. *)
Definition optionalFieldError (body : json) : option string :=
  if presentNotString (get body "nameEn") then Some "NameEn must be a string"
  else if presentNotString (get body "photoUrl")
  then Some "PhotoUrl must be a string"
  else if presentNotString (get body "email") then Some "Email must be a string"
  else if presentNotString (get body "phone") then Some "Phone must be a string"
  else if presentNotString (get body "office")
  then Some "Office must be a string"
  else if presentNotStringArray (get body "researchInterests")
  then Some "ResearchInterests must be an array of strings"
  else if presentNotString (get body "education")
  then Some "Education must be a string"
  else if presentNotString (get body "biography")
  then Some "Biography must be a string"
  else if presentNotString (get body "publications")
  then Some "Publications must be a string"
  else if presentNotString (get body "projects")
  then Some "Projects must be a string"
  else if presentNotString (get body "awards")
  then Some "Awards must be a string"
  else if negb (isUndefined (get body "sortOrder"))
          && negb (isInteger (get body "sortOrder"))
  then Some "SortOrder must be an integer"
  else if negb (isUndefined (get body "isVisible"))
          && negb (isBoolean (get body "isVisible"))
  then Some "IsVisible must be a boolean"
  else None.

Definition facultyData (body : json) : FacultyInput.t :=
  {| FacultyInput.name := Js.trim (str (get body "name"));
     FacultyInput.nameEn := optTrim (get body "nameEn");
     FacultyInput.title := Js.trim (str (get body "title"));
     FacultyInput.category := Js.trim (str (get body "category"));
     FacultyInput.photoUrl := optTrim (get body "photoUrl");
     FacultyInput.email := optTrim (get body "email");
     FacultyInput.phone := optTrim (get body "phone");
     FacultyInput.office := optTrim (get body "office");
     FacultyInput.researchInterests :=
       match get body "researchInterests" with
       | Some (JArr l) => Some (strings l)
       | _ => None
       end;
     FacultyInput.education := optTrim (get body "education");
     FacultyInput.biography := optTrim (get body "biography");
     FacultyInput.publications := optTrim (get body "publications");
     FacultyInput.projects := optTrim (get body "projects");
     FacultyInput.awards := optTrim (get body "awards");
     FacultyInput.sortOrder :=
       match get body "sortOrder" with
       | Some (JNum _) => int (get body "sortOrder")
       | _ => 0                            (* body.sortOrder ?? 0 *)
       end;
     FacultyInput.isVisible :=
       match get body "isVisible" with
       | Some (JBool b) => b
       | _ => true                         (* body.isVisible ?? true *)
       end |}.

(** POST /api/faculty: the [try] block. *)
Definition POST_try (request : Request) : M Response :=
    (body <- json_of request ;;
     name <- member body "name" ;;
     if notRequiredString name
     then badRequest "Name is required and must be a non-empty string"
     else if notRequiredString (get body "title")
     then badRequest "Title is required and must be a non-empty string"
     else if notRequiredString (get body "category")
     then badRequest "Category is required and must be a non-empty string"
     else
       match optionalFieldError body with
       | Some error => badRequest error
       | None =>
           createdFaculty <- faculty.createFaculty (facultyData body) ;;
           ret {| status := 201; body := FacultyBody createdFaculty |}
       end).

(** POST /api/faculty *)
Definition POST (request : Request) : M Response :=
  try_catch (POST_try request) internalError.

(** GET /api/faculty/[id] *)
Definition GET (request : Request) : M Response :=
  try_catch
    (let id := parseId request in
     if NewsApi.invalidId id then badRequest "Invalid faculty ID"
     else
       found <- faculty.getFacultyById (NewsApi.idOf id) ;;
       match found with
       | None => ret {| status := 404; body := ErrorBody "Faculty member not found" |}
       | Some f => ret {| status := 200; body := FacultyBody f |}
       end)
    internalError.

Definition updateData (body : json) : FacultyPatch.t :=
  let field (k : string) (f : option json -> option string) :=
    if isUndefined (get body k) then None else f (get body k) in
  let trimmed (v : option json) := Some (Js.trim (str v)) in
  {| FacultyPatch.name := field "name" trimmed;
     FacultyPatch.nameEn := field "nameEn" optTrim;
     FacultyPatch.title := field "title" trimmed;
     FacultyPatch.category := field "category" trimmed;
     FacultyPatch.photoUrl := field "photoUrl" optTrim;
     FacultyPatch.email := field "email" optTrim;
     FacultyPatch.phone := field "phone" optTrim;
     FacultyPatch.office := field "office" optTrim;
     FacultyPatch.researchInterests :=
       match get body "researchInterests" with
       | Some (JArr l) => Some (Some (strings l))
       | Some _ => Some None               (* null *)
       | None => None
       end;
     FacultyPatch.education := field "education" optTrim;
     FacultyPatch.biography := field "biography" optTrim;
     FacultyPatch.publications := field "publications" optTrim;
     FacultyPatch.projects := field "projects" optTrim;
     FacultyPatch.awards := field "awards" optTrim;
     FacultyPatch.sortOrder :=
       match get body "sortOrder" with
       | Some (JNum _) => Some (int (get body "sortOrder"))
       | _ => None
       end;
     FacultyPatch.isVisible :=
       match get body "isVisible" with
       | Some (JBool b) => Some b
       | _ => None
       end |}.

(** PUT /api/faculty/[id]: the [try] block. *)
Definition PUT_try (request : Request) : M Response :=
    (let id := parseId request in
     if NewsApi.invalidId id then badRequest "Invalid faculty ID"
     else
       body <- json_of request ;;
       name <- member body "name" ;;
       if negb (isUndefined name) && notNonEmptyString name
       then badRequest "Name must be a non-empty string"
       else if negb (isUndefined (get body "title"))
               && notNonEmptyString (get body "title")
       then badRequest "Title must be a non-empty string"
       else if negb (isUndefined (get body "category"))
               && notNonEmptyString (get body "category")
       then badRequest "Category must be a non-empty string"
       else
         match optionalFieldError body with
         | Some error => badRequest error
         | None =>
             if negb (isUndefined (get body "id"))
                || negb (isUndefined (get body "createdAt"))
                || negb (isUndefined (get body "updatedAt"))
             then badRequest "Cannot update system fields (id, createdAt, updatedAt)"
             else
               updatedFaculty <-
                 faculty.updateFaculty (NewsApi.idOf id) (updateData body) ;;
               match updatedFaculty with
               | None => ret {| status := 404;
                                body := ErrorBody "Faculty member not found" |}
               | Some f => ret {| status := 200; body := FacultyBody f |}
               end
         end).

(** PUT /api/faculty/[id] *)
Definition PUT (request : Request) : M Response :=
  try_catch (PUT_try request) internalError.

(** DELETE /api/faculty/[id] *)
Definition DELETE (request : Request) : M Response :=
  try_catch
    (let id := parseId request in
     if NewsApi.invalidId id then badRequest "Invalid faculty ID"
     else
       deleted <- faculty.deleteFaculty (NewsApi.idOf id) ;;
       if negb deleted
       then ret {| status := 404; body := ErrorBody "Faculty member not found" |}
       else ret {| status := 200;
                   body := MessageBody "Faculty member deleted successfully" |})
    internalError.

End FacultyApi.

(* ===================================================================== *)
(** ** The list routes: GET /api/news and GET /api/faculty *)
(* ===================================================================== *)

Module ListApi.
Import Store.

(** [url.searchParams]: [get(name)] is a string, or [null] when the
    parameter is not in the URL. *)
Module SearchParams.
Record t := {
  page : option string;
  pageSize : option string;
  category : option string;
  search : option string }.
End SearchParams.

(** [x > k]: every comparison with [NaN] is false. *)
Definition gt (x : Js.number) (k : Z) : bool :=
  match x with Js.NaN => false | Js.Num z => k <? z end.

(** [(page - 1) * pageSize] on numbers: [NaN] when one of them is. *)
Definition offsetOf (page pageSize : Js.number) : Js.number :=
  match page, pageSize with
  | Js.Num p, Js.Num s => Js.Num ((p - 1) * s)
  | _, _ => Js.NaN
  end.

(** A number as a positional parameter: the driver sends the text of
    [NaN], which is no integer for the store. *)
Definition numberParam (x : Js.number) : sqlval :=
  match x with
  | Js.Num z => VInt z
  | Js.NaN => VText "NaN"
  end.

(** [getNewsList] of [lib/news.ts] on the numbers the route passes,
    [NaN] included; on integers it is [news.getNewsList]. *)
Definition getNewsList (page pageSize : Js.number) (category : option string)
  : M news.NewsList :=
  let offset := offsetOf page pageSize in
  let where_ := [NewsIsPublished] in
  let params : list sqlval := [] in
  let '(where_, params) :=
    match Js.truthy category with
    | Some c => (where_ ++ [NewsCategoryEq (length params + 1)],
                 params ++ [VText c])
    | None => (where_, params)
    end in
  let queryText :=
    SelectNews where_ (Some (length params + 1, length params + 2))%nat in
  let params := params ++ [numberParam pageSize; numberParam offset] in
  items <- db.query queryText params ;;
  let countWhere := [NewsIsPublished] in
  let countParams : list sqlval := [] in
  let '(countWhere, countParams) :=
    match Js.truthy category with
    | Some c => (countWhere ++ [NewsCategoryEq 1], countParams ++ [VText c])
    | None => (countWhere, countParams)
    end in
  countResult <- db.queryOne (CountNews countWhere) countParams ;;
  let total :=
    match countResult with
    | Some r => Js.parseInt (count r)
    | None => Js.Num 0
    end in
  ret {| news.items := items; news.total := total |}.

(** [Math.ceil(total / pageSize)]; the route divides only by a
    [pageSize] that is [NaN] or at least 1. *)
Definition ceilDiv (total pageSize : Js.number) : Js.number :=
  match total, pageSize with
  | Js.Num t, Js.Num s => if 0 <? s then Js.Num (- ((- t) / s)) else Js.NaN
  | _, _ => Js.NaN
  end.

Record NewsPage := {
  items : list NewsItem.t;
  total : Js.number;
  page : Js.number;
  pageSize : Js.number;
  totalPages : Js.number }.

Inductive ListBody :=
| ListError (error : string)
| NewsPageBody (p : NewsPage)
| FacultyListBody (items : list FacultyMember.t) (total : Z).

Record ListResponse := { status : Z; body : ListBody }.

Definition internalError (error : exn) : M ListResponse :=
  ret {| status := 500; body := ListError "Internal server error" |}.

(** [url.searchParams.get(name) || fallback] *)
Definition orDefault (x : option string) (fallback : string) : string :=
  match Js.truthy x with Some s => s | None => fallback end.

(** GET /api/news *)
Definition GET_news (url : SearchParams.t) : M ListResponse :=
  try_catch
    (let page := Js.parseInt (orDefault (SearchParams.page url) "1") in
     let pageSize := Js.parseInt (orDefault (SearchParams.pageSize url) "10") in
     let category := Js.truthy (SearchParams.category url) in
     if Js.lt page 1 || Js.lt pageSize 1 || gt pageSize 100
     then ret {| status := 400;
                 body := ListError "Invalid pagination parameters. Page must be >= 1, pageSize must be between 1 and 100." |}
     else
       result <- getNewsList page pageSize category ;;
       ret {| status := 200;
              body := NewsPageBody
                        {| items := news.items result;
                           total := news.total result;
                           page := page;
                           pageSize := pageSize;
                           totalPages := ceilDiv (news.total result) pageSize |} |})
    internalError.

(** GET /api/faculty *)
Definition GET_faculty (url : SearchParams.t) : M ListResponse :=
  try_catch
    (let category := Js.truthy (SearchParams.category url) in
     let search := Js.truthy (SearchParams.search url) in
     members <- faculty.getFacultyList category search ;;
     ret {| status := 200;
            body := FacultyListBody members (Z.of_nat (length members)) |})
    internalError.

End ListApi.

(* ===================================================================== *)
(** ** Vocabulary of the statements proved below *)
(* ===================================================================== *)

Module Spec.
Import Store Http.




(** [x] is an integer that is at least 1. *)
Definition positiveInteger (x : Js.number) : Prop :=
  exists z, x = Js.Num z /\ 1 <= z.

(** The response 400 with the given error message, and no statement sent. *)
Definition rejects (error : string) (d : Db) (r : outcome Response * Db) : Prop :=
  r = (Returned {| status := 400; body := ErrorBody error |}, d).


Definition internal : Response :=
  {| status := 500; body := ErrorBody "Internal server error" |}.




(** The ids that a column of type INTEGER holds. *)
Definition int32 (z : Z) : Prop :=
  - 2147483648 <= z <= 2147483647.




(** The row that the INSERT of [createNews] adds for the input [n]. *)
Definition createdRow (d : Db) (n : NewsInput.t) : NewsItem.t :=
  NewsItem.mk (news_id_seq d + 1) (NewsInput.title n) (NewsInput.slug n)
    (Js.truthy (NewsInput.summary n)) (NewsInput.content n)
    (Js.truthy (NewsInput.thumbnailUrl n)) (Js.truthy (NewsInput.author n))
    (Js.truthy (NewsInput.category n)) (now d) (now d)
    (NewsInput.isPublished n) 0 (NewsInput.tags n).

(** [s] contains [q], letter case apart. *)
Definition containsCI (s q : string) : bool :=
  Js.includes (Js.toLowerCase q) (Js.toLowerCase s).

(** The characters that LIKE does not take literally. *)
Definition isWildcard (c : ascii) : bool :=
  Ascii.eqb c "%" || Ascii.eqb c "_" || Ascii.eqb c "\".

Fixpoint plain (q : string) : bool :=
  match q with
  | EmptyString => true
  | String c q' => negb (isWildcard c) && plain q'
  end.

(** The name, the English name, the title or a research interest of [f]
    contains [q], letter case apart. *)
Definition searchHit (q : string) (f : FacultyMember.t) : Prop :=
  containsCI (FacultyMember.name f) q = true
  \/ (exists s, FacultyMember.nameEn f = Some s /\ containsCI s q = true)
  \/ containsCI (FacultyMember.title f) q = true
  \/ (exists l i, FacultyMember.researchInterests f = Some l
                  /\ In i l /\ containsCI i q = true).

(** The children of an item, [children || []]. *)
Definition kids (it : navigation.Item) : list Z :=
  match navigation.children it with Some l => l | None => [] end.

(** What holds of the map of items and of the root list all along the
    second pass of [getNavigationStructure] over [rows]: a root is a row
    without parent, an item sits under its own id, and a child of the
    item [k] is a row whose parent is [k]. *)
Definition attached (rows : list NavItem.t) (st : gmap Z navigation.Item * list Z)
  : Prop :=
  (forall x, In x (snd st) ->
             exists r, In r rows /\ NavItem.id r = x
                       /\ navigation.truthyId (NavItem.parentId r) = None)
  /\ (forall k it,
         fst st !! k = Some it ->
         NavItem.id (navigation.item it) = k
         /\ In k (map NavItem.id rows)
         /\ forall c, In c (kids it) ->
                      exists r, In r rows /\ NavItem.id r = c
                                /\ navigation.truthyId (NavItem.parentId r) = Some k).

(** The id [x] is that of a row without parent, or of a row whose parent
    is among the rows. *)
Definition placed (rows : list NavItem.t) (x : Z) : Prop :=
  exists r, In r rows /\ NavItem.id r = x
            /\ (navigation.truthyId (NavItem.parentId r) = None
                \/ exists k, navigation.truthyId (NavItem.parentId r) = Some k
                             /\ In k (map NavItem.id rows)).

(** The strings of the regular expression [^[a-z0-9-_]+$]. *)
Definition slugRegex (s : string) : Prop :=
  s <> EmptyString
  /\ Forall (fun c : ascii =>
               (97 <= nat_of_ascii c <= 122)%nat      (* a-z *)
               \/ (48 <= nat_of_ascii c <= 57)%nat    (* 0-9 *)
               \/ c = "-"%char \/ c = "_"%char)
            (list_ascii_of_string s).

(** The value of [body.slug] passes the slug validator. *)
Definition slugAccepted (v : option json) : bool :=
  match v with
  | Some (JStr s) => slugPattern s
  | _ => false
  end.

(** A 400 about the slug from POST /api/news, the store being [d]. *)
Definition slugErrorPOST (d : Db) (r : outcome Response * Db) : Prop :=
  rejects "Slug is required and must be a non-empty string" d r
  \/ rejects "Slug must contain only lowercase letters, numbers, hyphens, and underscores" d r.

(** A 400 about the slug from PUT /api/news/[id]. *)
Definition slugErrorPUT (d : Db) (r : outcome Response * Db) : Prop :=
  rejects "Slug must be a non-empty string" d r
  \/ rejects "Slug must contain only lowercase letters, numbers, hyphens, and underscores" d r.

(** [r] has no parent for [getNavigationStructure]: its [parentId] is
    NULL or 0. *)
Definition parentless (r : NavItem.t) : bool :=
  match navigation.truthyId (NavItem.parentId r) with
  | Some _ => false
  | None => true
  end.

(** The parent of [r] is the row of id [k]. *)
Definition childOf (k : Z) (r : NavItem.t) : bool :=
  match navigation.truthyId (NavItem.parentId r) with
  | Some p => p =? k
  | None => false
  end.

(** Ascending [sortOrder]. *)
Definition bySortOrder (a b : NavItem.t) : Prop :=
  NavItem.sortOrder a <= NavItem.sortOrder b.

(** [chain rows j y x]: going up [j] times from the row of id [y] to
    the parent leads to [x]. *)
Inductive chain (rows : list NavItem.t) : nat -> Z -> Z -> Prop :=
| chain_here (y : Z) : chain rows 0 y y
| chain_up (j : nat) (y p x : Z) (r : NavItem.t) :
    In r rows -> NavItem.id r = y ->
    navigation.truthyId (NavItem.parentId r) = Some p ->
    chain rows j p x -> chain rows (S j) y x.

(** The row of id [y] is [n] levels below a row without parent. *)
Definition level (rows : list NavItem.t) (n : nat) (y : Z) : Prop :=
  exists r0, In r0 rows /\ parentless r0 = true
             /\ chain rows n y (NavItem.id r0).








(** The wrapped message of a failure of the store. *)
Definition wrapped (message : string) : exn :=
  JsError ("Database operation failed: " ++ message)%string.


(** What [searchFaculty] finds for [q]: the name, the English name or
    the title contains [q], letter case apart, or a research interest is
    the very text that the statement is given, [q] between two percent
    signs. *)
Definition found (q : string) (f : FacultyMember.t) : Prop :=
  containsCI (FacultyMember.name f) q = true
  \/ (exists s, FacultyMember.nameEn f = Some s /\ containsCI s q = true)
  \/ containsCI (FacultyMember.title f) q = true
  \/ (exists l, FacultyMember.researchInterests f = Some l
                /\ In ("%" ++ q ++ "%")%string l).



(** The route answers, with one of the given statuses, and a 400 comes
    before anything is sent to the store [d]. *)
Definition answers (statuses : list Z) (d : Db) (r : outcome Response * Db)
  : Prop :=
  exists resp d',
    r = (Returned resp, d')
    /\ In (status resp) statuses
    /\ (status resp = 400 -> d' = d).

(** What a route by id answers for the row it looked for. *)
Definition foundOr404 {A} (ok : A -> ResponseBody) (missing : string)
  (found : option A) : Response :=
  match found with
  | Some a => {| status := 200; body := ok a |}
  | None => {| status := 404; body := ErrorBody missing |}
  end.

(** What a DELETE route answers. *)
Definition deletedOr404 (done missing : string) (deleted : bool) : Response :=
  if deleted then {| status := 200; body := MessageBody done |}
  else {| status := 404; body := ErrorBody missing |}.


(** Between the stores [d] and [d'], only rows of [faculty] with the id
    [i] have changed, and neither their [id] nor their [createdAt]. *)
Definition touchesOnly (i : Z) (d d' : Db) : Prop :=
  exists g : FacultyMember.t -> FacultyMember.t,
    (forall r, FacultyMember.id (g r) = FacultyMember.id r
               /\ FacultyMember.createdAt (g r) = FacultyMember.createdAt r)
    /\ faculty d'
       = map (fun r => if FacultyMember.id r =? i then g r else r) (faculty d).

(** The tables and the sequences of [d'] are those of [d]. *)
Definition sameTables (d d' : Db) : Prop :=
  news d' = news d /\ news_id_seq d' = news_id_seq d
  /\ faculty d' = faculty d /\ faculty_id_seq d' = faculty_id_seq d
  /\ navigation d' = navigation d.


End Spec.

(* ===================================================================== *)
(** ** Concrete stores and requests used as examples *)
(* ===================================================================== *)

Module Examples.
Import Store Http.

(** An empty store. *)
Definition emptyDb : Db := mkDb [] 0 [] 0 [] 0 None [].





Definition slugRequest (slug : string) : Request :=
  {| id := Some "1";
     payload := Parsed (JObj [("title", JStr "T"); ("slug", JStr slug);
                              ("content", JStr "C")]) |}.

Definition article (i : Z) : NewsItem.t :=
  NewsItem.mk i "Title" ("article-" ++ count_text (Z.to_nat i))%string None
    "text" None None None i i true 0 None.

(** Ten published articles, the oldest first. *)
Definition tenNewsDb : Db :=
  mkDb (map article [1; 2; 3; 4; 5; 6; 7; 8; 9; 10]) 10 [] 0 [] 20 None [].




Definition ada : FacultyMember.t :=
  FacultyMember.mk 1 "Ada" None "Professor" "professor" None None None
    None None None None None None None 0 true 0 0.

Definition oneFacultyDb : Db := mkDb [] 0 [ada] 1 [] 10 None [].

Definition navRow (i : Z) (parent : option Z) (visible : bool) : NavItem.t :=
  NavItem.mk i "item" "/item" parent i visible None None.

(** A visible entry under a hidden one, next to a visible top-level
    entry with a child. *)
Definition hiddenParentDb : Db :=
  mkDb [] 0 [] 0
       [navRow 1 None false; navRow 2 (Some 1) true;
        navRow 3 None true; navRow 4 (Some 3) true]
       4 None [].

(** A store that rejects every statement. *)
Definition downDb : Db :=
  mkDb [article 1] 1 [ada] 1 [navRow 1 None true] 10
       (Some "connection refused") [].

(** Top-level entries with children, stored out of order. *)
Definition menuDb : Db :=
  mkDb [] 0 [] 0
       [NavItem.mk 4 "d" "/d" (Some 1) 2 true None None;
        NavItem.mk 2 "b" "/b" None 20 true None None;
        NavItem.mk 3 "c" "/c" (Some 1) 1 true None None;
        NavItem.mk 1 "a" "/a" None 10 true None None;
        NavItem.mk 5 "e" "/e" (Some 1) 3 false None None]
       5 None [].




Definition staff (i : Z) (name : string) (order : Z) (visible : bool)
  (interests : option (list string)) : FacultyMember.t :=
  FacultyMember.mk i name None "Professor" "professor" None None None None
    interests None None None None None order visible 0 0.

(** Members stored out of order, one of them hidden, one whose research
    interest is the only place where [logic] occurs. *)
Definition staffDb : Db :=
  mkDb [] 0
       [staff 1 "Grace" 30 true None;
        staff 2 "Alan" 10 true (Some ["logic"]);
        staff 3 "Kurt Logician" 20 true None;
        staff 4 "Emmy" 5 false None]
       4 [] 10 None [].



Definition pageAbc : ListApi.SearchParams.t :=
  {| ListApi.SearchParams.page := Some "abc";
     ListApi.SearchParams.pageSize := None;
     ListApi.SearchParams.category := None;
     ListApi.SearchParams.search := None |}.

Definition pageZero : ListApi.SearchParams.t :=
  {| ListApi.SearchParams.page := Some "0";
     ListApi.SearchParams.pageSize := None;
     ListApi.SearchParams.category := None;
     ListApi.SearchParams.search := None |}.


Definition helloRequest : Http.Request :=
  {| Http.id := None;
     Http.payload :=
       Parsed (JObj [("title", JStr " Hello "); ("slug", JStr "hello");
                     ("content", JStr "text")]) |}.

Definition clearSummary : Http.Request :=
  {| Http.id := Some "3";
     Http.payload := Parsed (JObj [("summary", JNull)]) |}.

(** An article with a summary, and a store that holds it. *)
Definition withSummary : NewsItem.t :=
  NewsItem.mk 3 "Title" "article-3" (Some "In short") "text" None None None
    3 3 true 0 None.

Definition summaryDb : Db := mkDb [withSummary] 3 [] 0 [] 20 None [].





End Examples.

(* ===================================================================== *)
(** ** The query executor *)
(* ===================================================================== *)

Section Executor.
Import Store db.

Lemma query_throws_wrapped {T} (queryText : stmt T) params d e d' :
  query queryText params d = (Threw e, d') ->
  exists m, e = JsError ("Database operation failed: " ++ m)%string.
Proof.
  unfold query, try_catch, throw.
  destruct (sql queryText params d) as [[rows | e0] d0]; intros H.
  - discriminate.
  - injection H as <- <-. eauto.
Qed.

(** C9. [queryOne] returns the first row of what [query] returns for the
    same statement and parameters, null when there is no row, and throws
    the very error that [query] throws. *)
Theorem queryOne_first_row_or_null :
  forall (T : Type) (queryText : stmt T) (params : list sqlval) (d : Db),
    match query queryText params d with
    | (Returned [], d') =>
        queryOne queryText params d = (Returned None, d')
    | (Returned (row :: _), d') =>
        queryOne queryText params d = (Returned (Some row), d')
    | (Threw e, d') =>
        queryOne queryText params d = (Threw e, d')
        /\ exists m, e = JsError ("Database operation failed: " ++ m)%string
    end.
Proof.
  intros T queryText params d.
  unfold queryOne, try_catch, bind, ret, throw.
  destruct (query queryText params d) as [[rows | e] d'] eqn:Hq.
  - destruct rows; reflexivity.
  - split; [reflexivity | eapply query_throws_wrapped; eassumption].
Qed.

End Executor.

(* ===================================================================== *)
(** ** Repositories: optional fields and empty patches *)
(* ===================================================================== *)

Section Repositories.
Import Store db.








(** A statement that leaves the tables alone only adds itself to the log. *)
Lemma queryOne_read_only {T} (queryText : stmt T) params d :
  (forall d0, snd (exec queryText params d0) = d0) ->
  snd (queryOne queryText params d)
  = with_log (log d ++ [Call queryText params]) d.
Proof.
  intros Hro.
  unfold queryOne, query, try_catch, bind, throw, ret, sql.
  cbn [failure with_log].
  destruct (failure d); [reflexivity |].
  match goal with
  | |- context [exec queryText params ?d0] =>
      specialize (Hro d0); destruct (exec queryText params d0) as [[msg | rows] d']
  end; cbn in *; congruence.
Qed.

(** C6. [updateNews(id, {})] and [updateFaculty(id, {})] are
    [getNewsById(id)] and [getFacultyById(id)]: the same result, one
    SELECT by id and no UPDATE sent to the store, and every row, with its
    [updatedAt], as it was. *)
Theorem update_without_fields_is_getById :
  forall (id : Z) (d : Db),
    (news.updateNews id NewsPatch.empty d = news.getNewsById id d
     /\ snd (news.updateNews id NewsPatch.empty d)
        = with_log (log d ++ [Call (SelectNews [NewsIdEq 1] None) [VInt id]]) d
     /\ Store.news (snd (news.updateNews id NewsPatch.empty d)) = Store.news d)
    /\ (faculty.updateFaculty id FacultyPatch.empty d = faculty.getFacultyById id d
     /\ snd (faculty.updateFaculty id FacultyPatch.empty d)
        = with_log
            (log d ++ [Call (SelectFaculty [FacultyIdEq 1] false) [VInt id]]) d
     /\ Store.faculty (snd (faculty.updateFaculty id FacultyPatch.empty d))
        = Store.faculty d).
Proof.
  intros id d.
  assert (Hn : news.updateNews id NewsPatch.empty d = news.getNewsById id d)
    by reflexivity.
  assert (Hf : faculty.updateFaculty id FacultyPatch.empty d
               = faculty.getFacultyById id d) by reflexivity.
  rewrite Hn, Hf. unfold news.getNewsById, faculty.getFacultyById.
  rewrite !queryOne_read_only by reflexivity.
  repeat split.
Qed.

End Repositories.

(* ===================================================================== *)
(** ** API routes: identifiers, conflicts, slugs *)
(* ===================================================================== *)

Section Routes.
Import Store Http Examples.

Lemma member_not_null (body : json) (k : string) :
  body <> JNull -> member body k = ret (get body k).
Proof. destruct body; [congruence | reflexivity ..]. Qed.

Ltac split_ifs_in H :=
  repeat match type of H with
         | context [if ?b then _ else _] => destruct b
         end.

Ltac not_a_slug_error :=
  let H := fresh in
  intros [H | H]; unfold Spec.rejects in H; discriminate H.

(** Run a route up to its first check: the body is parsed and is not
    [null], so that the first property access succeeds. *)
Ltac enter_route Hr Hp Hb :=
  unfold try_catch, bind, json_of in Hr;
  rewrite Hp in Hr; cbv beta iota in Hr;
  unfold ret at 1 in Hr; cbv beta iota in Hr;
  rewrite (member_not_null _ _ Hb) in Hr;
  unfold ret at 1 in Hr; cbv beta iota in Hr.

Lemma invalidId_iff (x : Js.number) :
  NewsApi.invalidId x = true <-> ~ Spec.positiveInteger x.
Proof.
  unfold NewsApi.invalidId, Spec.positiveInteger.
  destruct x as [| z]; cbn.
  - split; [intros _ [z [H _]]; discriminate | reflexivity].
  - rewrite Z.ltb_lt. split.
    + intros Hlt [z' [H Hle]]. injection H as ->. lia.
    + intros Hn. destruct (Z_lt_ge_dec z 1) as [Hlt | Hge]; [exact Hlt |].
      exfalso. apply Hn. exists z. split; [reflexivity | lia].
Qed.

(** [parseInt] reads a prefix: what follows the digits is ignored. *)
Example parseInt_examples :
  Js.parseInt "42" = Js.Num 42 /\ Js.parseInt "12abc" = Js.Num 12
  /\ Js.parseInt "  7" = Js.Num 7 /\ Js.parseInt "abc" = Js.NaN
  /\ Js.parseInt "" = Js.NaN /\ Js.parseInt "-3" = Js.Num (-3)
  /\ Js.parseInt "0" = Js.Num 0 /\ Js.parseInt "1.5" = Js.Num 1.
Proof. repeat split. Qed.

(** C8. When [parseInt(params.id || '', 10)] is not an integer that is
    at least 1, GET, PUT and DELETE on /api/news/[id] answer 400
    'Invalid news ID' and those on /api/faculty/[id] answer 400
    'Invalid faculty ID', and the store is as it was: no statement has
    been sent. *)
Theorem invalid_id_is_rejected :
  forall (request : Request) (d : Db),
    ~ Spec.positiveInteger (parseId request) ->
    Spec.rejects "Invalid news ID" d (NewsApi.GET request d)
    /\ Spec.rejects "Invalid news ID" d (NewsApi.PUT request d)
    /\ Spec.rejects "Invalid news ID" d (NewsApi.DELETE request d)
    /\ Spec.rejects "Invalid faculty ID" d (FacultyApi.GET request d)
    /\ Spec.rejects "Invalid faculty ID" d (FacultyApi.PUT request d)
    /\ Spec.rejects "Invalid faculty ID" d (FacultyApi.DELETE request d).
Proof.
  intros request d Hbad. apply invalidId_iff in Hbad.
  unfold Spec.rejects, NewsApi.GET, NewsApi.PUT, NewsApi.PUT_try,
    NewsApi.DELETE, FacultyApi.GET, FacultyApi.PUT, FacultyApi.PUT_try,
    FacultyApi.DELETE, try_catch, badRequest, ret.
  rewrite Hbad. repeat split.
Qed.

Lemma invalid_id_is_rejected_witness :
  let request := {| id := Some "abc"; payload := Parsed (JObj []) |} in
  let d := mkDb [] 0 [] 0 [] 0 None [] in
  Spec.rejects "Invalid news ID" d (NewsApi.GET request d)
  /\ Spec.rejects "Invalid news ID" d (NewsApi.PUT request d)
  /\ Spec.rejects "Invalid news ID" d (NewsApi.DELETE request d)
  /\ Spec.rejects "Invalid faculty ID" d (FacultyApi.GET request d)
  /\ Spec.rejects "Invalid faculty ID" d (FacultyApi.PUT request d)
  /\ Spec.rejects "Invalid faculty ID" d (FacultyApi.DELETE request d).
Proof.
  intros request d.
  apply (invalid_id_is_rejected request d).
  intros [z [H _]]. vm_compute in H. discriminate H.
Defined.







Lemma slugChar_iff (c : ascii) :
  slugChar c = true <->
  ((97 <= nat_of_ascii c <= 122)%nat \/ (48 <= nat_of_ascii c <= 57)%nat
   \/ c = "-"%char \/ c = "_"%char).
Proof.
  unfold slugChar.
  rewrite !orb_true_iff, !andb_true_iff, !Nat.leb_le, !Nat.eqb_eq.
  assert (H45 : nat_of_ascii c = 45%nat <-> c = "-"%char).
  { split; [| intros ->; reflexivity].
    intros H. rewrite <- (ascii_nat_embedding c), H. reflexivity. }
  assert (H95 : nat_of_ascii c = 95%nat <-> c = "_"%char).
  { split; [| intros ->; reflexivity].
    intros H. rewrite <- (ascii_nat_embedding c), H. reflexivity. }
  rewrite H45, H95. tauto.
Qed.

Lemma slugPattern_iff (s : string) :
  slugPattern s = true <-> Spec.slugRegex s.
Proof.
  unfold slugPattern, Spec.slugRegex.
  rewrite andb_true_iff, negb_true_iff.
  assert (Hne : Js.isEmpty s = false <-> s <> EmptyString)
    by (destruct s; cbn; split; congruence).
  rewrite Hne.
  assert (Hall : forall l,
             forallb slugChar l = true <->
             List.Forall (fun c : ascii =>
                       (97 <= nat_of_ascii c <= 122)%nat
                       \/ (48 <= nat_of_ascii c <= 57)%nat
                       \/ c = "-"%char \/ c = "_"%char) l).
  { induction l as [| c l IH]; cbn.
    - split; [constructor | reflexivity].
    - rewrite andb_true_iff, IH, slugChar_iff. split.
      + intros [Hc Hl]. constructor; assumption.
      + intros H. inversion H; subst. split; assumption. }
  rewrite Hall. reflexivity.
Qed.

Lemma slugChar_not_space (c : ascii) :
  slugChar c = true -> Js.isWhiteSpace c = false.
Proof.
  rewrite slugChar_iff. unfold Js.isWhiteSpace.
  intros [H | [H | [-> | ->]]]; try reflexivity.
  - destruct (_ && _)%bool eqn:E1; destruct (_ =? _)%nat eqn:E2; try reflexivity;
      rewrite ?andb_true_iff, ?Nat.leb_le, ?Nat.eqb_eq in *; lia.
  - destruct (_ && _)%bool eqn:E1; destruct (_ =? _)%nat eqn:E2; try reflexivity;
      rewrite ?andb_true_iff, ?Nat.leb_le, ?Nat.eqb_eq in *; lia.
Qed.

(** A byte below 128 that is no white space starts no white space. *)
Lemma trimStart_ascii (c : ascii) (s : string) :
  (nat_of_ascii c < 128)%nat -> Js.isWhiteSpace c = false ->
  Js.trimStart (String c s) = String c s.
Proof.
  intros Hlt Hc. cbn [Js.trimStart]. rewrite Hc.
  assert (H2 : forall c2, Js.isWhiteSpace2 c c2 = false).
  { intros c2. unfold Js.isWhiteSpace2.
    destruct (Nat.eqb_spec (nat_of_ascii c) 194); [lia | reflexivity]. }
  assert (H3 : forall c2 c3, Js.isWhiteSpace3 c c2 c3 = false).
  { intros c2 c3. unfold Js.isWhiteSpace3. cbv zeta.
    destruct (Nat.eqb_spec (nat_of_ascii c) 225); [lia |].
    destruct (Nat.eqb_spec (nat_of_ascii c) 226); [lia |].
    destruct (Nat.eqb_spec (nat_of_ascii c) 227); [lia |].
    destruct (Nat.eqb_spec (nat_of_ascii c) 239); [lia |]. reflexivity. }
  destruct s as [| c2 [| c3 s]]; rewrite ?H2, ?H3; reflexivity.
Qed.

Lemma slugChar_ascii (c : ascii) :
  slugChar c = true -> (nat_of_ascii c < 128)%nat.
Proof.
  rewrite slugChar_iff. intros [H | [H | [-> | ->]]]; [lia | lia | |];
    apply Nat.ltb_lt; reflexivity.
Qed.

Lemma trim_nonempty (c : ascii) (s : string) :
  (nat_of_ascii c < 128)%nat -> Js.isWhiteSpace c = false ->
  Js.isEmpty (Js.trim (String c s)) = false.
Proof.
  intros Hlt Hc. unfold Js.trim. rewrite (trimStart_ascii c s Hlt Hc).
  cbn [Js.trimEnd]. rewrite (trimStart_ascii c s Hlt Hc). reflexivity.
Qed.

(** A string that matches the pattern is a non-empty string once trimmed. *)
Lemma slugAccepted_required (v : option json) :
  Spec.slugAccepted v = true ->
  notRequiredString v = false /\ notNonEmptyString v = false
  /\ slugPattern (str v) = true.
Proof.
  destruct v as [[| | | s | |] |]; try discriminate. cbn [Spec.slugAccepted str].
  intros Hs. unfold notRequiredString, notNonEmptyString.
  cbn [truthy isString str negb orb].
  destruct s as [| c s]; [discriminate |].
  pose proof Hs as Hs'. unfold slugPattern in Hs'.
  cbn [Js.isEmpty negb andb list_ascii_of_string forallb] in Hs'.
  apply andb_true_iff in Hs' as [Hc _].
  rewrite (trim_nonempty c s (slugChar_ascii c Hc) (slugChar_not_space c Hc)).
  repeat split. exact Hs.
Qed.

(** Once [body.slug] is known to be a non-empty string, the validator
    is the pattern on that string. *)
Lemma slugAccepted_str (v : option json) :
  isString v = true -> Spec.slugAccepted v = slugPattern (str v).
Proof. destruct v as [[| | | s | |] |]; try discriminate; reflexivity. Qed.

Lemma POST_slug_rejected request body d :
  payload request = Parsed body -> body <> JNull ->
  notRequiredString (get body "title") = false ->
  notRequiredString (get body "content") = false ->
  Spec.slugAccepted (get body "slug") = false ->
  Spec.slugErrorPOST d (NewsApi.POST request d).
Proof.
  intros Hp Hb Ht Hc Hs.
  remember (NewsApi.POST request d) as r eqn:Hr.
  unfold NewsApi.POST, NewsApi.POST_try in Hr. enter_route Hr Hp Hb.
  rewrite Ht in Hr. unfold Spec.slugErrorPOST, Spec.rejects.
  destruct (notRequiredString (get body "slug")) eqn:Hreq.
  - left. exact Hr.
  - rewrite Hc in Hr. right.
    assert (Hstr : isString (get body "slug") = true).
    { unfold notRequiredString in Hreq.
      destruct (isString (get body "slug")); [reflexivity |].
      rewrite orb_true_r in Hreq. discriminate. }
    rewrite <- (slugAccepted_str _ Hstr), Hs in Hr. exact Hr.
Qed.

Lemma POST_slug_accepted request body d d' :
  payload request = Parsed body -> body <> JNull ->
  notRequiredString (get body "title") = false ->
  Spec.slugAccepted (get body "slug") = true ->
  ~ Spec.slugErrorPOST d' (NewsApi.POST request d).
Proof.
  intros Hp Hb Ht Hs.
  destruct (slugAccepted_required _ Hs) as (Hreq & _ & Hpat).
  remember (NewsApi.POST request d) as r eqn:Hr.
  unfold NewsApi.POST, NewsApi.POST_try in Hr. enter_route Hr Hp Hb.
  rewrite Ht, Hreq, Hpat in Hr. cbn [negb] in Hr.
  unfold badRequest, ret in Hr.
  split_ifs_in Hr; try (subst r; not_a_slug_error).
  destruct (news.createNews _ d) as [[n | e] d1];
    [subst r; not_a_slug_error |].
  unfold NewsApi.conflictOrInternal, ret in Hr.
  split_ifs_in Hr; subst r; not_a_slug_error.
Qed.

Lemma PUT_slug_rejected request body d v :
  NewsApi.invalidId (parseId request) = false ->
  payload request = Parsed body -> body <> JNull ->
  negb (isUndefined (get body "title")) && notNonEmptyString (get body "title")
  = false ->
  get body "slug" = Some v ->
  Spec.slugAccepted (Some v) = false ->
  Spec.slugErrorPUT d (NewsApi.PUT request d).
Proof.
  intros Hid Hp Hb Ht Hv Hs.
  remember (NewsApi.PUT request d) as r eqn:Hr.
  unfold NewsApi.PUT, NewsApi.PUT_try in Hr. rewrite Hid in Hr.
  enter_route Hr Hp Hb.
  rewrite Ht, Hv in Hr. cbn [isUndefined negb andb] in Hr.
  unfold Spec.slugErrorPUT, Spec.rejects.
  destruct (notNonEmptyString (Some v)) eqn:Hreq.
  - left. exact Hr.
  - right.
    assert (Hstr : isString (Some v) = true).
    { unfold notNonEmptyString in Hreq.
      destruct (isString (Some v)); [reflexivity | discriminate]. }
    rewrite <- (slugAccepted_str _ Hstr), Hs in Hr. exact Hr.
Qed.

Lemma PUT_slug_accepted request body d d' v :
  NewsApi.invalidId (parseId request) = false ->
  payload request = Parsed body -> body <> JNull ->
  get body "slug" = Some v ->
  Spec.slugAccepted (Some v) = true ->
  ~ Spec.slugErrorPUT d' (NewsApi.PUT request d).
Proof.
  intros Hid Hp Hb Hv Hs.
  destruct (slugAccepted_required _ Hs) as (_ & Hreq & Hpat).
  remember (NewsApi.PUT request d) as r eqn:Hr.
  unfold NewsApi.PUT, NewsApi.PUT_try in Hr. rewrite Hid in Hr.
  enter_route Hr Hp Hb.
  rewrite Hv, Hreq, Hpat in Hr. cbn [isUndefined negb andb] in Hr.
  unfold badRequest, ret in Hr.
  split_ifs_in Hr; try (subst r; not_a_slug_error).
  destruct (news.updateNews _ _ d) as [[[n |] | e] d1];
    try (subst r; not_a_slug_error).
  unfold NewsApi.conflictOrInternal, ret in Hr.
  split_ifs_in Hr; subst r; not_a_slug_error.
Qed.

(** C7. The slug validator of POST /api/news and PUT /api/news/[id]
    accepts a value exactly when it is a string of [^[a-z0-9-_]+$]: the
    four strings of the specification are rejected and [valid-slug_1] is
    accepted; a rejected slug is answered with 400 and a message about
    the slug, no statement being sent; an accepted one never is. *)
Theorem slug_validator :
  (slugPattern "Invalid Slug" = false /\ slugPattern "UPPERCASE" = false
   /\ slugPattern "special@chars!" = false /\ slugPattern "" = false
   /\ slugPattern "valid-slug_1" = true)
  /\ (forall s, slugPattern s = true <-> Spec.slugRegex s)
  /\ (forall request body d,
        payload request = Parsed body -> body <> JNull ->
        notRequiredString (get body "title") = false ->
        (Spec.slugAccepted (get body "slug") = false ->
         notRequiredString (get body "content") = false ->
         Spec.slugErrorPOST d (NewsApi.POST request d))
        /\ (Spec.slugAccepted (get body "slug") = true ->
            forall d', ~ Spec.slugErrorPOST d' (NewsApi.POST request d)))
  /\ (forall request body d v,
        NewsApi.invalidId (parseId request) = false ->
        payload request = Parsed body -> body <> JNull ->
        get body "slug" = Some v ->
        (Spec.slugAccepted (Some v) = false ->
         negb (isUndefined (get body "title"))
         && notNonEmptyString (get body "title") = false ->
         Spec.slugErrorPUT d (NewsApi.PUT request d))
        /\ (Spec.slugAccepted (Some v) = true ->
            forall d', ~ Spec.slugErrorPUT d' (NewsApi.PUT request d))).
Proof.
  split; [repeat split |].
  split; [exact slugPattern_iff |].
  split.
  - intros request body d Hp Hb Ht. split.
    + intros Hs Hc. eapply POST_slug_rejected; eassumption.
    + intros Hs d'. eapply POST_slug_accepted; eassumption.
  - intros request body d v Hid Hp Hb Hv. split.
    + intros Hs Ht. eapply PUT_slug_rejected; eassumption.
    + intros Hs d'. eapply PUT_slug_accepted; eassumption.
Qed.

Lemma slug_validator_witness :
  Spec.slugErrorPOST emptyDb (NewsApi.POST (slugRequest "Invalid Slug") emptyDb)
  /\ ~ Spec.slugErrorPOST emptyDb
         (NewsApi.POST (slugRequest "valid-slug_1") emptyDb)
  /\ Spec.slugErrorPUT emptyDb (NewsApi.PUT (slugRequest "UPPERCASE") emptyDb)
  /\ ~ Spec.slugErrorPUT emptyDb
         (NewsApi.PUT (slugRequest "valid-slug_1") emptyDb).
Proof.
  pose proof slug_validator as (_ & _ & Hpost & Hput).
  assert (Hnn : forall l, JObj l <> JNull) by (intros l H; discriminate H).
  split; [| split; [| split]].
  - refine (proj1 (Hpost (slugRequest "Invalid Slug") _ emptyDb
                     eq_refl (Hnn _) eq_refl) eq_refl eq_refl).
  - refine (proj2 (Hpost (slugRequest "valid-slug_1") _ emptyDb
                     eq_refl (Hnn _) eq_refl) eq_refl emptyDb).
  - refine (proj1 (Hput (slugRequest "UPPERCASE") _ emptyDb _
                     eq_refl eq_refl (Hnn _) eq_refl) eq_refl eq_refl).
  - refine (proj2 (Hput (slugRequest "valid-slug_1") _ emptyDb _
                     eq_refl eq_refl (Hnn _) eq_refl) eq_refl emptyDb).
Defined.

End Routes.

(* ===================================================================== *)
(** ** News list: window and total *)
(* ===================================================================== *)
(** ** ORDER BY: the sort is a permutation and is sorted *)
(* ===================================================================== *)

Section Ordering.
Import Store.

Lemma insert_by_perm {A} (le : A -> A -> bool) (x : A) (l : list A) :
  Permutation (x :: l) (insert_by le x l).
Proof.
  induction l as [| y l IH]; cbn; [reflexivity |].
  destruct (le x y); [reflexivity |].
  rewrite perm_swap. apply perm_skip, IH.
Qed.

Lemma sort_by_perm {A} (le : A -> A -> bool) (l : list A) :
  Permutation l (sort_by le l).
Proof.
  induction l as [| x l IH]; cbn; [reflexivity |].
  rewrite <- insert_by_perm. apply perm_skip, IH.
Qed.

Section Sorting.
Context {A : Type} (le : A -> A -> bool) (R : A -> A -> Prop).
Hypothesis le_R : forall a b, le a b = true -> R a b.
Hypothesis not_le_R : forall a b, le a b = false -> R b a.
Hypothesis R_trans : forall a b c, R a b -> R b c -> R a c.

Lemma insert_by_sorted (x : A) (l : list A) :
  StronglySorted R l -> StronglySorted R (insert_by le x l).
Proof using le_R not_le_R R_trans.
  induction l as [| y l IH]; cbn; intros Hs.
  - repeat constructor.
  - apply StronglySorted_inv in Hs as [Hl Hy].
    destruct (le x y) eqn:E.
    + constructor; [constructor; assumption |].
      constructor; [apply le_R, E |].
      eapply List.Forall_impl; [| exact Hy].
      intros z Hz. eapply R_trans; [apply le_R, E | exact Hz].
    + constructor; [apply IH, Hl |].
      apply List.Forall_forall. intros z Hz.
      apply (Permutation_in _ (Permutation_sym (insert_by_perm le x l))) in Hz.
      destruct Hz as [<- | Hz]; [apply not_le_R, E |].
      rewrite List.Forall_forall in Hy. apply Hy, Hz.
Qed.

Lemma sort_by_sorted (l : list A) : StronglySorted R (sort_by le l).
Proof using le_R not_le_R R_trans.
  induction l as [| x l IH]; cbn; [constructor | apply insert_by_sorted, IH].
Qed.

End Sorting.

End Ordering.

(* ===================================================================== *)

Section NewsList.
Import Store db.



Lemma query_returns {T} (queryText : stmt T) params d rows d' :
  failure d = None ->
  exec queryText params (with_log (log d ++ [Call queryText params]) d)
  = (inr rows, d') ->
  query queryText params d = (Returned rows, d').
Proof.
  intros Hf He. unfold query, try_catch, sql. cbn [failure with_log].
  rewrite Hf, He. reflexivity.
Qed.

Lemma queryOne_returns {T} (queryText : stmt T) params d rows d' :
  failure d = None ->
  exec queryText params (with_log (log d ++ [Call queryText params]) d)
  = (inr rows, d') ->
  queryOne queryText params d = (Returned (head rows), d').
Proof.
  intros Hf He. unfold queryOne, try_catch, bind, ret.
  rewrite (query_returns _ _ _ _ _ Hf He). reflexivity.
Qed.









End NewsList.

(* ===================================================================== *)
(** ** News: create, then read back *)
(* ===================================================================== *)

Section CreateThenGet.
Import Store db Http.

Lemma text_or_null_orNull (x : option string) :
  text_or_null (orNull x) = Some (Js.truthy x).
Proof. destruct x as [[| c s] |]; reflexivity. Qed.

Lemma array_or_null_arrayOrNull (x : option (list string)) :
  array_or_null (arrayOrNull x) = Some x.
Proof. destruct x; reflexivity. Qed.

















End CreateThenGet.

(* ===================================================================== *)
(** ** Faculty: category filter and search *)
(* ===================================================================== *)

Section FacultyList.
Import Store db.

Lemma insert_by_In {A} (le : A -> A -> bool) (x y : A) (l : list A) :
  In x (insert_by le y l) -> x = y \/ In x l.
Proof.
  induction l as [| z l IH]; cbn.
  - intros [<- | []]. left. reflexivity.
  - destruct (le y z); cbn.
    + intros [<- | H]; [left; reflexivity | right; exact H].
    + intros [<- | H]; [right; left; reflexivity |].
      destruct (IH H) as [-> | H']; [left; reflexivity | right; right; exact H'].
Qed.

Lemma sort_by_In {A} (le : A -> A -> bool) (x : A) (l : list A) :
  In x (sort_by le l) -> In x l.
Proof.
  induction l as [| y l IH]; cbn; [tauto |].
  intros H. destruct (insert_by_In _ _ _ _ H) as [-> | H'].
  - left. reflexivity.
  - right. apply IH, H'.
Qed.

Lemma append_cons (c : ascii) (a b : string) :
  (String c a ++ b)%string = String c (a ++ b)%string.
Proof. reflexivity. Qed.

Lemma prefix_refl_app (a b : string) : String.prefix a (a ++ b)%string = true.
Proof.
  induction a as [| c a IH]; [destruct b; reflexivity |].
  rewrite append_cons. cbn [String.prefix].
  destruct (ascii_dec c c); [exact IH | congruence].
Qed.

Lemma includes_prefix (x t : string) :
  String.prefix x t = true -> Js.includes x t = true.
Proof. intros H. destruct t; cbn [Js.includes]; rewrite H; reflexivity. Qed.

Lemma includes_skip (x t : string) (c : ascii) :
  Js.includes x t = true -> Js.includes x (String c t) = true.
Proof. intros H. cbn [Js.includes]. rewrite H. apply orb_true_r. Qed.

Lemma like_plain_char (c : ascii) (p t : string) :
  Spec.isWildcard c = false ->
  like (String c p) t
  = match t with
    | EmptyString => false
    | String c' t' => Ascii.eqb c c' && like p t'
    end.
Proof.
  destruct c as [[] [] [] [] [] [] [] []]; intros H;
    try discriminate H; reflexivity.
Qed.

(** A pattern that starts with literal characters matches only texts
    that start with them. *)
Lemma like_plain_prefix (q r t : string) :
  Spec.plain q = true ->
  like (q ++ r)%string t = true -> String.prefix q t = true.
Proof.
  revert t. induction q as [| c q IH]; intros t Hq Hl;
    [destruct t; reflexivity |].
  cbn [Spec.plain] in Hq. apply andb_true_iff in Hq as [Hc Hq].
  apply negb_true_iff in Hc.
  rewrite append_cons, (like_plain_char _ _ _ Hc) in Hl.
  destruct t as [| c' t]; [discriminate |].
  apply andb_true_iff in Hl as [Hcc Hl]. apply Ascii.eqb_eq in Hcc as <-.
  cbn [String.prefix]. destruct (ascii_dec c c); [| congruence].
  apply IH; assumption.
Qed.

(** [%] in front of a pattern lets it match at any position. *)
Lemma like_percent (p x t : string) :
  (forall t', like p t' = true -> String.prefix x t' = true) ->
  like (String "%" p) t = true -> Js.includes x t = true.
Proof.
  intros Hp. induction t as [| c t IH]; intros Hl.
  - cbn in Hl. rewrite orb_false_r in Hl.
    apply includes_prefix, Hp, Hl.
  - change (like (String "%" p) (String c t))
      with (like p (String c t) || like (String "%" p) t) in Hl.
    apply orb_true_iff in Hl as [Hl | Hl].
    + apply includes_prefix, Hp, Hl.
    + apply includes_skip, IH, Hl.
Qed.

Lemma toLowerCase_app (a b : string) :
  Js.toLowerCase (a ++ b)%string
  = (Js.toLowerCase a ++ Js.toLowerCase b)%string.
Proof.
  induction a as [| c a IH]; [reflexivity |].
  rewrite append_cons. cbn [Js.toLowerCase]. rewrite append_cons, IH.
  reflexivity.
Qed.

Lemma lowerChar_wildcard (c : ascii) :
  Spec.isWildcard (Js.lowerChar c) = Spec.isWildcard c.
Proof. destruct c as [[] [] [] [] [] [] [] []]; reflexivity. Qed.

Lemma plain_toLowerCase (q : string) :
  Spec.plain (Js.toLowerCase q) = Spec.plain q.
Proof.
  induction q as [| c q IH]; cbn; [reflexivity |].
  rewrite lowerChar_wildcard, IH. reflexivity.
Qed.

(** ILIKE with the pattern [%q%], for a query without wild cards. *)
Lemma ilike_contains (t q : string) :
  Spec.plain q = true ->
  ilike t ("%" ++ q ++ "%")%string = true -> Spec.containsCI t q = true.
Proof.
  intros Hq. unfold ilike, Spec.containsCI.
  rewrite (toLowerCase_app "%"), toLowerCase_app.
  change (Js.toLowerCase "%") with "%"%string.
  rewrite append_cons. apply like_percent. intros t'.
  change (EmptyString ++ ?x)%string with x.
  apply like_plain_prefix. rewrite plain_toLowerCase. exact Hq.
Qed.

(** A research interest that is the text [%q%] contains [q]. *)
Lemma any_eq_contains (q : string) (arr : option (list string)) :
  any_eq ("%" ++ q ++ "%")%string arr = true ->
  exists l i, arr = Some l /\ In i l /\ Spec.containsCI i q = true.
Proof.
  destruct arr as [l |]; [| discriminate]. cbn [any_eq].
  intros H. apply existsb_exists in H as (i & Hi & He).
  apply String.eqb_eq in He as <-. exists l, ("%" ++ q ++ "%")%string.
  split; [reflexivity |]. split; [exact Hi |].
  unfold Spec.containsCI.
  rewrite (toLowerCase_app "%"), toLowerCase_app.
  change (Js.toLowerCase "%") with "%"%string. rewrite append_cons.
  change (EmptyString ++ ?x)%string with x.
  apply includes_skip, includes_prefix, prefix_refl_app.
Qed.

Lemma truthy_nonempty (c : string) :
  c <> EmptyString -> Js.truthy (Some c) = Some c.
Proof. destruct c; [congruence | reflexivity]. Qed.

Lemma containsCI_empty (s : string) : Spec.containsCI s EmptyString = true.
Proof.
  unfold Spec.containsCI. apply includes_prefix. cbn [Js.toLowerCase].
  destruct (Js.toLowerCase s); reflexivity.
Qed.

(** The rows of an ordered SELECT on [faculty] satisfy its WHERE clause. *)
Lemma ordered_rows_satisfy (f : FacultyMember.t -> bool) (P : FacultyMember.t -> Prop)
  (rows : list FacultyMember.t) :
  (forall r, f r = true -> P r) ->
  List.Forall P (sort_by faculty_order (List.filter f rows)).
Proof.
  intros Hf. apply List.Forall_forall. intros r Hr.
  apply sort_by_In, List.filter_In in Hr. apply Hf, Hr.
Qed.

(** C2, as stated, fails twice: the empty category does not filter, and
    the wild card [_] of LIKE in a query matches any character. *)
Lemma faculty_filters_counterexample :
  (exists rows d',
      faculty.getFacultyList (Some EmptyString) None Examples.oneFacultyDb
      = (Returned rows, d')
      /\ In Examples.ada rows
      /\ FacultyMember.category Examples.ada <> EmptyString)
  /\ (exists rows d',
         faculty.searchFaculty "_" Examples.oneFacultyDb = (Returned rows, d')
         /\ In Examples.ada rows
         /\ ~ Spec.searchHit "_" Examples.ada).
Proof.
  split.
  - eexists. eexists. split; [vm_compute; reflexivity |].
    split; [left; reflexivity | discriminate].
  - eexists. eexists. split; [vm_compute; reflexivity |].
    split; [left; reflexivity |].
    intros [H | [(s & H & _) | [H | (l & i & H & _)]]];
      try discriminate H; vm_compute in H; discriminate H.
Qed.

(** C2, amended.  On a store that answers, [getFacultyList(category)]
    with a non-empty category returns only visible records of that
    category, and [searchFaculty(query)] with a query free of the wild
    cards of LIKE (percent, underscore, backslash) returns only visible
    records whose name, English name, title or one of whose research
    interests contains the query, letter case apart. *)
Theorem faculty_list_and_search :
  forall (d : Db),
    failure d = None ->
    (forall c,
        c <> EmptyString ->
        exists rows d',
          faculty.getFacultyList (Some c) None d = (Returned rows, d')
          /\ List.Forall
               (fun f => FacultyMember.category f = c
                         /\ FacultyMember.isVisible f = true) rows)
    /\ (forall q,
          Spec.plain q = true ->
          exists rows d',
            faculty.searchFaculty q d = (Returned rows, d')
            /\ List.Forall
                 (fun f => Spec.searchHit q f
                           /\ FacultyMember.isVisible f = true) rows).
Proof.
  intros d Hf. split.
  - intros c Hc. unfold faculty.getFacultyList.
    rewrite (truthy_nonempty c Hc). cbn [Js.truthy app].
    eexists. eexists. split.
    + apply query_returns; [exact Hf |]. cbn [exec]. unfold select_faculty.
      cbn [faculty_where faculty_cond_holds arg nth_error]. reflexivity.
    + cbn [faculty with_log]. apply ordered_rows_satisfy. intros r Hr.
      apply andb_true_iff in Hr as [Hv Hr].
      apply andb_true_iff in Hr as [Hr _].
      apply String.eqb_eq in Hr. split; assumption.
  - intros q Hq. unfold faculty.searchFaculty, faculty.getFacultyList.
    cbn [Js.truthy]. destruct q as [| c q].
    + cbn [Js.isEmpty]. eexists. eexists. split.
      * apply query_returns; [exact Hf |]. cbn [exec]. unfold select_faculty.
        cbn [faculty_where faculty_cond_holds]. reflexivity.
      * cbn [faculty with_log]. apply ordered_rows_satisfy. intros r Hr.
        apply andb_true_iff in Hr as [Hv _]. split; [| exact Hv].
        left. apply containsCI_empty.
    + cbn [Js.isEmpty app]. eexists. eexists. split.
      * apply query_returns; [exact Hf |]. cbn [exec]. unfold select_faculty.
        cbn [faculty_where faculty_cond_holds arg nth_error]. reflexivity.
      * cbn [faculty with_log]. apply ordered_rows_satisfy. intros r Hr.
        apply andb_true_iff in Hr as [Hv Hr]. split; [| exact Hv].
        apply andb_true_iff in Hr as [Hr _].
        apply orb_true_iff in Hr as [Hr | Hr];
          [apply orb_true_iff in Hr as [Hr | Hr];
           [apply orb_true_iff in Hr as [Hr | Hr] |] |].
        -- left. apply ilike_contains; assumption.
        -- right. left. unfold ilike_opt in Hr.
           destruct (FacultyMember.nameEn r) as [s |]; [| discriminate].
           exists s. split; [reflexivity |]. apply ilike_contains; assumption.
        -- right. right. left. apply ilike_contains; assumption.
        -- right. right. right. apply any_eq_contains, Hr.
Qed.

Lemma faculty_list_and_search_witness :
  (exists rows d',
      faculty.getFacultyList (Some "professor") None Examples.oneFacultyDb
      = (Returned rows, d')
      /\ List.Forall
           (fun f => FacultyMember.category f = "professor"
                     /\ FacultyMember.isVisible f = true) rows)
  /\ (exists rows d',
         faculty.searchFaculty "ADA" Examples.oneFacultyDb = (Returned rows, d')
         /\ List.Forall
              (fun f => Spec.searchHit "ADA" f
                        /\ FacultyMember.isVisible f = true) rows).
Proof.
  pose proof (faculty_list_and_search Examples.oneFacultyDb eq_refl) as [Hc Hq].
  split.
  - apply Hc. discriminate.
  - apply Hq. reflexivity.
Defined.

Example search_finds_ada :
  fst (faculty.searchFaculty "ADA" Examples.oneFacultyDb)
  = Returned [Examples.ada].
Proof. vm_compute. reflexivity. Qed.

End FacultyList.

(* ===================================================================== *)
(** ** Navigation: rows whose parent is not among the rows *)
(* ===================================================================== *)

Section Navigation.
Import Store db navigation.

Lemma createItems_lookup (rows : list NavItem.t) (m : gmap Z Item) k it :
  fold_left
    (fun navMap row =>
       <[NavItem.id row := {| item := row; children := Some [] |}]> navMap)
    rows m !! k = Some it ->
  m !! k = Some it
  \/ exists r, In r rows /\ NavItem.id r = k
               /\ it = {| item := r; children := Some [] |}.
Proof.
  revert m. induction rows as [| r rows IH]; intros m H; cbn in H.
  - left. exact H.
  - destruct (IH _ H) as [Hm | (r' & Hin & Hid & Hit)].
    + destruct (decide (NavItem.id r = k)) as [<- | Hne].
      * rewrite lookup_insert_eq in Hm. injection Hm as <-.
        right. exists r. split; [left; reflexivity | split; reflexivity].
      * rewrite lookup_insert_ne in Hm by exact Hne. left. exact Hm.
    + right. exists r'. split; [right; exact Hin | split; assumption].
Qed.

Lemma attached_createItems (rows : list NavItem.t) :
  Spec.attached rows (createItems rows, []).
Proof.
  split; cbn [fst snd].
  - intros x [].
  - intros k it H. unfold createItems in H.
    destruct (createItems_lookup _ _ _ _ H) as [Hm | (r & Hin & Hid & ->)].
    + rewrite lookup_empty in Hm. discriminate.
    + cbn. split; [exact Hid |]. split.
      * rewrite <- Hid. apply in_map, Hin.
      * intros c [].
Qed.

Lemma attached_attach (rows : list NavItem.t) st (row : NavItem.t) :
  In row rows -> Spec.attached rows st -> Spec.attached rows (attach st row).
Proof.
  intros Hrow [Hroots Hmap]. destruct st as [navMap rootItems].
  cbn [fst snd] in *. unfold attach.
  destruct (truthyId (NavItem.parentId row)) as [pid |] eqn:Hp.
  - destruct (navMap !! pid) as [parent |] eqn:Hparent.
    + split; cbn [fst snd]; [exact Hroots |].
      intros k it Hk.
      destruct (decide (pid = k)) as [<- | Hne].
      * rewrite lookup_insert_eq in Hk. injection Hk as <-.
        destruct (Hmap _ _ Hparent) as (Hid & Hin & Hkids).
        cbn. split; [exact Hid |]. split; [exact Hin |].
        intros c Hc. apply in_app_or in Hc as [Hc | [<- | []]].
        -- apply Hkids, Hc.
        -- exists row. split; [exact Hrow | split; [reflexivity | exact Hp]].
      * rewrite lookup_insert_ne in Hk by exact Hne. apply Hmap, Hk.
    + split; assumption.
  - split; cbn [fst snd]; [| exact Hmap].
    intros x Hx. apply in_app_or in Hx as [Hx | [<- | []]].
    + apply Hroots, Hx.
    + exists row. split; [exact Hrow | split; [reflexivity | exact Hp]].
Qed.

Lemma attached_fold (rows l : list NavItem.t) st :
  (forall r, In r l -> In r rows) ->
  Spec.attached rows st -> Spec.attached rows (fold_left attach l st).
Proof.
  revert st. induction l as [| r l IH]; intros st Hl Hst; cbn; [exact Hst |].
  apply IH.
  - intros r' Hr'. apply Hl. right. exact Hr'.
  - apply attached_attach; [apply Hl; left; reflexivity | exact Hst].
Qed.

Lemma attached_buildHierarchy (rows : list NavItem.t) :
  Spec.attached rows
    (objects (buildHierarchy rows), roots (buildHierarchy rows)).
Proof.
  unfold buildHierarchy.
  pose proof (attached_fold rows rows (createItems rows, [])
                (fun r H => H) (attached_createItems rows)) as H.
  destruct (fold_left attach rows (createItems rows, [])) as [navMap rootItems].
  exact H.
Qed.

(** Whatever the walk meets is a row without parent or a row whose
    parent is among the rows. *)
Lemma flattenHierarchy_placed (rows : list NavItem.t) objs rootItems :
  Spec.attached rows (objs, rootItems) ->
  forall fuel refs y,
    (forall x, In x refs -> Spec.placed rows x) ->
    In y (flattenHierarchy fuel objs refs) -> Spec.placed rows y.
Proof.
  intros [_ Hmap]. cbn [fst] in Hmap.
  induction fuel as [| fuel IH]; intros refs y Hrefs Hy; cbn in Hy; [contradiction |].
  apply in_flat_map in Hy as (x & Hx & Hy).
  destruct (objs !! x) as [it |] eqn:Hit; [| contradiction].
  destruct (Hmap _ _ Hit) as (Hid & Hin & Hkids).
  destruct Hy as [<- | Hy].
  - rewrite Hid. apply Hrefs, Hx.
  - apply (IH (Spec.kids it) y); [| exact Hy].
    intros c Hc. destruct (Hkids _ Hc) as (r & Hr & Hrid & Hrp).
    exists r. split; [exact Hr |]. split; [exact Hrid |].
    right. exists x. split; assumption.
Qed.

Lemma same_id_same_row (rows : list NavItem.t) (a b : NavItem.t) :
  List.NoDup (map NavItem.id rows) ->
  In a rows -> In b rows -> NavItem.id a = NavItem.id b -> a = b.
Proof.
  induction rows as [| r rows IH]; cbn; intros Hnd Ha Hb Hab; [contradiction |].
  inversion Hnd as [| ? ? Hnotin Hnd']; subst.
  destruct Ha as [<- | Ha], Hb as [<- | Hb].
  - reflexivity.
  - exfalso. apply Hnotin. rewrite Hab. apply in_map, Hb.
  - exfalso. apply Hnotin. rewrite <- Hab. apply in_map, Ha.
  - apply IH; assumption.
Qed.

(** C1 (the code departs from it).  A row whose [parentId] is set and is
    the id of no row of the set is neither in the root list of the
    hierarchy that [getNavigationStructure] builds nor anywhere below it:
    it is dropped, not promoted. *)
Theorem orphan_rows_are_dropped :
  forall (rows : list NavItem.t) (r : NavItem.t) (p : Z),
    List.NoDup (map NavItem.id rows) ->
    In r rows ->
    truthyId (NavItem.parentId r) = Some p ->
    ~ In p (map NavItem.id rows) ->
    ~ In (NavItem.id r) (roots (buildHierarchy rows))
    /\ forall fuel,
         ~ In (NavItem.id r)
             (flattenHierarchy fuel (objects (buildHierarchy rows))
                (roots (buildHierarchy rows))).
Proof.
  intros rows r p Hnd Hr Hp Hnp.
  pose proof (attached_buildHierarchy rows) as Hatt.
  assert (Hnot : ~ Spec.placed rows (NavItem.id r)).
  { intros (r' & Hr' & Hid & Hplace).
    assert (r' = r) as -> by (eapply same_id_same_row; eassumption).
    destruct Hplace as [Hnone | (k & Hk & Hin)].
    - congruence.
    - rewrite Hp in Hk. injection Hk as <-. contradiction. }
  assert (Hroots : forall x, In x (roots (buildHierarchy rows)) ->
                             Spec.placed rows x).
  { intros x Hx. destruct (proj1 Hatt x Hx) as (r' & Hr' & Hid & Hnone).
    exists r'. split; [exact Hr' |]. split; [exact Hid |]. left. exact Hnone. }
  split.
  - intros Hin. apply Hnot, Hroots, Hin.
  - intros fuel Hin. apply Hnot.
    eapply flattenHierarchy_placed; [exact Hatt | exact Hroots | exact Hin].
Qed.

Lemma orphan_rows_are_dropped_witness :
  let rows := select_navigation Examples.hiddenParentDb in
  rows = [Examples.navRow 2 (Some 1) true; Examples.navRow 3 None true;
          Examples.navRow 4 (Some 3) true]
  /\ ~ In 2 (roots (buildHierarchy rows))
  /\ forall fuel,
       ~ In 2 (flattenHierarchy fuel (objects (buildHierarchy rows))
                 (roots (buildHierarchy rows))).
Proof.
  intros rows. split; [reflexivity |].
  apply (orphan_rows_are_dropped rows (Examples.navRow 2 (Some 1) true) 1).
  - repeat constructor; cbn; intros H; intuition discriminate.
  - left. reflexivity.
  - reflexivity.
  - cbn. intros H. intuition discriminate.
Defined.

(** The hierarchy for the rows of [hiddenParentDb]: the entry 2, whose
    parent is hidden, is gone; with orphans promoted it would be [2; 3; 4]. *)
Example hidden_parent_hierarchy :
  exists h d',
    getNavigationStructure Examples.hiddenParentDb = (Returned h, d')
    /\ roots h = [3]
    /\ flattenHierarchy 4 (objects h) (roots h) = [3; 4].
Proof.
  eexists. eexists. split; [vm_compute; reflexivity |].
  split; vm_compute; reflexivity.
Qed.

End Navigation.

(* ===================================================================== *)
(** ** Navigation: the shape of the hierarchy *)
(* ===================================================================== *)

Section NavigationShape.
Import Store db navigation.

Lemma attach_roots st (row : NavItem.t) :
  snd (attach st row)
  = snd st ++ (if Spec.parentless row then [NavItem.id row] else []).
Proof.
  destruct st as [navMap rootItems]. unfold attach, Spec.parentless.
  destruct (truthyId (NavItem.parentId row)) as [pid |]; cbn [snd].
  - destruct (navMap !! pid); cbn [snd]; rewrite app_nil_r; reflexivity.
  - reflexivity.
Qed.

Lemma fold_attach_roots (l : list NavItem.t) st :
  snd (fold_left attach l st)
  = snd st ++ map NavItem.id (List.filter Spec.parentless l).
Proof.
  revert st. induction l as [| row l IH]; intros st; cbn [fold_left List.filter].
  - cbn. rewrite app_nil_r. reflexivity.
  - rewrite IH, attach_roots.
    destruct (Spec.parentless row); cbn [map]; rewrite <- app_assoc; reflexivity.
Qed.

(** The root list holds the rows without parent, in the order of the
    rows. *)
Theorem roots_are_the_parentless_rows :
  forall rows : list NavItem.t,
    roots (buildHierarchy rows)
    = map NavItem.id (List.filter Spec.parentless rows).
Proof.
  intros rows. unfold buildHierarchy.
  pose proof (fold_attach_roots rows (createItems rows, [])) as H.
  destruct (fold_left attach rows (createItems rows, [])) as [navMap rootItems].
  exact H.
Qed.

(** The second pass leaves the copy of the row in each item alone and
    appends to its children the rows whose parent it is. *)
Lemma fold_attach_lookup (l : list NavItem.t) st (k : Z) :
  fst (fold_left attach l st) !! k
  = match fst st !! k with
    | Some it =>
        match List.filter (Spec.childOf k) l with
        | [] => Some it
        | kidRows =>
            Some {| item := item it;
                    children := Some (Spec.kids it ++ map NavItem.id kidRows) |}
        end
    | None => None
    end.
Proof.
  revert st. induction l as [| row l IH]; intros [navMap rootItems].
  - cbn. destruct (navMap !! k); reflexivity.
  - cbn [fold_left List.filter]. rewrite IH. clear IH.
    unfold attach, Spec.childOf.
    destruct (truthyId (NavItem.parentId row)) as [pid |] eqn:Hp; cbn [fst].
    + destruct (navMap !! pid) as [parent |] eqn:Hparent; cbn [fst].
      * destruct (Z.eqb_spec pid k) as [-> | Hne].
        -- rewrite lookup_insert_eq, Hparent. cbn [item Spec.kids children].
           fold (Spec.kids parent).
           destruct (List.filter _ l) as [| c cs]; cbn [map].
           ++ reflexivity.
           ++ rewrite <- app_assoc. reflexivity.
        -- rewrite lookup_insert_ne by exact Hne. reflexivity.
      * destruct (Z.eqb_spec pid k) as [-> | Hne].
        -- rewrite Hparent. reflexivity.
        -- reflexivity.
    + reflexivity.
Qed.

Lemma createItems_fold_notin (rows : list NavItem.t) (m : gmap Z Item) (k : Z) :
  ~ In k (map NavItem.id rows) ->
  fold_left
    (fun navMap row =>
       <[NavItem.id row := {| item := row; children := Some [] |}]> navMap)
    rows m !! k = m !! k.
Proof.
  revert m. induction rows as [| r rows IH]; intros m Hk; cbn; [reflexivity |].
  rewrite IH.
  - apply lookup_insert_ne. intros E. apply Hk. left. exact E.
  - intros Hin. apply Hk. right. exact Hin.
Qed.

Lemma createItems_fold_in (rows : list NavItem.t) (m : gmap Z Item) (r : NavItem.t) :
  List.NoDup (map NavItem.id rows) -> In r rows ->
  fold_left
    (fun navMap row =>
       <[NavItem.id row := {| item := row; children := Some [] |}]> navMap)
    rows m !! NavItem.id r
  = Some {| item := r; children := Some [] |}.
Proof.
  revert m. induction rows as [| r' rows IH]; intros m Hnd Hr; [contradiction |].
  cbn in Hnd. inversion Hnd as [| ? ? Hnotin Hnd']; subst.
  cbn [fold_left]. destruct Hr as [-> | Hr].
  - rewrite createItems_fold_notin by exact Hnotin. apply lookup_insert_eq.
  - apply IH; assumption.
Qed.

(** With distinct ids, the item of a row holds a copy of that row and,
    as children, the rows whose parent it is, in the order of the rows;
    an id that is not among the rows has no item. *)
Theorem items_hold_their_children :
  forall (rows : list NavItem.t),
    List.NoDup (map NavItem.id rows) ->
    (forall r,
        In r rows ->
        exists it,
          objects (buildHierarchy rows) !! NavItem.id r = Some it
          /\ item it = r
          /\ Spec.kids it
             = map NavItem.id (List.filter (Spec.childOf (NavItem.id r)) rows))
    /\ (forall k,
          ~ In k (map NavItem.id rows) ->
          objects (buildHierarchy rows) !! k = None).
Proof.
  intros rows Hnd.
  assert (Hobj : forall k,
             objects (buildHierarchy rows) !! k
             = fst (fold_left attach rows (createItems rows, [])) !! k).
  { intros k. unfold buildHierarchy.
    destruct (fold_left attach rows (createItems rows, [])); reflexivity. }
  split.
  - intros r Hr. rewrite Hobj, fold_attach_lookup. cbn [fst].
    unfold createItems. rewrite (createItems_fold_in _ _ _ Hnd Hr).
    destruct (List.filter _ rows) as [| c cs]; eexists; split; try reflexivity;
      split; reflexivity.
  - intros k Hk. rewrite Hobj, fold_attach_lookup. cbn [fst].
    unfold createItems. rewrite (createItems_fold_notin _ _ _ Hk).
    rewrite lookup_empty. reflexivity.
Qed.

Lemma items_hold_their_children_witness :
  let rows := [Examples.navRow 3 None true; Examples.navRow 4 (Some 3) true;
               Examples.navRow 5 (Some 3) true] in
  exists it,
    objects (buildHierarchy rows) !! 3 = Some it
    /\ item it = Examples.navRow 3 None true
    /\ Spec.kids it = [4; 5].
Proof.
  intros rows.
  assert (Hnd : List.NoDup (map NavItem.id rows))
    by (repeat constructor; cbn; intros H; intuition discriminate).
  exact (proj1 (items_hold_their_children rows Hnd)
           (Examples.navRow 3 None true) (or_introl eq_refl)).
Defined.

(** *** ORDER BY: the insertion sort of the store *)

Lemma filter_sorted {A} (R : A -> A -> Prop) (f : A -> bool) (l : list A) :
  StronglySorted R l -> StronglySorted R (List.filter f l).
Proof.
  induction 1 as [| x l Hl IH Hx]; cbn; [constructor |].
  destruct (f x); [| exact IH].
  constructor; [exact IH |].
  apply List.Forall_forall. intros y Hy. apply List.filter_In in Hy as [Hy _].
  rewrite List.Forall_forall in Hx. apply Hx, Hy.
Qed.

Lemma skipn_sorted {A} (R : A -> A -> Prop) (n : nat) (l : list A) :
  StronglySorted R l -> StronglySorted R (skipn n l).
Proof.
  revert l. induction n as [| n IH]; intros l Hs; [exact Hs |].
  destruct l as [| x l]; [constructor |].
  apply StronglySorted_inv in Hs as [Hl _]. apply IH, Hl.
Qed.

Lemma firstn_sorted {A} (R : A -> A -> Prop) (n : nat) (l : list A) :
  StronglySorted R l -> StronglySorted R (firstn n l).
Proof.
  revert l. induction n as [| n IH]; intros l Hs; [constructor |].
  destruct l as [| x l]; [constructor |].
  apply StronglySorted_inv in Hs as [Hl Hx]. cbn. constructor; [apply IH, Hl |].
  apply List.Forall_forall. intros y Hy.
  rewrite List.Forall_forall in Hx. apply Hx.
  rewrite <- (firstn_skipn n l). apply in_or_app. left. exact Hy.
Qed.

Lemma nav_rows_sorted (d : Db) :
  StronglySorted Spec.bySortOrder (select_navigation d).
Proof.
  unfold select_navigation. apply (sort_by_sorted nav_order).
  - intros a b H. unfold nav_order in H. apply Z.leb_le in H. exact H.
  - intros a b H. unfold nav_order in H. apply Z.leb_gt in H.
    unfold Spec.bySortOrder. lia.
  - intros a b c. unfold Spec.bySortOrder. lia.
Qed.

Lemma nav_rows_visible (d : Db) (r : NavItem.t) :
  In r (select_navigation d) ->
  In r (navigation d) /\ NavItem.isVisible r = true.
Proof.
  unfold select_navigation. intros H.
  apply (Permutation_in _ (Permutation_sym (sort_by_perm _ _))) in H.
  apply List.filter_In in H. exact H.
Qed.

Lemma NoDup_map_filter {A B} (g : A -> B) (f : A -> bool) (l : list A) :
  List.NoDup (map g l) -> List.NoDup (map g (List.filter f l)).
Proof.
  induction l as [| x l IH]; cbn; intros Hnd; [constructor |].
  inversion Hnd as [| ? ? Hx Hl]; subst.
  destruct (f x); [| apply IH, Hl].
  cbn. constructor; [| apply IH, Hl].
  intros Hin. apply Hx. apply in_map_iff in Hin as (y & Hy & Hin).
  apply List.filter_In in Hin as [Hin _]. apply in_map_iff. exists y. tauto.
Qed.

Lemma nav_rows_NoDup (d : Db) :
  List.NoDup (map NavItem.id (navigation d)) ->
  List.NoDup (map NavItem.id (select_navigation d)).
Proof.
  intros Hnd. unfold select_navigation.
  eapply Permutation_NoDup; [apply Permutation_map, sort_by_perm |].
  apply NoDup_map_filter, Hnd.
Qed.

Lemma getNavigationStructure_returns (d : Db) :
  failure d = None ->
  getNavigationStructure d
  = (Returned (buildHierarchy (select_navigation d)),
     with_log (log d ++ [Call SelectNavigation []]) d).
Proof.
  intros Hf. unfold getNavigationStructure, try_catch, bind, ret.
  rewrite (query_returns SelectNavigation [] d (select_navigation d)
             (with_log (log d ++ [Call SelectNavigation []]) d) Hf eq_refl).
  reflexivity.
Qed.

(** On a store that answers and whose navigation ids are distinct, the
    hierarchy is built from the visible rows only; its root list and the
    children of each of its items are in ascending [sortOrder], although
    the code sorts neither: the order of the query carries over. *)
Theorem navigation_keeps_sort_order :
  forall (d : Db),
    failure d = None ->
    List.NoDup (map NavItem.id (navigation d)) ->
    exists h d',
      getNavigationStructure d = (Returned h, d')
      /\ (exists rootRows,
             roots h = map NavItem.id rootRows
             /\ StronglySorted Spec.bySortOrder rootRows
             /\ List.Forall
                  (fun r => In r (navigation d) /\ NavItem.isVisible r = true
                            /\ Spec.parentless r = true) rootRows)
      /\ (forall k it,
             objects h !! k = Some it ->
             In (item it) (navigation d)
             /\ NavItem.isVisible (item it) = true
             /\ NavItem.id (item it) = k
             /\ exists kidRows,
                  Spec.kids it = map NavItem.id kidRows
                  /\ StronglySorted Spec.bySortOrder kidRows
                  /\ List.Forall
                       (fun r => In r (navigation d)
                                 /\ NavItem.isVisible r = true
                                 /\ Spec.childOf k r = true) kidRows).
Proof.
  intros d Hf Hnd.
  exists (buildHierarchy (select_navigation d)).
  eexists. split; [apply getNavigationStructure_returns, Hf |].
  set (rows := select_navigation d).
  assert (Hrows : forall f, List.Forall
                    (fun r => In r (navigation d) /\ NavItem.isVisible r = true
                              /\ f r = true) (List.filter f rows)).
  { intros f. apply List.Forall_forall. intros r Hr.
    apply List.filter_In in Hr as [Hr Hfr].
    destruct (nav_rows_visible d r Hr). tauto. }
  split.
  - exists (List.filter Spec.parentless rows).
    split; [| split; [apply filter_sorted, nav_rows_sorted | apply Hrows]].
    unfold buildHierarchy.
    pose proof (fold_attach_roots rows (createItems rows, [])) as H.
    destruct (fold_left attach rows (createItems rows, [])). exact H.
  - intros k it Hk.
    assert (Hobj : objects (buildHierarchy rows) !! k
                   = fst (fold_left attach rows (createItems rows, [])) !! k).
    { unfold buildHierarchy.
      destruct (fold_left attach rows (createItems rows, [])); reflexivity. }
    rewrite Hobj, fold_attach_lookup in Hk. cbn [fst] in Hk. unfold createItems in Hk.
    destruct (in_dec Z.eq_dec k (map NavItem.id rows)) as [Hin | Hnin].
    + apply in_map_iff in Hin as (r & <- & Hr).
      rewrite (createItems_fold_in _ _ _ (nav_rows_NoDup d Hnd) Hr) in Hk.
      destruct (nav_rows_visible d r Hr) as [Hrin Hvis].
      assert (Hit : item it = r
                    /\ Spec.kids it
                       = map NavItem.id
                           (List.filter (Spec.childOf (NavItem.id r)) rows)).
      { destruct (List.filter _ rows); injection Hk as <-; split; reflexivity. }
      destruct Hit as [-> Hkids].
      split; [exact Hrin |]. split; [exact Hvis |]. split; [reflexivity |].
      exists (List.filter (Spec.childOf (NavItem.id r)) rows).
      split; [exact Hkids |].
      split; [apply filter_sorted, nav_rows_sorted | apply Hrows].
    + rewrite (createItems_fold_notin _ _ _ Hnin), lookup_empty in Hk.
      discriminate.
Qed.

Lemma navigation_keeps_sort_order_witness :
  exists h d',
    getNavigationStructure Examples.menuDb = (Returned h, d')
    /\ roots h = [1; 2]
    /\ flattenHierarchy 3 (objects h) (roots h) = [1; 3; 4; 2].
Proof.
  assert (Hnd : List.NoDup (map NavItem.id (navigation Examples.menuDb)))
    by (repeat constructor; cbn; intros H; intuition discriminate).
  destruct (navigation_keeps_sort_order Examples.menuDb eq_refl Hnd)
    as (h & d' & Hh & _).
  exists h, d'. split; [exact Hh |].
  assert (E : h = buildHierarchy (select_navigation Examples.menuDb)).
  { rewrite (getNavigationStructure_returns Examples.menuDb eq_refl) in Hh.
    injection Hh as <- _. reflexivity. }
  subst h. split; vm_compute; reflexivity.
Defined.

Lemma flatten_childless (objs : gmap Z Item) (refs : list Z) (fuel : nat) :
  (forall x, In x refs ->
             exists it, objs !! x = Some it /\ NavItem.id (item it) = x
                        /\ Spec.kids it = []) ->
  flattenHierarchy (S fuel) objs refs = refs.
Proof.
  induction refs as [| x refs IH]; intros H; [reflexivity |].
  cbn [flattenHierarchy flat_map] in *.
  destruct (H x (or_introl eq_refl)) as (it & -> & Hid & Hkids).
  unfold Spec.kids in Hkids. rewrite Hkids, Hid.
  rewrite IH by (intros y Hy; apply H; right; exact Hy).
  destruct fuel; reflexivity.
Qed.

(** When the store fails, whatever the error, [getNavigationStructure]
    does not throw: it returns the six entries of the default
    navigation, none of which has children. *)
Theorem navigation_falls_back_to_default :
  forall (d : Db) (msg : string),
    failure d = Some msg ->
    exists d',
      getNavigationStructure d = (Returned getDefaultNavigation, d')
      /\ navigation d' = navigation d
      /\ roots getDefaultNavigation = [1; 2; 3; 4; 5; 6]
      /\ forall fuel,
           flattenHierarchy (S fuel) (objects getDefaultNavigation)
             (roots getDefaultNavigation) = [1; 2; 3; 4; 5; 6].
Proof.
  intros d msg Hf.
  exists (with_log (log d ++ [Call SelectNavigation []]) d).
  split; [| split; [| split]].
  - unfold getNavigationStructure, try_catch, bind, query.
    unfold try_catch, sql. cbn [failure with_log]. rewrite Hf. reflexivity.
  - reflexivity.
  - reflexivity.
  - intros fuel. apply flatten_childless. intros x Hx. cbn in Hx.
    repeat (destruct Hx as [<- | Hx];
            [eexists; split; [vm_compute; reflexivity | split; reflexivity] |]).
    contradiction.
Qed.

Lemma navigation_falls_back_to_default_witness :
  exists d',
    getNavigationStructure Examples.downDb = (Returned getDefaultNavigation, d').
Proof.
  destruct (navigation_falls_back_to_default Examples.downDb _ eq_refl)
    as (d' & H & _).
  exists d'. exact H.
Defined.

(** *** Every row under a root appears once *)

Section Forest.
Variable rows : list NavItem.t.
Hypothesis distinct : List.NoDup (map NavItem.id rows).

Lemma childOf_parent (k : Z) (r : NavItem.t) :
  Spec.childOf k r = true <-> truthyId (NavItem.parentId r) = Some k.
Proof using Type.
  unfold Spec.childOf. destruct (truthyId (NavItem.parentId r)) as [p |].
  - rewrite Z.eqb_eq. split; congruence.
  - split; discriminate.
Qed.

Lemma parentless_no_parent (r : NavItem.t) :
  Spec.parentless r = true <-> truthyId (NavItem.parentId r) = None.
Proof using Type.
  unfold Spec.parentless. destruct (truthyId (NavItem.parentId r));
    split; congruence.
Qed.

Lemma object_of_row (r : NavItem.t) :
  In r rows ->
  exists it,
    objects (buildHierarchy rows) !! NavItem.id r = Some it
    /\ item it = r
    /\ Spec.kids it
       = map NavItem.id (List.filter (Spec.childOf (NavItem.id r)) rows).
Proof using distinct.
  intros Hr.
  assert (Hobj : objects (buildHierarchy rows) !! NavItem.id r
                 = fst (fold_left attach rows (createItems rows, []))
                   !! NavItem.id r).
  { unfold buildHierarchy.
    destruct (fold_left attach rows (createItems rows, [])); reflexivity. }
  rewrite Hobj, fold_attach_lookup. cbn [fst].
  unfold createItems. rewrite (createItems_fold_in _ _ _ distinct Hr).
  destruct (List.filter _ rows) as [| c cs]; eexists; split; try reflexivity;
    split; reflexivity.
Qed.

Lemma chain_functional (j : nat) (y x x' : Z) :
  Spec.chain rows j y x -> Spec.chain rows j y x' -> x = x'.
Proof using distinct.
  intros H. revert x'. induction H as [y | j y p x r Hr Hy Hp _ IH]; intros x' H'.
  - inversion H'. reflexivity.
  - inversion H' as [| ? ? p' ? r' Hr' Hy' Hp' Hc']; subst.
    assert (r' = r) as -> by (eapply same_id_same_row; eassumption).
    rewrite Hp in Hp'. injection Hp' as <-. apply IH, Hc'.
Qed.

Lemma chain_snoc (j : nat) (y c x : Z) (rc : NavItem.t) :
  Spec.chain rows j y c ->
  In rc rows -> NavItem.id rc = c -> truthyId (NavItem.parentId rc) = Some x ->
  Spec.chain rows (S j) y x.
Proof using Type.
  intros H Hrc Hid Hp. induction H as [y | j y p c r Hr Hy Hpr _ IH].
  - eapply Spec.chain_up; [exact Hrc | exact Hid | exact Hp | constructor].
  - eapply Spec.chain_up; [exact Hr | exact Hy | exact Hpr | apply IH, Hid].
Qed.

Lemma chain_top (j : nat) (y x : Z) :
  Spec.chain rows (S j) y x ->
  exists rc, In rc rows /\ truthyId (NavItem.parentId rc) = Some x
             /\ Spec.chain rows j y (NavItem.id rc).
Proof using Type.
  revert y. induction j as [| j IH]; intros y H;
    inversion H as [| ? ? p ? r Hr Hy Hp Hc]; subst.
  - inversion Hc; subst. exists r. split; [exact Hr |]. split; [exact Hp |].
    constructor.
  - destruct (IH _ Hc) as (rc & Hrc & Hpc & Hcc).
    exists rc. split; [exact Hrc |]. split; [exact Hpc |].
    eapply Spec.chain_up; [exact Hr | reflexivity | exact Hp | exact Hcc].
Qed.

Lemma chain_trans (j k : nat) (y c x : Z) :
  Spec.chain rows j y c -> Spec.chain rows k c x ->
  Spec.chain rows (j + k) y x.
Proof using Type.
  intros H Hk. induction H as [y | j y p c r Hr Hy Hp _ IH]; [exact Hk |].
  cbn. eapply Spec.chain_up; [exact Hr | exact Hy | exact Hp | apply IH, Hk].
Qed.

Lemma level_unique (n m : nat) (y : Z) :
  Spec.level rows n y -> Spec.level rows m y -> n = m.
Proof using distinct.
  intros (r0 & Hr0 & Hroot & Hc) (r1 & Hr1 & Hroot1 & Hc1).
  apply parentless_no_parent in Hroot, Hroot1.
  revert m Hc1.
  remember (NavItem.id r0) as x eqn:Hx.
  induction Hc as [y | j y p x r Hr Hy Hp Hc IH]; intros m Hc1.
  - inversion Hc1 as [| m' ? p ? r Hr Hy Hp _]; [reflexivity |]. subst.
    assert (r = r0) as ->
        by (apply (same_id_same_row rows); assumption).
    congruence.
  - inversion Hc1 as [| m' ? p' ? r' Hr' Hy' Hp' Hc1']; subst.
    + assert (r = r1) as ->
          by (apply (same_id_same_row rows); assumption).
      congruence.
    + assert (r' = r) as ->
          by (apply (same_id_same_row rows); assumption).
      rewrite Hp in Hp'. injection Hp' as <-.
      f_equal. apply IH; [reflexivity | exact Hc1'].
Qed.

Lemma level_child (n : nat) (x : Z) (rc : NavItem.t) :
  Spec.level rows n x -> In rc rows ->
  truthyId (NavItem.parentId rc) = Some x ->
  Spec.level rows (S n) (NavItem.id rc).
Proof using Type.
  intros (r0 & Hr0 & Hroot & Hc) Hrc Hp.
  exists r0. split; [exact Hr0 |]. split; [exact Hroot |].
  eapply Spec.chain_up; [exact Hrc | reflexivity | exact Hp | exact Hc].
Qed.

Lemma level_down (n j : nat) (y x : Z) :
  Spec.level rows n x -> Spec.chain rows j y x -> Spec.level rows (j + n) y.
Proof using Type.
  intros (r0 & Hr0 & Hroot & Hc) Hj.
  exists r0. split; [exact Hr0 |]. split; [exact Hroot |].
  eapply chain_trans; eassumption.
Qed.

(** What the walk meets lies under one of the items it starts from. *)
Lemma flatten_sound (fuel : nat) (refs : list Z) (y : Z) :
  In y (flattenHierarchy fuel (objects (buildHierarchy rows)) refs) ->
  exists x j, In x refs /\ (j < fuel)%nat /\ Spec.chain rows j y x.
Proof using Type.
  pose proof (attached_buildHierarchy rows) as [_ Hmap]. cbn [fst] in Hmap.
  revert refs y. induction fuel as [| fuel IH]; intros refs y Hy; cbn in Hy;
    [contradiction |].
  apply in_flat_map in Hy as (x & Hx & Hy).
  destruct (objects (buildHierarchy rows) !! x) as [it |] eqn:Hit;
    [| contradiction].
  destruct (Hmap _ _ Hit) as (Hid & _ & Hkids).
  destruct Hy as [<- | Hy].
  - exists x, 0%nat. rewrite Hid. split; [exact Hx |]. split; [lia | constructor].
  - destruct (IH _ _ Hy) as (c & j & Hc & Hj & Hchain).
    destruct (Hkids _ Hc) as (rc & Hrc & Hrcid & Hrcp).
    exists x, (S j). split; [exact Hx |]. split; [lia |].
    eapply chain_snoc; eassumption.
Qed.

(** A row that lies [j] levels under an item the walk starts from is
    met, the fuel allowing. *)
Lemma flatten_complete (j : nat) :
  forall (fuel : nat) (refs : list Z) (y : Z) (rx : NavItem.t),
    Spec.chain rows j y (NavItem.id rx) -> In rx rows ->
    In (NavItem.id rx) refs -> (j < fuel)%nat ->
    In y (flattenHierarchy fuel (objects (buildHierarchy rows)) refs).
Proof using distinct.
  induction j as [| j IH]; intros fuel refs y rx Hc Hrx Hin Hlt;
    (destruct fuel as [| fuel]; [lia |]);
    cbn [flattenHierarchy]; apply in_flat_map; exists (NavItem.id rx);
    (split; [exact Hin |]);
    destruct (object_of_row rx Hrx) as (it & -> & Hit & Hkids); rewrite Hit.
  - inversion Hc; subst. left. reflexivity.
  - right. destruct (chain_top _ _ _ Hc) as (rc & Hrc & Hpc & Hcc).
    fold (Spec.kids it). rewrite Hkids.
    apply (IH fuel _ y rc Hcc Hrc); [| lia].
    apply in_map, List.filter_In. split; [exact Hrc |].
    apply childOf_parent, Hpc.
Qed.

Lemma flatten_NoDup (fuel : nat) :
  forall (n : nat) (refs : list Z),
    List.NoDup refs -> (forall x, In x refs -> Spec.level rows n x) ->
    List.NoDup (flattenHierarchy fuel (objects (buildHierarchy rows)) refs).
Proof using distinct.
  pose proof (attached_buildHierarchy rows) as [_ Hmap]. cbn [fst] in Hmap.
  induction fuel as [| fuel IHf]; intros n refs Hnd Hlev; [constructor |].
  induction refs as [| x refs IHr]; [constructor |].
  inversion Hnd as [| ? ? Hx Hnd']; subst.
  assert (Hrest : List.NoDup
                    (flattenHierarchy (S fuel) (objects (buildHierarchy rows)) refs))
    by (apply IHr; [exact Hnd' | intros z Hz; apply Hlev; right; exact Hz]).
  change (flattenHierarchy (S fuel) (objects (buildHierarchy rows)) (x :: refs))
    with ((match objects (buildHierarchy rows) !! x with
           | Some it =>
               NavItem.id (item it)
               :: flattenHierarchy fuel (objects (buildHierarchy rows))
                    (match children it with Some l => l | None => [] end)
           | None => []
           end)
          ++ flattenHierarchy (S fuel) (objects (buildHierarchy rows)) refs).
  destruct (objects (buildHierarchy rows) !! x) as [it |] eqn:Hit;
    [| exact Hrest].
  destruct (Hmap _ _ Hit) as (Hid & Hinx & Hkids).
  apply in_map_iff in Hinx as (rx & Hrxid & Hrx).
  destruct (object_of_row rx Hrx) as (it' & Hit' & _ & Hkidrows).
  rewrite Hrxid, Hit in Hit'. injection Hit' as <-.
  fold (Spec.kids it). rewrite Hid.
  assert (Hlx : Spec.level rows n x) by (apply Hlev; left; reflexivity).
  assert (Hsub : forall y,
             In y (flattenHierarchy fuel (objects (buildHierarchy rows))
                     (Spec.kids it)) ->
             exists j, Spec.chain rows (S j) y x).
  { intros y Hy. destruct (flatten_sound _ _ _ Hy) as (c & j & Hc & _ & Hchain).
    destruct (Hkids _ Hc) as (rc & Hrc & Hrcid & Hrcp).
    exists j. eapply chain_snoc; eassumption. }
  apply List.NoDup_app.
  - constructor.
    + intros Hin. destruct (Hsub _ Hin) as (j & Hchain).
      pose proof (level_down _ _ _ _ Hlx Hchain) as Hl.
      pose proof (level_unique _ _ _ Hlx Hl). lia.
    + apply (IHf (S n)).
      * rewrite Hkidrows. apply NoDup_map_filter, distinct.
      * intros c Hc. destruct (Hkids _ Hc) as (rc & Hrc & <- & Hrcp).
        eapply level_child; eassumption.
  - exact Hrest.
  - intros y Hy Hy'.
    assert (Hyx : exists j, Spec.chain rows j y x).
    { destruct Hy as [<- | Hy]; [exists 0%nat; constructor |].
      destruct (Hsub _ Hy) as (j & Hj). exists (S j). exact Hj. }
    destruct Hyx as (j & Hj).
    destruct (flatten_sound _ _ _ Hy') as (x' & j' & Hx' & _ & Hj').
    assert (Hlx' : Spec.level rows n x') by (apply Hlev; right; exact Hx').
    pose proof (level_unique _ _ _ (level_down _ _ _ _ Hlx Hj)
                  (level_down _ _ _ _ Hlx' Hj')) as E.
    assert (j = j') as -> by lia.
    pose proof (chain_functional _ _ _ _ Hj Hj') as <-. contradiction.
Qed.

End Forest.

(** With distinct ids, no row is met twice by a walk over the hierarchy,
    and a row that is [n] levels below a row without parent is met by
    every walk of depth more than [n]: it appears exactly once. *)
Theorem rows_under_a_root_appear_once :
  forall (rows : list NavItem.t) (fuel : nat),
    List.NoDup (map NavItem.id rows) ->
    List.NoDup
      (flattenHierarchy fuel (objects (buildHierarchy rows))
         (roots (buildHierarchy rows)))
    /\ forall (r : NavItem.t) (n : nat),
         In r rows -> Spec.level rows n (NavItem.id r) -> (n < fuel)%nat ->
         In (NavItem.id r)
            (flattenHierarchy fuel (objects (buildHierarchy rows))
               (roots (buildHierarchy rows))).
Proof.
  intros rows fuel Hnd.
  assert (Hroots : roots (buildHierarchy rows)
                   = map NavItem.id (List.filter Spec.parentless rows)).
  { unfold buildHierarchy.
    pose proof (fold_attach_roots rows (createItems rows, [])) as H.
    destruct (fold_left attach rows (createItems rows, [])). exact H. }
  split.
  - apply (flatten_NoDup rows Hnd fuel 0).
    + rewrite Hroots. apply NoDup_map_filter, Hnd.
    + intros x Hx. rewrite Hroots in Hx.
      apply in_map_iff in Hx as (r0 & <- & Hr0).
      apply List.filter_In in Hr0 as [Hr0 Hp].
      exists r0. split; [exact Hr0 |]. split; [exact Hp | constructor].
  - intros r n Hr (r0 & Hr0 & Hp & Hc) Hlt.
    apply (flatten_complete rows Hnd n fuel _ _ r0 Hc Hr0); [| exact Hlt].
    rewrite Hroots. apply in_map, List.filter_In. split; assumption.
Qed.

Lemma rows_under_a_root_appear_once_witness :
  let rows := select_navigation Examples.menuDb in
  List.NoDup
    (flattenHierarchy 2 (objects (buildHierarchy rows))
       (roots (buildHierarchy rows)))
  /\ In 4 (flattenHierarchy 2 (objects (buildHierarchy rows))
             (roots (buildHierarchy rows))).
Proof.
  intros rows.
  assert (Hnd : List.NoDup (map NavItem.id rows))
    by (repeat constructor; cbn; intros H; intuition discriminate).
  destruct (rows_under_a_root_appear_once rows 2 Hnd) as [H1 H2].
  split; [exact H1 |].
  apply (H2 (NavItem.mk 4 "d" "/d" (Some 1) 2 true None None) 1%nat).
  - right. left. reflexivity.
  - exists (NavItem.mk 1 "a" "/a" None 10 true None None).
    split; [right; right; left; reflexivity |]. split; [reflexivity |].
    eapply Spec.chain_up;
      [right; left; reflexivity | reflexivity | reflexivity | constructor].
  - lia.
Defined.

End NavigationShape.

(* ===================================================================== *)
(** ** News repository: lookups, deletion, updates *)
(* ===================================================================== *)

Section NewsRepository.
Import Store db.

Lemma head_filter {A} (f : A -> bool) (l : list A) :
  match head (List.filter f l) with
  | Some r => In r l /\ f r = true
  | None => forall r, In r l -> f r = false
  end.
Proof.
  induction l as [| x l IH]; cbn; [intros r [] |].
  destruct (f x) eqn:E; cbn.
  - split; [left; reflexivity | exact E].
  - destruct (head (List.filter f l)) as [r |].
    + destruct IH. split; [right; assumption | assumption].
    + intros r [<- | Hr]; [exact E | apply IH, Hr].
Qed.

Lemma getNewsById_returns (i : Z) (d : Db) :
  failure d = None ->
  news.getNewsById i d
  = (Returned (head (List.filter (fun r => NewsItem.id r =? i) (news d))),
     with_log (log d ++ [Call (SelectNews [NewsIdEq 1] None) [VInt i]]) d).
Proof.
  intros Hf. unfold news.getNewsById.
  erewrite queryOne_returns; [reflexivity | exact Hf |].
  cbn [exec]. unfold select_news.
  cbn [news_where news_cond_holds arg nth_error news with_log].
  f_equal. f_equal. apply List.filter_ext. intros r. apply andb_true_r.
Qed.




Lemma filter_id_none (i : Z) (rows : list NewsItem.t) :
  (forall r, In r rows -> NewsItem.id r <> i) ->
  List.filter (fun r => NewsItem.id r =? i) rows = []
  /\ List.filter (fun r => negb (NewsItem.id r =? i)) rows = rows.
Proof.
  induction rows as [| r rows IH]; intros H; cbn; [split; reflexivity |].
  destruct (Z.eqb_spec (NewsItem.id r) i) as [E | _].
  - exfalso. apply (H r); [left; reflexivity | exact E].
  - cbn. destruct IH as [IH1 IH2]; [intros q Hq; apply H; right; exact Hq |].
    rewrite IH1, IH2. split; reflexivity.
Qed.

Lemma filter_id_after_delete (i : Z) (rows : list NewsItem.t) :
  List.filter (fun r => NewsItem.id r =? i)
    (List.filter (fun r => negb (NewsItem.id r =? i)) rows) = [].
Proof.
  induction rows as [| r rows IH]; cbn; [reflexivity |].
  destruct (NewsItem.id r =? i) eqn:E; cbn; [exact IH |].
  rewrite E. exact IH.
Qed.

Lemma head_map_filter {A B} (g : A -> B) (f : A -> bool) (l : list A) :
  match head (map g (List.filter f l)) with Some _ => true | None => false end
  = existsb f l.
Proof.
  induction l as [| x l IH]; cbn; [reflexivity |].
  destruct (f x); cbn; [reflexivity | exact IH].
Qed.

Lemma deleteNews_returns (i : Z) (d : Db) :
  failure d = None ->
  news.deleteNews i d
  = (Returned (existsb (fun r => NewsItem.id r =? i) (news d)),
     with_news (List.filter (fun r => negb (NewsItem.id r =? i)) (news d))
       (with_log (log d ++ [Call DeleteNews [VInt i]]) d)).
Proof.
  intros Hf. unfold news.deleteNews, bind.
  erewrite queryOne_returns; [| exact Hf | cbn [exec]; reflexivity].
  cbn [news with_log]. unfold ret. rewrite head_map_filter. reflexivity.
Qed.

(** On a store that answers, [deleteNews] with an id within the 32 bits
    of the column removes the rows of that id and no other, returns
    whether there was one, and [getNewsById] on that id afterwards
    returns null; on an id that no row has it returns false and leaves
    the table as it was. *)
Theorem delete_removes_the_row :
  forall (i : Z) (d : Db),
    failure d = None ->
    Spec.int32 i ->
    exists d1 d2,
      news.deleteNews i d
      = (Returned (existsb (fun r => NewsItem.id r =? i) (news d)), d1)
      /\ news d1 = List.filter (fun r => negb (NewsItem.id r =? i)) (news d)
      /\ news.getNewsById i d1 = (Returned None, d2)
      /\ ((forall r, In r (news d) -> NewsItem.id r <> i) ->
          existsb (fun r => NewsItem.id r =? i) (news d) = false
          /\ news d1 = news d).
Proof.
  intros i d Hf _. eexists. eexists.
  split; [apply deleteNews_returns, Hf |]. split; [reflexivity |]. split.
  - rewrite getNewsById_returns by exact Hf.
    cbn [news with_news with_log]. rewrite filter_id_after_delete. reflexivity.
  - intros Hnone. cbn [news with_news with_log].
    destruct (filter_id_none i (news d) Hnone) as [H1 H2]. split; [| exact H2].
    destruct (existsb _ (news d)) eqn:E; [| reflexivity].
    apply existsb_exists in E as (r & Hr & He). apply Z.eqb_eq in He.
    exfalso. apply (Hnone r Hr He).
Qed.

Lemma delete_removes_the_row_witness :
  exists d1 d2,
    news.deleteNews 3 Examples.tenNewsDb = (Returned true, d1)
    /\ news d1
       = map Examples.article [1; 2; 4; 5; 6; 7; 8; 9; 10]
    /\ news.getNewsById 3 d1 = (Returned None, d2).
Proof.
  assert (Hi : Spec.int32 3) by (unfold Spec.int32; lia).
  destruct (delete_removes_the_row 3 Examples.tenNewsDb eq_refl Hi)
    as (d1 & d2 & H1 & H2 & H3 & _).
  exists d1, d2. split; [exact H1 |]. split; [exact H2 | exact H3].
Defined.





Lemma queryOne_throws {T} (queryText : stmt T) params d msg d' :
  failure d = None ->
  exec queryText params (with_log (log d ++ [Call queryText params]) d)
  = (inl msg, d') ->
  queryOne queryText params d
  = (Threw (JsError ("Database operation failed: " ++ msg)%string), d').
Proof.
  intros Hf He. unfold queryOne, query, try_catch, bind, sql, throw.
  cbn [failure with_log]. rewrite Hf, He. reflexivity.
Qed.















Lemma query_throws {T} (queryText : stmt T) params d msg d' :
  failure d = None ->
  exec queryText params (with_log (log d ++ [Call queryText params]) d)
  = (inl msg, d') ->
  query queryText params d = (Threw (Spec.wrapped msg), d').
Proof.
  intros Hf He. unfold query, try_catch, sql, throw.
  cbn [failure with_log]. rewrite Hf, He. reflexivity.
Qed.








End NewsRepository.

(* ===================================================================== *)
(** ** Faculty repository: listing, search, creation, deletion *)
(* ===================================================================== *)

Section FacultyRepository.
Import Store db.


Lemma In_sorted_filter {A} (le : A -> A -> bool) (f : A -> bool) (l : list A) (x : A) :
  In x (sort_by le (List.filter f l)) <-> In x l /\ f x = true.
Proof.
  rewrite <- List.filter_In. split; intros H.
  - apply (Permutation_in _ (Permutation_sym (sort_by_perm le _))), H.
  - apply (Permutation_in _ (sort_by_perm le _)), H.
Qed.

(** The list that [getFacultyList] returns: the rows that pass a filter
    which lets only visible rows through, in the order of the statement. *)
Lemma getFacultyList_returns (category searchQuery : option string) (d : Db) :
  failure d = None ->
  exists (f : FacultyMember.t -> bool) (d' : Db),
    faculty.getFacultyList category searchQuery d
    = (Returned (sort_by faculty_order (List.filter f (faculty d))), d')
    /\ faculty d' = faculty d
    /\ forall r, f r = true -> FacultyMember.isVisible r = true.
Proof.
  intros Hf. unfold faculty.getFacultyList.
  destruct (Js.truthy category) as [c |], (Js.truthy searchQuery) as [q |];
    cbn [app];
    (eexists; eexists; split;
     [apply query_returns; [exact Hf |]; cbn [exec]; unfold select_faculty;
      cbn [faculty_where faculty_cond_holds arg nth_error faculty with_log];
      reflexivity
     | split; [reflexivity |];
       intros r Hr; apply andb_true_iff in Hr as [Hv _]; exact Hv]).
Qed.



Lemma getFacultyById_returns (i : Z) (d : Db) :
  failure d = None ->
  faculty.getFacultyById i d
  = (Returned (head (List.filter (fun r => FacultyMember.id r =? i) (faculty d))),
     with_log (log d ++ [Call (SelectFaculty [FacultyIdEq 1] false) [VInt i]]) d).
Proof.
  intros Hf. unfold faculty.getFacultyById.
  erewrite queryOne_returns; [reflexivity | exact Hf |].
  cbn [exec]. unfold select_faculty.
  cbn [faculty_where faculty_cond_holds arg nth_error faculty with_log].
  f_equal. f_equal. apply List.filter_ext. intros r. apply andb_true_r.
Qed.

(** [getFacultyById] does not look at [is_visible]: it returns a hidden
    member, which no call of [getFacultyList] ever lists. *)
Theorem hidden_member_is_found_by_id_only :
  forall (d : Db) (r : FacultyMember.t),
    failure d = None ->
    In r (faculty d) ->
    FacultyMember.isVisible r = false ->
    (forall x, In x (faculty d) -> FacultyMember.id x = FacultyMember.id r -> x = r) ->
    (exists d', faculty.getFacultyById (FacultyMember.id r) d
                = (Returned (Some r), d'))
    /\ forall category searchQuery rows d',
         faculty.getFacultyList category searchQuery d = (Returned rows, d') ->
         ~ In r rows.
Proof.
  intros d r Hf Hin Hhidden Hunique. split.
  - rewrite getFacultyById_returns by exact Hf. eexists. f_equal. f_equal.
    pose proof (head_filter (fun x => FacultyMember.id x =? FacultyMember.id r)
                  (faculty d)) as Hh.
    destruct (head _) as [x |].
    + destruct Hh as [Hx He]. apply Z.eqb_eq in He. f_equal.
      apply Hunique; assumption.
    + specialize (Hh r Hin). rewrite Z.eqb_refl in Hh. discriminate Hh.
  - intros category searchQuery rows d' Hget Hr.
    destruct (getFacultyList_returns category searchQuery d Hf)
      as (f & d'' & Hget' & _ & Hvis).
    rewrite Hget' in Hget. injection Hget as <- _.
    apply In_sorted_filter in Hr as [_ Hr]. apply Hvis in Hr. congruence.
Qed.

Lemma hidden_member_is_found_by_id_only_witness :
  (exists d', faculty.getFacultyById 4 Examples.staffDb
              = (Returned (Some (Examples.staff 4 "Emmy" 5 false None)), d'))
  /\ forall category searchQuery rows d',
       faculty.getFacultyList category searchQuery Examples.staffDb
       = (Returned rows, d') ->
       ~ In (Examples.staff 4 "Emmy" 5 false None) rows.
Proof.
  apply (hidden_member_is_found_by_id_only Examples.staffDb
           (Examples.staff 4 "Emmy" 5 false None)).
  - reflexivity.
  - right. right. right. left. reflexivity.
  - reflexivity.
  - intros x Hx E. cbn in Hx.
    repeat (destruct Hx as [<- | Hx]; [first [reflexivity | discriminate E] |]).
    contradiction.
Defined.

(** *** Search *)










(** The member whose research interest is [logic] is not found by the
    search for [logic]; the member with [Logician] in the name is. *)
Example search_misses_the_research_interest :
  fst (faculty.searchFaculty "logic" Examples.staffDb)
  = Returned [Examples.staff 3 "Kurt Logician" 20 true None].
Proof. vm_compute. reflexivity. Qed.

(** *** Creation and deletion *)






Lemma deleteFaculty_returns (i : Z) (d : Db) :
  failure d = None ->
  faculty.deleteFaculty i d
  = (Returned (existsb (fun r => FacultyMember.id r =? i) (faculty d)),
     with_faculty (List.filter (fun r => negb (FacultyMember.id r =? i)) (faculty d))
       (with_log (log d ++ [Call DeleteFaculty [VInt i]]) d)).
Proof.
  intros Hf. unfold faculty.deleteFaculty, bind.
  erewrite queryOne_returns; [| exact Hf | cbn [exec]; reflexivity].
  cbn [faculty with_log]. unfold ret. rewrite head_map_filter. reflexivity.
Qed.



End FacultyRepository.

(* ===================================================================== *)
(** ** Routes: what they answer *)
(* ===================================================================== *)

Section RouteAnswers.
Import Store db Http.

Lemma queryOne_fails {T} (queryText : stmt T) params d msg :
  failure d = Some msg ->
  queryOne queryText params d
  = (Threw (Spec.wrapped msg), with_log (log d ++ [Call queryText params]) d).
Proof.
  intros Hf. unfold queryOne, query, try_catch, bind, sql, throw.
  cbn [failure with_log]. rewrite Hf. reflexivity.
Qed.

Lemma query_fails {T} (queryText : stmt T) params d msg :
  failure d = Some msg ->
  query queryText params d
  = (Threw (Spec.wrapped msg), with_log (log d ++ [Call queryText params]) d).
Proof.
  intros Hf. unfold query, try_catch, sql, throw.
  cbn [failure with_log]. rewrite Hf. reflexivity.
Qed.

Lemma valid_id (request : Request) (z : Z) :
  parseId request = Js.Num z -> 1 <= z ->
  NewsApi.invalidId (parseId request) = false
  /\ NewsApi.idOf (parseId request) = z.
Proof.
  intros -> Hz. unfold NewsApi.invalidId. cbn.
  split; [apply Z.ltb_ge; lia | reflexivity].
Qed.

(** GET /api/news/[id] and GET /api/faculty/[id] with an id that is an
    integer from 1 to 2147483647, the ids that the column can hold, on a
    store that answers: 200 with the stored row of that id, hidden or
    unpublished as it may be, and 404 when no row has the id; no row is
    changed. *)
Theorem item_routes_find_or_404 :
  forall (request : Request) (z : Z) (d : Db),
    failure d = None ->
    parseId request = Js.Num z -> 1 <= z <= 2147483647 ->
    (exists d',
        NewsApi.GET request d
        = (Returned
             (Spec.foundOr404 NewsBody "News article not found"
                (head (List.filter (fun r => NewsItem.id r =? z) (news d)))), d')
        /\ news d' = news d)
    /\ (exists d',
          FacultyApi.GET request d
          = (Returned
               (Spec.foundOr404 FacultyBody "Faculty member not found"
                  (head (List.filter (fun r => FacultyMember.id r =? z)
                           (faculty d)))), d')
          /\ faculty d' = faculty d).
Proof.
  intros request z d Hf Hid [Hz _].
  destruct (valid_id request z Hid Hz) as [Hvalid Hof].
  split.
  - unfold NewsApi.GET, try_catch, bind. rewrite Hvalid, Hof.
    rewrite getNewsById_returns by exact Hf.
    destruct (head _); (eexists; split; reflexivity).
  - unfold FacultyApi.GET, try_catch, bind. rewrite Hvalid, Hof.
    rewrite getFacultyById_returns by exact Hf.
    destruct (head _); (eexists; split; reflexivity).
Qed.

Lemma item_routes_find_or_404_witness :
  (exists d',
      NewsApi.GET {| id := Some "3"; payload := Parsed JNull |} Examples.tenNewsDb
      = (Returned
           (Spec.foundOr404 NewsBody "News article not found"
              (head (List.filter (fun r => NewsItem.id r =? 3)
                       (news Examples.tenNewsDb)))), d')
      /\ news d' = news Examples.tenNewsDb)
  /\ (exists d',
        FacultyApi.GET {| id := Some "3"; payload := Parsed JNull |}
          Examples.tenNewsDb
        = (Returned
             (Spec.foundOr404 FacultyBody "Faculty member not found"
                (head (List.filter (fun r => FacultyMember.id r =? 3)
                         (faculty Examples.tenNewsDb)))), d')
        /\ faculty d' = faculty Examples.tenNewsDb).
Proof.
  apply (item_routes_find_or_404 {| id := Some "3"; payload := Parsed JNull |} 3
           Examples.tenNewsDb).
  - reflexivity.
  - reflexivity.
  - lia.
Defined.

(** DELETE /api/news/[id] and DELETE /api/faculty/[id] with an id that
    is an integer from 1 to 2147483647, the ids that the column can hold,
    on a store that answers: 200 and the rows of that id are gone, or 404
    when there was none; the other rows stay. *)
Theorem delete_routes_remove_or_404 :
  forall (request : Request) (z : Z) (d : Db),
    failure d = None ->
    parseId request = Js.Num z -> 1 <= z <= 2147483647 ->
    (exists d',
        NewsApi.DELETE request d
        = (Returned
             (Spec.deletedOr404 "News article deleted successfully"
                "News article not found"
                (existsb (fun r => NewsItem.id r =? z) (news d))), d')
        /\ news d' = List.filter (fun r => negb (NewsItem.id r =? z)) (news d))
    /\ (exists d',
          FacultyApi.DELETE request d
          = (Returned
               (Spec.deletedOr404 "Faculty member deleted successfully"
                  "Faculty member not found"
                  (existsb (fun r => FacultyMember.id r =? z) (faculty d))), d')
          /\ faculty d'
             = List.filter (fun r => negb (FacultyMember.id r =? z)) (faculty d)).
Proof.
  intros request z d Hf Hid [Hz _].
  destruct (valid_id request z Hid Hz) as [Hvalid Hof].
  split.
  - unfold NewsApi.DELETE, try_catch, bind. rewrite Hvalid, Hof.
    rewrite deleteNews_returns by exact Hf.
    destruct (existsb _ _); (eexists; split; reflexivity).
  - unfold FacultyApi.DELETE, try_catch, bind. rewrite Hvalid, Hof.
    rewrite deleteFaculty_returns by exact Hf.
    destruct (existsb _ _); (eexists; split; reflexivity).
Qed.

Lemma delete_routes_remove_or_404_witness :
  (exists d',
      NewsApi.DELETE {| id := Some "3"; payload := Parsed JNull |}
        Examples.tenNewsDb
      = (Returned
           (Spec.deletedOr404 "News article deleted successfully"
              "News article not found"
              (existsb (fun r => NewsItem.id r =? 3) (news Examples.tenNewsDb))),
         d')
      /\ news d'
         = List.filter (fun r => negb (NewsItem.id r =? 3))
             (news Examples.tenNewsDb))
  /\ (exists d',
        FacultyApi.DELETE {| id := Some "3"; payload := Parsed JNull |}
          Examples.tenNewsDb
        = (Returned
             (Spec.deletedOr404 "Faculty member deleted successfully"
                "Faculty member not found"
                (existsb (fun r => FacultyMember.id r =? 3)
                   (faculty Examples.tenNewsDb))), d')
        /\ faculty d'
           = List.filter (fun r => negb (FacultyMember.id r =? 3))
               (faculty Examples.tenNewsDb)).
Proof.
  apply (delete_routes_remove_or_404 {| id := Some "3"; payload := Parsed JNull |}
           3 Examples.tenNewsDb).
  - reflexivity.
  - reflexivity.
  - lia.
Defined.

(** When the store fails, the routes by id that read or delete answer
    500 'Internal server error', and so do both list routes: the message
    of the failure does not reach the client. *)
Theorem store_failure_is_500 :
  forall (request : Request) (z : Z) (d : Db) (msg : string),
    failure d = Some msg ->
    parseId request = Js.Num z -> 1 <= z ->
    fst (NewsApi.GET request d) = Returned Spec.internal
    /\ fst (NewsApi.DELETE request d) = Returned Spec.internal
    /\ fst (FacultyApi.GET request d) = Returned Spec.internal
    /\ fst (FacultyApi.DELETE request d) = Returned Spec.internal
    /\ (forall url,
          fst (ListApi.GET_faculty url d)
          = Returned {| ListApi.status := 500;
                        ListApi.body := ListApi.ListError "Internal server error" |})
    /\ (forall url, exists resp d',
          ListApi.GET_news url d = (Returned resp, d')
          /\ (ListApi.status resp = 400 \/ ListApi.status resp = 500)).
Proof.
  intros request z d msg Hf Hid Hz.
  destruct (valid_id request z Hid Hz) as [Hvalid Hof].
  repeat split.
  - unfold NewsApi.GET, try_catch, bind, news.getNewsById.
    rewrite Hvalid, Hof, (queryOne_fails _ _ _ _ Hf). reflexivity.
  - unfold NewsApi.DELETE, try_catch, bind, news.deleteNews, bind.
    rewrite Hvalid, Hof, (queryOne_fails _ _ _ _ Hf). reflexivity.
  - unfold FacultyApi.GET, try_catch, bind, faculty.getFacultyById.
    rewrite Hvalid, Hof, (queryOne_fails _ _ _ _ Hf). reflexivity.
  - unfold FacultyApi.DELETE, try_catch, bind, faculty.deleteFaculty, bind.
    rewrite Hvalid, Hof, (queryOne_fails _ _ _ _ Hf). reflexivity.
  - intros url. unfold ListApi.GET_faculty, try_catch, bind,
      faculty.getFacultyList.
    destruct (Js.truthy (Js.truthy _)), (Js.truthy (Js.truthy _));
      rewrite (query_fails _ _ _ _ Hf); reflexivity.
  - intros url. unfold ListApi.GET_news, try_catch, bind.
    destruct (_ || _).
    + eexists. eexists. split; [reflexivity | left; reflexivity].
    + unfold ListApi.getNewsList, bind.
      destruct (Js.truthy (Js.truthy _));
        rewrite (query_fails _ _ _ _ Hf);
        (eexists; eexists; split; [reflexivity | right; reflexivity]).
Qed.

Lemma store_failure_is_500_witness :
  fst (NewsApi.GET {| id := Some "1"; payload := Parsed JNull |} Examples.downDb)
  = Returned Spec.internal
  /\ fst (NewsApi.DELETE {| id := Some "1"; payload := Parsed JNull |}
            Examples.downDb)
     = Returned Spec.internal.
Proof.
  destruct (store_failure_is_500 {| id := Some "1"; payload := Parsed JNull |} 1
              Examples.downDb "connection refused" eq_refl eq_refl ltac:(lia))
    as (H1 & H2 & _).
  split; [exact H1 | exact H2].
Defined.

Lemma member_cases (body : json) (k : string) (d : Db) :
  member body k d = (Returned (get body k), d)
  \/ exists e, member body k d = (Threw e, d).
Proof. destruct body; [right; eexists; reflexivity | left; reflexivity ..]. Qed.

Lemma answers_try_catch (statuses : list Z) (m : M Response)
  (h : exn -> M Response) (d : Db) :
  (forall e d0, exists r, h e d0 = (Returned r, d0)
                          /\ In (status r) statuses /\ status r <> 400) ->
  match m d with
  | (Returned r, d') => In (status r) statuses /\ (status r = 400 -> d' = d)
  | (Threw _, _) => True
  end ->
  Spec.answers statuses d (try_catch m h d).
Proof.
  intros Hh Hm. unfold Spec.answers, try_catch.
  destruct (m d) as [[r | e] d'].
  - exists r, d'. split; [reflexivity | exact Hm].
  - destruct (Hh e d') as (r & -> & Hin & Hne).
    exists r, d'. split; [reflexivity |]. split; [exact Hin |].
    intros H. contradiction.
Qed.

Ltac one_of := repeat first [left; reflexivity | right].

Ltac answered :=
  cbn [status];
  split; [one_of | let H := fresh in intros H; first [reflexivity | discriminate H]].

Ltac split_ifs :=
  repeat match goal with
         | |- context [if ?b then _ else _] => destruct b; [answered |]
         end.

Lemma conflictOrInternal_answers statuses :
  In 409 statuses -> In 500 statuses ->
  forall e d0, exists r, NewsApi.conflictOrInternal e d0 = (Returned r, d0)
                         /\ In (status r) statuses /\ status r <> 400.
Proof.
  intros H409 H500 e d0. unfold NewsApi.conflictOrInternal, ret.
  destruct (_ || _); eexists; (split; [reflexivity |]); cbn [status];
    (split; [assumption | discriminate]).
Qed.

Lemma internalError_answers statuses (h : exn -> M Response) :
  In 500 statuses ->
  (forall e, h e = ret Spec.internal) ->
  forall e d0, exists r, h e d0 = (Returned r, d0)
                         /\ In (status r) statuses /\ status r <> 400.
Proof.
  intros H500 Hh e d0. rewrite Hh. exists Spec.internal.
  split; [reflexivity |]. split; [exact H500 | discriminate].
Qed.

(** Every route on a news article or a faculty member answers, whatever
    the request and the store: it never throws, its status is one of
    those listed for it, and when it answers 400 nothing has been sent to
    the store.  Only the routes that write news answer 409. *)
Theorem routes_always_answer :
  forall (request : Request) (d : Db),
    Spec.answers [201; 400; 409; 500] d (NewsApi.POST request d)
    /\ Spec.answers [200; 400; 404; 409; 500] d (NewsApi.PUT request d)
    /\ Spec.answers [200; 400; 404; 500] d (NewsApi.GET request d)
    /\ Spec.answers [200; 400; 404; 500] d (NewsApi.DELETE request d)
    /\ Spec.answers [201; 400; 500] d (FacultyApi.POST request d)
    /\ Spec.answers [200; 400; 404; 500] d (FacultyApi.PUT request d)
    /\ Spec.answers [200; 400; 404; 500] d (FacultyApi.GET request d)
    /\ Spec.answers [200; 400; 404; 500] d (FacultyApi.DELETE request d).
Proof.
  intros request d. repeat split.
  - apply answers_try_catch;
      [apply conflictOrInternal_answers; one_of |].
    unfold NewsApi.POST_try, bind, json_of.
    destruct (payload request) as [body | msg]; [| exact I].
    unfold ret at 1. cbv beta iota.
    destruct (member_cases body "title" d) as [-> | [e ->]]; [| exact I].
    cbv beta iota. unfold badRequest, ret.
    split_ifs.
    destruct (news.createNews _ d) as [[r | e] d']; [answered | exact I].
  - apply answers_try_catch;
      [apply conflictOrInternal_answers; one_of |].
    unfold NewsApi.PUT_try, bind, json_of, badRequest.
    destruct (NewsApi.invalidId _); [unfold ret; answered |].
    destruct (payload request) as [body | msg]; [| exact I].
    unfold ret at 1. cbv beta iota.
    destruct (member_cases body "title" d) as [-> | [e ->]]; [| exact I].
    cbv beta iota. unfold ret.
    split_ifs.
    destruct (news.updateNews _ _ d) as [[[r |] | e] d'];
      [answered | answered | exact I].
  - apply answers_try_catch;
      [apply internalError_answers; [one_of | reflexivity] |].
    unfold bind, badRequest, ret.
    destruct (NewsApi.invalidId _); [answered |].
    destruct (news.getNewsById _ d) as [[[r |] | e] d'];
      [answered | answered | exact I].
  - apply answers_try_catch;
      [apply internalError_answers; [one_of | reflexivity] |].
    unfold bind, badRequest, ret.
    destruct (NewsApi.invalidId _); [answered |].
    destruct (news.deleteNews _ d) as [[[|] | e] d'];
      [answered | answered | exact I].
  - apply answers_try_catch;
      [apply internalError_answers; [one_of | reflexivity] |].
    unfold FacultyApi.POST_try, bind, json_of.
    destruct (payload request) as [body | msg]; [| exact I].
    unfold ret at 1. cbv beta iota.
    destruct (member_cases body "name" d) as [-> | [e ->]]; [| exact I].
    cbv beta iota. unfold badRequest, ret.
    split_ifs.
    destruct (FacultyApi.optionalFieldError body); [answered |].
    destruct (faculty.createFaculty _ d) as [[r | e] d']; [answered | exact I].
  - apply answers_try_catch;
      [apply internalError_answers; [one_of | reflexivity] |].
    unfold FacultyApi.PUT_try, bind, json_of, badRequest.
    destruct (NewsApi.invalidId _); [unfold ret; answered |].
    destruct (payload request) as [body | msg]; [| exact I].
    unfold ret at 1. cbv beta iota.
    destruct (member_cases body "name" d) as [-> | [e ->]]; [| exact I].
    cbv beta iota. unfold ret.
    split_ifs.
    destruct (FacultyApi.optionalFieldError body); [answered |].
    split_ifs.
    destruct (faculty.updateFaculty _ _ d) as [[[r |] | e] d'];
      [answered | answered | exact I].
  - apply answers_try_catch;
      [apply internalError_answers; [one_of | reflexivity] |].
    unfold bind, badRequest, ret.
    destruct (NewsApi.invalidId _); [answered |].
    destruct (faculty.getFacultyById _ d) as [[[r |] | e] d'];
      [answered | answered | exact I].
  - apply answers_try_catch;
      [apply internalError_answers; [one_of | reflexivity] |].
    unfold bind, badRequest, ret.
    destruct (NewsApi.invalidId _); [answered |].
    destruct (faculty.deleteFaculty _ d) as [[[|] | e] d'];
      [answered | answered | exact I].
Qed.

(** *** The list routes *)






(** GET /api/news checks the numbers it read, not that it read numbers:
    a page below 1 or a page size outside 1..100 is answered with 400
    before anything is sent to the store, but a page or page size that
    is no number passes the check, reaches the statement as [NaN], and the
    answer is 500. *)
Theorem news_list_route_checks_numbers_only :
  forall (url : ListApi.SearchParams.t) (d : Db),
    let page := Js.parseInt (ListApi.orDefault (ListApi.SearchParams.page url) "1") in
    let pageSize :=
      Js.parseInt (ListApi.orDefault (ListApi.SearchParams.pageSize url) "10") in
    ((exists p, page = Js.Num p /\ p < 1)
     \/ (exists s, pageSize = Js.Num s /\ (s < 1 \/ 100 < s)) ->
     ListApi.GET_news url d
     = (Returned
          {| ListApi.status := 400;
             ListApi.body :=
               ListApi.ListError "Invalid pagination parameters. Page must be >= 1, pageSize must be between 1 and 100." |},
        d))
    /\ (page = Js.NaN \/ pageSize = Js.NaN ->
        (forall p, page = Js.Num p -> 1 <= p) ->
        (forall s, pageSize = Js.Num s -> 1 <= s <= 100) ->
        exists d',
          ListApi.GET_news url d
          = (Returned
               {| ListApi.status := 500;
                  ListApi.body := ListApi.ListError "Internal server error" |},
             d')
          /\ length (log d') = S (length (log d))).
Proof.
  intros url d page pageSize. split.
  - intros Hbad. unfold ListApi.GET_news, try_catch.
    fold page. fold pageSize.
    assert (Hcheck : Js.lt page 1 || Js.lt pageSize 1 || ListApi.gt pageSize 100
                     = true).
    { destruct Hbad as [(p & -> & Hp) | (s & -> & Hs)].
      - cbn [Js.lt]. destruct (Z.ltb_spec p 1); [reflexivity | lia].
      - cbn [Js.lt ListApi.gt].
        destruct (Z.ltb_spec s 1), (Z.ltb_spec 100 s);
          rewrite ?orb_true_r; try reflexivity; lia. }
    rewrite Hcheck. reflexivity.
  - intros Hnan Hp Hs. unfold ListApi.GET_news, try_catch, bind.
    fold page. fold pageSize. clearbody page pageSize.
    assert (Hcheck : Js.lt page 1 || Js.lt pageSize 1 || ListApi.gt pageSize 100
                     = false).
    { destruct page as [| p], pageSize as [| s]; cbn [Js.lt ListApi.gt orb];
        try reflexivity.
      - specialize (Hs s eq_refl).
        destruct (Z.ltb_spec s 1), (Z.ltb_spec 100 s); try reflexivity; lia.
      - specialize (Hp p eq_refl).
        destruct (Z.ltb_spec p 1); [lia | reflexivity].
      - destruct Hnan; discriminate. }
    rewrite Hcheck. unfold ListApi.getNewsList, bind.
    assert (Hparams :
              ListApi.numberParam pageSize = VText "NaN"
              \/ exists s, ListApi.numberParam pageSize = VInt s
                           /\ ListApi.numberParam (ListApi.offsetOf page pageSize)
                              = VText "NaN").
    { destruct pageSize as [| s]; [left; reflexivity |]. right. exists s.
      split; [reflexivity |].
      destruct page as [| p]; [reflexivity | destruct Hnan; discriminate]. }
    destruct (failure d) as [msg |] eqn:Hf.
    + destruct (Js.truthy (Js.truthy _));
        rewrite (query_fails _ _ _ _ Hf);
        (eexists; split; [reflexivity |]);
        cbn [log with_log]; rewrite List.length_app; cbn; lia.
    + destruct Hparams as [-> | (s & -> & ->)];
        destruct (Js.truthy (Js.truthy _)) as [c |];
        (erewrite (query_throws _ _ _ bind_error);
         [| exact Hf
          | cbn [exec]; unfold select_news;
            cbn [news_where news_cond_holds arg nth_error app length Nat.add];
            reflexivity]);
        (eexists; split; [reflexivity |]);
        cbn [log with_log]; rewrite List.length_app; cbn; lia.
Qed.

Lemma news_list_route_checks_numbers_only_witness :
  ListApi.GET_news Examples.pageZero Examples.tenNewsDb
  = (Returned
       {| ListApi.status := 400;
          ListApi.body :=
            ListApi.ListError "Invalid pagination parameters. Page must be >= 1, pageSize must be between 1 and 100." |},
     Examples.tenNewsDb)
  /\ exists d',
       ListApi.GET_news Examples.pageAbc Examples.tenNewsDb
       = (Returned
            {| ListApi.status := 500;
               ListApi.body := ListApi.ListError "Internal server error" |},
          d')
       /\ length (log d') = S (length (log Examples.tenNewsDb)).
Proof.
  split.
  - apply (proj1 (news_list_route_checks_numbers_only Examples.pageZero
                    Examples.tenNewsDb)).
    left. exists 0. split; [reflexivity | lia].
  - apply (proj2 (news_list_route_checks_numbers_only Examples.pageAbc
                    Examples.tenNewsDb)).
    + left. reflexivity.
    + intros p Hp. vm_compute in Hp. discriminate Hp.
    + intros s Hs. vm_compute in Hs. injection Hs as <-. lia.
Defined.



(** *** What a 201 means *)

(** What a column stores of a text that is not empty is not empty. *)
Lemma varchar_nonempty (n : nat) (s s' : string) :
  varchar (S n) s = Some s' -> s <> EmptyString -> s' <> EmptyString.
Proof.
  unfold varchar. destruct (fits (S n) s).
  - intros H. injection H as <-. auto.
  - destruct (onlySpaces _); [| discriminate].
    intros H. injection H as <-. intros Hne.
    destruct s as [| c s]; [contradiction |].
    cbn [takeChars]. destruct (isContinuation c); discriminate.
Qed.

(** The row that [createNews] returns is the one that it has appended. *)
Lemma createNews_returned (n : NewsInput.t) (d d' : Db) (r : NewsItem.t) :
  news.createNews n d = (Returned r, d') ->
  news d' = news d ++ [r]
  /\ NewsItem.id r = news_id_seq d + 1
  /\ NewsItem.viewCount r = 0
  /\ NewsItem.content r = NewsInput.content n
  /\ varchar 255 (NewsInput.title n) = Some (NewsItem.title r)
  /\ varchar 255 (NewsInput.slug n) = Some (NewsItem.slug r).
Proof.
  unfold news.createNews, bind, queryOne, query, try_catch, bind, sql, ret, throw.
  cbn [failure with_log]. destruct (failure d); [discriminate |].
  cbn [exec]. unfold insert_news.
  rewrite !text_or_null_orNull, array_or_null_arrayOrNull.
  cbn [news_id_seq now news with_log].
  destruct (varchar 255 (NewsInput.title n)); [| discriminate].
  destruct (varchar 255 (NewsInput.slug n)); [| discriminate].
  destruct (varchar_opt 500 _); [| discriminate].
  destruct (varchar_opt 100 _); [| discriminate].
  destruct (varchar_opt 50 _); [| discriminate].
  destruct (existsb _ _); [discriminate |].
  destruct (existsb _ _); [discriminate |].
  cbn [head]. intros H. injection H as <- <-. repeat split; reflexivity.
Qed.

Lemma createFaculty_returned (n : FacultyInput.t) (d d' : Db) (r : FacultyMember.t) :
  faculty.createFaculty n d = (Returned r, d') ->
  faculty d' = faculty d ++ [r]
  /\ FacultyMember.id r = faculty_id_seq d + 1
  /\ varchar 100 (FacultyInput.name n) = Some (FacultyMember.name r)
  /\ varchar 50 (FacultyInput.title n) = Some (FacultyMember.title r)
  /\ varchar 50 (FacultyInput.category n) = Some (FacultyMember.category r).
Proof.
  unfold faculty.createFaculty, bind, queryOne, query, try_catch, bind, sql, ret,
    throw.
  cbn [failure with_log]. destruct (failure d); [discriminate |].
  cbn [exec]. unfold insert_faculty.
  rewrite !text_or_null_orNull, array_or_null_arrayOrNull.
  cbn [faculty_id_seq now faculty with_log].
  destruct (negb _); [discriminate |].
  destruct (varchar 100 (FacultyInput.name n)); [| discriminate].
  destruct (varchar_opt 100 (Js.truthy (FacultyInput.nameEn n)));
    [| discriminate].
  destruct (varchar 50 (FacultyInput.title n)); [| discriminate].
  destruct (varchar 50 (FacultyInput.category n)); [| discriminate].
  destruct (varchar_opt 500 _); [| discriminate].
  destruct (varchar_opt 100 _); [| discriminate].
  destruct (varchar_opt 50 _); [| discriminate].
  destruct (varchar_opt 100 _); [| discriminate].
  destruct (existsb _ _); [discriminate |].
  cbn [head]. intros H. injection H as <- <-. repeat split; reflexivity.
Qed.

Lemma required_nonempty (v : option json) :
  notRequiredString v = false -> Js.trim (str v) <> EmptyString.
Proof.
  unfold notRequiredString. intros H.
  apply orb_false_iff in H as [_ H]. intros E. rewrite E in H. discriminate H.
Qed.

Ltac stop_at_400 Ht Hs :=
  repeat match type of Ht with
         | context [if ?b then _ else _] =>
             let E := fresh "E" in
             destruct b eqn:E;
             [injection Ht as <- <-; discriminate Hs |]
         end.

(** A 201 of POST /api/news or POST /api/faculty means that one row has
    been appended to the table, with the next id of the sequence; the row
    is the body of the answer, and its required texts (title, slug and
    content, respectively name, title and category) are not empty once
    trimmed. *)
Theorem created_means_stored :
  forall (request : Request) (d d' : Db) (resp : Response),
    status resp = 201 ->
    (NewsApi.POST request d = (Returned resp, d') ->
     exists n,
       body resp = NewsBody n
       /\ news d' = news d ++ [n]
       /\ NewsItem.id n = news_id_seq d + 1
       /\ NewsItem.viewCount n = 0
       /\ NewsItem.title n <> EmptyString
       /\ NewsItem.slug n <> EmptyString
       /\ NewsItem.content n <> EmptyString)
    /\ (FacultyApi.POST request d = (Returned resp, d') ->
        exists f,
          body resp = FacultyBody f
          /\ faculty d' = faculty d ++ [f]
          /\ FacultyMember.id f = faculty_id_seq d + 1
          /\ FacultyMember.name f <> EmptyString
          /\ FacultyMember.title f <> EmptyString
          /\ FacultyMember.category f <> EmptyString).
Proof.
  intros request d d' resp Hs. split.
  - unfold NewsApi.POST, try_catch.
    destruct (NewsApi.POST_try request d) as [[r | e] d1] eqn:Ht.
    2:{ unfold NewsApi.conflictOrInternal, ret. destruct (_ || _);
          intros H; injection H as <- _; discriminate Hs. }
    intros H. injection H as -> ->.
    unfold NewsApi.POST_try, bind, json_of in Ht.
    destruct (payload request) as [body0 | msg]; [| discriminate Ht].
    unfold ret at 1 in Ht. cbv beta iota in Ht.
    destruct (member_cases body0 "title" d) as [Hm | [e Hm]];
      rewrite Hm in Ht; [| discriminate Ht].
    cbv beta iota in Ht. unfold badRequest, ret in Ht.
    stop_at_400 Ht Hs.
    destruct (news.createNews _ d) as [[n | e] d2] eqn:Hc; [| discriminate Ht].
    injection Ht as <- <-.
    apply createNews_returned in Hc as (Hnews & Hid & Hview & Hcontent & Ht & Hsl).
    exists n.
    split; [reflexivity |]. split; [exact Hnews |].
    split; [exact Hid |]. split; [exact Hview |].
    cbn [NewsApi.newsData NewsInput.title NewsInput.slug NewsInput.content]
      in Hcontent, Ht, Hsl.
    split; [| split].
    + apply (varchar_nonempty _ _ _ Ht), required_nonempty; assumption.
    + apply (varchar_nonempty _ _ _ Hsl), required_nonempty; assumption.
    + rewrite Hcontent. apply required_nonempty; assumption.
  - unfold FacultyApi.POST, try_catch.
    destruct (FacultyApi.POST_try request d) as [[r | e] d1] eqn:Ht.
    2:{ unfold FacultyApi.internalError, ret.
        intros H; injection H as <- _; discriminate Hs. }
    intros H. injection H as -> ->.
    unfold FacultyApi.POST_try, bind, json_of in Ht.
    destruct (payload request) as [body0 | msg]; [| discriminate Ht].
    unfold ret at 1 in Ht. cbv beta iota in Ht.
    destruct (member_cases body0 "name" d) as [Hm | [e Hm]];
      rewrite Hm in Ht; [| discriminate Ht].
    cbv beta iota in Ht. unfold badRequest, ret in Ht.
    stop_at_400 Ht Hs.
    destruct (FacultyApi.optionalFieldError body0);
      [injection Ht as <- <-; discriminate Hs |].
    destruct (faculty.createFaculty _ d) as [[f | e] d2] eqn:Hc;
      [| discriminate Ht].
    injection Ht as <- <-.
    apply createFaculty_returned in Hc as (Hfac & Hid & Hn & Ht & Hca).
    exists f.
    split; [reflexivity |]. split; [exact Hfac |].
    split; [exact Hid |].
    cbn [FacultyApi.facultyData FacultyInput.name FacultyInput.title
         FacultyInput.category] in Hn, Ht, Hca.
    split; [| split].
    + apply (varchar_nonempty _ _ _ Hn), required_nonempty; assumption.
    + apply (varchar_nonempty _ _ _ Ht), required_nonempty; assumption.
    + apply (varchar_nonempty _ _ _ Hca), required_nonempty; assumption.
Qed.

Lemma created_means_stored_witness :
  exists n,
    news (snd (NewsApi.POST Examples.helloRequest Examples.tenNewsDb))
    = news Examples.tenNewsDb ++ [n]
    /\ NewsItem.id n = 11
    /\ NewsItem.title n = "Hello".
Proof.
  destruct (proj1 (created_means_stored Examples.helloRequest Examples.tenNewsDb
                     (snd (NewsApi.POST Examples.helloRequest Examples.tenNewsDb))
                     {| status := 201;
                        body := NewsBody
                                  (Spec.createdRow Examples.tenNewsDb
                                     (NewsApi.newsData
                                        (JObj [("title", JStr " Hello ");
                                               ("slug", JStr "hello");
                                               ("content", JStr "text")]))) |}
                     eq_refl) eq_refl)
    as (n & Hb & Hn & Hid & _).
  exists n. split; [exact Hn |]. split; [exact Hid |].
  injection Hb as <-. reflexivity.
Defined.

(** *** PUT with null *)

Ltac decide_checks :=
  repeat match goal with
         | |- context [if ?b then _ else _] =>
             let v := eval vm_compute in b in
             change b with v; cbv iota
         end.

(** PUT /api/news/[id] cannot clear an optional text: a body whose only
    field is [summary], [thumbnailUrl], [author] or [category] with the
    value null passes the checks, but the field is dropped from the
    update, which then has no field and only reads: for an id from 1 to
    2147483647, the ids that the column can hold, the answer is 200 with
    the stored row as it was, or 404, and no row changes. *)
Theorem null_does_not_clear :
  forall (k : string) (request : Request) (z : Z) (d : Db),
    In k ["summary"; "thumbnailUrl"; "author"; "category"] ->
    payload request = Parsed (JObj [(k, JNull)]) ->
    parseId request = Js.Num z -> 1 <= z <= 2147483647 ->
    failure d = None ->
    exists d',
      NewsApi.PUT request d
      = (Returned
           (Spec.foundOr404 NewsBody "News article not found"
              (head (List.filter (fun r => NewsItem.id r =? z) (news d)))), d')
      /\ news d' = news d.
Proof.
  intros k request z d Hk Hp Hid [Hz _] Hf.
  destruct (valid_id request z Hid Hz) as [Hvalid Hof].
  unfold NewsApi.PUT, NewsApi.PUT_try, try_catch. rewrite Hvalid, Hof.
  unfold bind at 1, json_of. rewrite Hp.
  unfold ret at 1. cbv beta iota.
  destruct Hk as [<- | [<- | [<- | [<- | []]]]];
    (unfold bind at 1, member, ret at 1; cbv beta iota;
     unfold badRequest; decide_checks;
     match goal with
     | |- context [NewsApi.updateData ?b] =>
         let p := eval vm_compute in (NewsApi.updateData b) in
         change (NewsApi.updateData b) with p
     end;
     change (news.updateNews z
               (NewsPatch.mk None None None None None None None None None))
       with (news.getNewsById z);
     unfold bind; rewrite getNewsById_returns by exact Hf;
     destruct (head _); (eexists; split; reflexivity)).
Qed.

Lemma null_does_not_clear_witness :
  exists d',
    NewsApi.PUT Examples.clearSummary Examples.summaryDb
    = (Returned {| status := 200; body := NewsBody Examples.withSummary |}, d')
    /\ news d' = [Examples.withSummary]
    /\ NewsItem.summary Examples.withSummary = Some "In short".
Proof.
  destruct (null_does_not_clear "summary" Examples.clearSummary 3
              Examples.summaryDb (or_introl eq_refl) eq_refl eq_refl
              ltac:(lia) eq_refl) as (d' & H1 & H2).
  exists d'. split; [exact H1 |]. split; [exact H2 | reflexivity].
Defined.

End RouteAnswers.

(* ===================================================================== *)
(** ** Faculty repository: what an update leaves alone *)
(* ===================================================================== *)

Section FacultyUpdate.
Import Store db.

Lemma set_faculty_col_keeps (c : faculty_col) (v : sqlval) (r r' : FacultyMember.t) :
  set_faculty_col c v r = Some r' ->
  FacultyMember.id r' = FacultyMember.id r
  /\ FacultyMember.createdAt r' = FacultyMember.createdAt r.
Proof.
  destruct r. unfold set_faculty_col.
  destruct c; cbv beta zeta;
    try (destruct (text_or_null v)); try (destruct (array_or_null v));
    try (destruct v);
    intros H; try discriminate H; injection H as <-; split; reflexivity.
Qed.

Lemma apply_faculty_sets_keeps (planned : list (faculty_col * sqlval))
  (t : Z) (r r' : FacultyMember.t) :
  apply_faculty_sets planned t r = Some r' ->
  FacultyMember.id r' = FacultyMember.id r
  /\ FacultyMember.createdAt r' = FacultyMember.createdAt r.
Proof.
  revert r. induction planned as [| [c v] planned IH]; intros r;
    cbn [apply_faculty_sets].
  - intros H. injection H as <-. destruct r. split; reflexivity.
  - destruct (set_faculty_col c v r) as [r1 |] eqn:E; [| discriminate].
    intros H. apply IH in H as [H1 H2].
    apply set_faculty_col_keeps in E as [E1 E2]. split; congruence.
Qed.

Lemma traverse_map {A} (f : A -> option A) (l l' : list A) :
  traverse f l = Some l' ->
  l' = map (fun x => match f x with Some y => y | None => x end) l.
Proof.
  revert l'. induction l as [| x l IH]; intros l'; cbn [traverse map].
  - intros H. injection H as <-. reflexivity.
  - destruct (f x) as [y |]; [| discriminate].
    destruct (traverse f l) as [ys |]; [| discriminate].
    intros H. injection H as <-. f_equal. apply IH. reflexivity.
Qed.

Lemma pushField_index {col : Type} (st : list (col * nat) * list sqlval * nat)
  (c : col) (v : option sqlval) :
  snd st = S (length (snd (fst st))) ->
  snd (news.pushField st c v) = S (length (snd (fst (news.pushField st c v)))).
Proof.
  destruct st as [[fields params] idx]. destruct v as [x |]; cbn; [| tauto].
  intros ->. rewrite List.length_app. cbn. lia.
Qed.

Lemma arg_last (params : list sqlval) (x : sqlval) :
  arg (params ++ [x]) (S (length params)) = Some x.
Proof.
  cbn [arg]. rewrite List.nth_error_app2 by lia.
  rewrite Nat.sub_diag. reflexivity.
Qed.

Lemma map_if_same {A} (f : A -> bool) (l : list A) :
  map (fun r => if f r then r else r) l = l.
Proof.
  rewrite <- (map_id l) at 2. apply map_ext. intros r. destruct (f r); reflexivity.
Qed.

Lemma touchesOnly_same (i : Z) (d d' : Db) :
  faculty d' = faculty d -> Spec.touchesOnly i d d'.
Proof.
  intros H. exists (fun r => r). split; [intros r; split; reflexivity |].
  rewrite H. symmetry. apply map_if_same.
Qed.

Lemma update_tail (i : Z) (fields : list (faculty_col * nat))
  (params : list sqlval) (d : Db) :
  exists out d',
    (if (length fields =? 0)%nat then faculty.getFacultyById i
     else queryOne (UpdateFaculty fields (S (length params))) (params ++ [VInt i])) d
    = (out, d')
    /\ Spec.touchesOnly i d d'
    /\ match out with
       | Returned (Some r) => FacultyMember.id r = i /\ In r (faculty d')
       | Returned None =>
           failure d = None
           /\ forall r, In r (faculty d) -> FacultyMember.id r <> i
       | Threw _ => faculty d' = faculty d
       end.
Proof.
  destruct (failure d) as [msg |] eqn:Hf.
  { destruct (length fields =? 0)%nat.
    - unfold faculty.getFacultyById. rewrite (queryOne_fails _ _ _ _ Hf).
      eexists. eexists. split; [reflexivity |].
      split; [apply touchesOnly_same |]; reflexivity.
    - rewrite (queryOne_fails _ _ _ _ Hf).
      eexists. eexists. split; [reflexivity |].
      split; [apply touchesOnly_same |]; reflexivity. }
  destruct (length fields =? 0)%nat.
  - rewrite getFacultyById_returns by exact Hf.
    eexists. eexists. split; [reflexivity |].
    split; [apply touchesOnly_same; reflexivity |].
    pose proof (head_filter (fun r => FacultyMember.id r =? i) (faculty d)) as Hh.
    destruct (head _) as [r |].
    + destruct Hh as [Hin He]. apply Z.eqb_eq in He. split; assumption.
    + split; [reflexivity |]. intros r Hr E. specialize (Hh r Hr).
      apply Z.eqb_neq in Hh. contradiction.
  - set (q := UpdateFaculty fields (S (length params))).
    set (ps := params ++ [VInt i]).
    set (d0 := with_log (log d ++ [Call q ps]) d).
    destruct (sort_order_error fields ps) as [e |] eqn:Hsort.
    { assert (Hexec : exec q ps d0 = (inl e, d0)).
      { unfold q. cbn [exec]. unfold update_faculty, ps.
        rewrite arg_last. fold ps. rewrite Hsort. reflexivity. }
      rewrite (queryOne_throws q ps d e d0 Hf Hexec).
      eexists. eexists. split; [reflexivity |].
      split; [apply touchesOnly_same |]; reflexivity. }
    destruct (plan_sets (fun c => coerce_text (faculty_width c)) fields ps)
      as [e | planned] eqn:Hplan.
    { assert (Hexec : exec q ps d0 = (inl e, d0)).
      { unfold q. cbn [exec]. unfold update_faculty, ps.
        rewrite arg_last. fold ps. rewrite Hsort, Hplan. reflexivity. }
      rewrite (queryOne_throws q ps d e d0 Hf Hexec).
      eexists. eexists. split; [reflexivity |].
      split; [apply touchesOnly_same |]; reflexivity. }
    set (g := fun r => match apply_faculty_sets planned (now d) r with
                       | Some r' => r'
                       | None => r
                       end).
    assert (Hg : forall r, FacultyMember.id (g r) = FacultyMember.id r
                           /\ FacultyMember.createdAt (g r)
                              = FacultyMember.createdAt r).
    { intros r. unfold g.
      destruct (apply_faculty_sets planned (now d) r) as [r' |] eqn:E;
        [apply (apply_faculty_sets_keeps _ _ _ _ E) | split; reflexivity]. }
    assert (Hexec :
              exec q ps d0
              = match traverse (apply_faculty_sets planned (now d))
                        (List.filter (fun r => FacultyMember.id r =? i)
                           (faculty d)) with
                | None => (inl bind_error, d0)
                | Some updated =>
                    (inr updated,
                     with_faculty
                       (map (fun r => if FacultyMember.id r =? i then g r
                                      else r) (faculty d)) d0)
                end).
    { unfold q. cbn [exec]. unfold update_faculty, ps.
      rewrite arg_last. fold ps. rewrite Hsort, Hplan. reflexivity. }
    destruct (traverse _ _) as [updated |] eqn:Htr.
    + rewrite (queryOne_returns q ps d updated _ Hf Hexec).
      eexists. eexists. split; [reflexivity |].
      split; [exists g; split; [exact Hg | reflexivity] |].
      apply traverse_map in Htr. fold g in Htr.
      cbn [faculty with_faculty].
      destruct updated as [| r rest]; cbn [head].
      * split; [reflexivity |]. intros r Hr E.
        destruct (List.filter _ (faculty d)) as [| x xs] eqn:Efil;
          [| discriminate Htr].
        assert (Hin : In r (List.filter (fun r0 => FacultyMember.id r0 =? i)
                              (faculty d))).
        { apply List.filter_In. split; [exact Hr | apply Z.eqb_eq, E]. }
        rewrite Efil in Hin. exact Hin.
      * destruct (List.filter _ (faculty d)) as [| x xs] eqn:Efil;
          [discriminate Htr |].
        cbn [map] in Htr. injection Htr as -> _.
        assert (Hx : In x (List.filter (fun r0 => FacultyMember.id r0 =? i)
                             (faculty d))).
        { rewrite Efil. left. reflexivity. }
        apply List.filter_In in Hx as [Hx He].
        split.
        -- rewrite (proj1 (Hg x)). apply Z.eqb_eq, He.
        -- apply in_map_iff. exists x. rewrite He. split; [reflexivity | exact Hx].
    + rewrite (queryOne_throws q ps d bind_error d0 Hf Hexec).
      eexists. eexists. split; [reflexivity |].
      split; [apply touchesOnly_same |]; reflexivity.
Qed.

(** [updateFaculty], whatever the patch and the store: it changes no
    [id] and no [createdAt] and only rows of the given id; a row it
    returns has that id and is in the table afterwards; it returns null
    only when no row has the id; when it throws, the table is as it was. *)
Theorem update_faculty_touches_one_id :
  forall (i : Z) (p : FacultyPatch.t) (d : Db),
    exists out d',
      faculty.updateFaculty i p d = (out, d')
      /\ Spec.touchesOnly i d d'
      /\ match out with
         | Returned (Some r) => FacultyMember.id r = i /\ In r (faculty d')
         | Returned None =>
             failure d = None
             /\ forall r, In r (faculty d) -> FacultyMember.id r <> i
         | Threw _ => faculty d' = faculty d
         end.
Proof.
  intros i p d. unfold faculty.updateFaculty. cbv zeta.
  match goal with
  | |- context [match ?st with pair _ _ => _ end] =>
      remember st as st0 eqn:Hst;
      assert (Hinv : snd st0 = S (length (snd (fst st0))))
        by (subst st0; repeat apply pushField_index; reflexivity);
      clear Hst
  end.
  destruct st0 as [[fields params] idx]. cbn [fst snd] in Hinv. subst idx.
  apply update_tail.
Qed.

End FacultyUpdate.

(* ===================================================================== *)
(** ** Reads, and an update through its route *)
(* ===================================================================== *)

Section ReadsAndWrites.
Import Store db Http.

Lemma sameTables_refl (d : Db) : Spec.sameTables d d.
Proof. repeat split. Qed.

Lemma sameTables_log (l : list call) (d : Db) : Spec.sameTables d (with_log l d).
Proof. repeat split. Qed.

Lemma sameTables_trans (d d1 d2 : Db) :
  Spec.sameTables d d1 -> Spec.sameTables d1 d2 -> Spec.sameTables d d2.
Proof.
  unfold Spec.sameTables. intros (A1 & A2 & A3 & A4 & A5) (B1 & B2 & B3 & B4 & B5).
  repeat split; congruence.
Qed.

Lemma query_keeps {T} (queryText : stmt T) params d :
  (forall d0, snd (exec queryText params d0) = d0) ->
  Spec.sameTables d (snd (query queryText params d)).
Proof.
  intros Hro. unfold query, try_catch, throw, sql. cbn [failure with_log].
  destruct (failure d); [apply sameTables_log |].
  match goal with
  | |- context [exec queryText params ?d0] =>
      specialize (Hro d0); destruct (exec queryText params d0) as [[msg | rows] d']
  end; cbn [snd] in *; subst d'; apply sameTables_log.
Qed.

Lemma queryOne_keeps {T} (queryText : stmt T) params d :
  (forall d0, snd (exec queryText params d0) = d0) ->
  Spec.sameTables d (snd (queryOne queryText params d)).
Proof.
  intros Hro. rewrite (queryOne_read_only _ _ _ Hro). apply sameTables_log.
Qed.

(** The functions that read change no table and no sequence, whatever
    their arguments and whether the store answers or fails: all they
    leave behind is the statements they sent. *)
Theorem reads_change_nothing :
  forall (d : Db),
    (forall page pageSize category,
        Spec.sameTables d (snd (news.getNewsList page pageSize category d)))
    /\ (forall i, Spec.sameTables d (snd (news.getNewsById i d)))
    /\ (forall s, Spec.sameTables d (snd (news.getNewsBySlug s d)))
    /\ (forall category searchQuery,
          Spec.sameTables d (snd (faculty.getFacultyList category searchQuery d)))
    /\ (forall i, Spec.sameTables d (snd (faculty.getFacultyById i d)))
    /\ (forall q, Spec.sameTables d (snd (faculty.searchFaculty q d)))
    /\ Spec.sameTables d (snd (navigation.getNavigationStructure d)).
Proof.
  intros d.
  assert (Hlist : forall category searchQuery,
             Spec.sameTables d
               (snd (faculty.getFacultyList category searchQuery d))).
  { intros category searchQuery. unfold faculty.getFacultyList.
    destruct (Js.truthy category), (Js.truthy searchQuery);
      apply query_keeps; reflexivity. }
  split; [| split; [| split; [| split; [| split; [| split]]]]].
  2, 3, 5: intros; apply queryOne_keeps; reflexivity.
  2: exact Hlist.
  2: intros q; apply Hlist.
  - intros page pageSize category. unfold news.getNewsList, bind.
    destruct (Js.truthy category) as [c |].
    + pose proof (query_keeps
                    (SelectNews ([NewsIsPublished] ++ [NewsCategoryEq (length (@nil sqlval) + 1)])
                       (Some ((length ([] ++ [VText c]) + 1)%nat,
                              (length ([] ++ [VText c]) + 2)%nat)))
                    (([] ++ [VText c]) ++ [VInt pageSize; VInt ((page - 1) * pageSize)])
                    d (fun _ => eq_refl)) as H1.
      destruct (query _ _ d) as [[items | e] d1]; [| exact H1].
      pose proof (queryOne_keeps
                    (CountNews ([NewsIsPublished] ++ [NewsCategoryEq 1]))
                    ([] ++ [VText c]) d1 (fun _ => eq_refl)) as H2.
      destruct (queryOne _ _ d1) as [[n | e] d2];
        exact (sameTables_trans _ _ _ H1 H2).
    + pose proof (query_keeps
                    (SelectNews [NewsIsPublished]
                       (Some ((length (@nil sqlval) + 1)%nat,
                              (length (@nil sqlval) + 2)%nat)))
                    ([] ++ [VInt pageSize; VInt ((page - 1) * pageSize)])
                    d (fun _ => eq_refl)) as H1.
      destruct (query _ _ d) as [[items | e] d1]; [| exact H1].
      pose proof (queryOne_keeps (CountNews [NewsIsPublished]) [] d1
                    (fun _ => eq_refl)) as H2.
      destruct (queryOne _ _ d1) as [[n | e] d2];
        exact (sameTables_trans _ _ _ H1 H2).
  - unfold navigation.getNavigationStructure, try_catch, bind, ret.
    pose proof (query_keeps SelectNavigation [] d (fun _ => eq_refl)) as H1.
    destruct (query SelectNavigation [] d) as [[rows | e] d1]; exact H1.
Qed.




End ReadsAndWrites.
